(** * EventLedger: webhook ingestion and subscription lifecycle

    A shallow embedding of [app/models.py], [app/services.py] and the secret
    registry of [app/api.py], and the properties of the specification that
    are settled against it.

    Conventions of the embedding.
    - A naive UTC [datetime] is a [Z]: microseconds since the epoch.  The
      readings of [datetime.utcnow()] made during one service call are
      identified with the single argument [now] of that call.
    - A table is the list of its rows in insertion order; a primary key is
      assigned as one more than the largest key in the table.
    - The SQLAlchemy session is a pair of stores, the committed database and
      the view of the running transaction, with the log of the session calls
      made; Python objects attached to the session are the rows of the
      transaction view, addressed by primary key.
    - A raised exception keeps the state reached when it was raised: the
      result of a computation is an outcome together with the state.
    - The standard library and third-party functions the code calls
      ([json.loads], pydantic's [model_validate], [datetime.fromisoformat],
      [datetime.utcfromtimestamp], [repr]) are the fields of a record [Libs];
      every definition and theorem is parametric in it. *)

From Stdlib Require Import ZArith List String Ascii Bool Lia DecimalString.
Import ListNotations.
Local Open Scope string_scope.
Local Open Scope list_scope.
Local Open Scope Z_scope.
Set Warnings "-register-all".

(** ** app/models.py *)

Definition datetime := Z.

Definition timedelta_seconds (n : Z) : Z := n * 1000000.
Definition timedelta_days (n : Z) : Z := n * 86400 * 1000000.

Inductive SubscriptionStatus :=
| active | canceled | past_due | pending_activation | expired.

Inductive PaymentStatus := pending | approved | refused.

Inductive WebhookProcessingStatus := received | processed | failed | ignored.

Definition SubscriptionStatus_eqb (a b : SubscriptionStatus) : bool :=
  match a, b with
  | active, active | canceled, canceled | past_due, past_due
  | pending_activation, pending_activation | expired, expired => true
  | _, _ => false
  end.

Definition WebhookProcessingStatus_eqb (a b : WebhookProcessingStatus) : bool :=
  match a, b with
  | received, received | processed, processed
  | failed, failed | ignored, ignored => true
  | _, _ => false
  end.

(** The exceptions of the code.  [OtherException] stands for every exception
    class the source does not declare (pydantic's ValidationError,
    ValueError, JSONDecodeError, ...); [str_exc] is [str(exc)]. *)
Inductive Exn :=
| InvalidPayloadError (msg : string)
| NotFoundError (msg : string)
| ReplayAttackError (msg : string)
| IntegrityError (msg : string)
| RuntimeError (msg : string)
| OtherException (msg : string).

Definition str_exc (e : Exn) : string :=
  match e with
  | InvalidPayloadError m | NotFoundError m | ReplayAttackError m
  | IntegrityError m | RuntimeError m | OtherException m => m
  end.

Definition is_InvalidPayloadError (e : Exn) : bool :=
  match e with InvalidPayloadError _ => true | _ => false end.

Definition is_IntegrityError (e : Exn) : bool :=
  match e with IntegrityError _ => true | _ => false end.

(** Python values as [json.loads] produces them.  A float is kept as its
    binary64 bit pattern; a dict is the list of its items in insertion
    order. *)
Inductive PyVal :=
| PyNone
| PyBool (b : bool)
| PyInt (n : Z)
| PyFloat (bits : Z)
| PyStr (s : string)
| PyList (l : list PyVal)
| PyDict (items : list (string * PyVal)).

Fixpoint dict_get {A : Type} (d : list (string * A)) (k : string) : option A :=
  match d with
  | [] => None
  | (k', v) :: d' => if String.eqb k' k then Some v else dict_get d' k
  end.

(** [d[k] = v]: an existing key keeps its place, a new one goes last. *)
Fixpoint dict_set {A : Type} (d : list (string * A)) (k : string) (v : A)
  : list (string * A) :=
  match d with
  | [] => [(k, v)]
  | (k', v') :: d' =>
      if String.eqb k' k then (k', v) :: d' else (k', v') :: dict_set d' k v
  end.

Module WebhookEventIn.
Record t := mk { event_id : string; event_type : string; payload_json : PyVal }.
End WebhookEventIn.

Module VerifiedWebhookData.
Record t := mk { raw_body : string; signature : string; timestamp : Z }.
End VerifiedWebhookData.

Module SubscriptionCreateIn.
Record t := mk {
    customer_id : option Z;
    customer_email : option string;
    plan_id : Z }.
End SubscriptionCreateIn.

Module SubscriptionCreateOut.
Record t := mk {
    subscription_id : Z;
    provider_subscription_id : string;
    customer_id : Z;
    provider_customer_id : string;
    status : SubscriptionStatus;
    plan_id : Z }.
End SubscriptionCreateOut.

(** The union [str | int | float] of the payload's [current_period_end]. *)
Inductive PeriodEndValue :=
| PE_str (s : string)
| PE_int (n : Z)
| PE_float (bits : Z).

(** [PaymentSucceededPayload] and [InvoicePaymentFailedPayload] declare the
    same fields; one record serves both. *)
Module Payload.
Record t := mk {
    provider_customer_id : string;
    provider_subscription_id : string;
    amount : Z;
    currency : string;
    current_period_end : option PeriodEndValue;
    payment_id : option string;
    invoice_id : option string }.
End Payload.

Module Customer.
Record t := mk {
    id : Z;
    provider_customer_id : option string;
    email : string;
    status : option string;
    created_at : datetime }.

Definition set_provider_customer_id (v : option string) (c : t) : t :=
    mk (id c) v (email c) (status c) (created_at c).
End Customer.

Module Subscription.
Record t := mk {
    id : Z;
    customer_id : Z;
    plan_id : Z;
    status : SubscriptionStatus;
    current_period_end : datetime;
    cancel_at_period_end : bool;
    past_due_since : option datetime;
    canceled_at : option datetime;
    expired_at : option datetime;
    provider_subscription_id : string;
    access_revoked : bool;
    created_at : datetime;
    updated_at : datetime }.

Definition set_status (v : SubscriptionStatus) (s : t) : t :=
    mk (id s) (customer_id s) (plan_id s) v (current_period_end s)
       (cancel_at_period_end s) (past_due_since s) (canceled_at s)
       (expired_at s) (provider_subscription_id s) (access_revoked s)
       (created_at s) (updated_at s).
Definition set_current_period_end (v : datetime) (s : t) : t :=
    mk (id s) (customer_id s) (plan_id s) (status s) v
       (cancel_at_period_end s) (past_due_since s) (canceled_at s)
       (expired_at s) (provider_subscription_id s) (access_revoked s)
       (created_at s) (updated_at s).
Definition set_cancel_at_period_end (v : bool) (s : t) : t :=
    mk (id s) (customer_id s) (plan_id s) (status s) (current_period_end s)
       v (past_due_since s) (canceled_at s)
       (expired_at s) (provider_subscription_id s) (access_revoked s)
       (created_at s) (updated_at s).
Definition set_past_due_since (v : option datetime) (s : t) : t :=
    mk (id s) (customer_id s) (plan_id s) (status s) (current_period_end s)
       (cancel_at_period_end s) v (canceled_at s)
       (expired_at s) (provider_subscription_id s) (access_revoked s)
       (created_at s) (updated_at s).
Definition set_canceled_at (v : option datetime) (s : t) : t :=
    mk (id s) (customer_id s) (plan_id s) (status s) (current_period_end s)
       (cancel_at_period_end s) (past_due_since s) v
       (expired_at s) (provider_subscription_id s) (access_revoked s)
       (created_at s) (updated_at s).
Definition set_expired_at (v : option datetime) (s : t) : t :=
    mk (id s) (customer_id s) (plan_id s) (status s) (current_period_end s)
       (cancel_at_period_end s) (past_due_since s) (canceled_at s)
       v (provider_subscription_id s) (access_revoked s)
       (created_at s) (updated_at s).
Definition set_access_revoked (v : bool) (s : t) : t :=
    mk (id s) (customer_id s) (plan_id s) (status s) (current_period_end s)
       (cancel_at_period_end s) (past_due_since s) (canceled_at s)
       (expired_at s) (provider_subscription_id s) v
       (created_at s) (updated_at s).
Definition set_updated_at (v : datetime) (s : t) : t :=
    mk (id s) (customer_id s) (plan_id s) (status s) (current_period_end s)
       (cancel_at_period_end s) (past_due_since s) (canceled_at s)
       (expired_at s) (provider_subscription_id s) (access_revoked s)
       (created_at s) v.
End Subscription.

Module Payment.
Record t := mk {
    id : Z;
    customer_id : Z;
    subscription_id : Z;
    status : PaymentStatus;
    amount : Z;
    currency : string;
    provider_payment_id : string;
    provider_invoice_id : string;
    processed_at : option datetime;
    provider : string }.
End Payment.

Module WebhookEvent.
Record t := mk {
    id : Z;
    provider : string;
    event_id : string;
    event_type : string;
    payload_raw : string;
    signature : string;
    signature_timestamp : Z;
    received_at : datetime;
    processed_at : option datetime;
    attempt_count : Z;
    next_retry_at : option datetime;
    needs_attention : bool;
    processing_status : WebhookProcessingStatus;
    error_message : option string }.

Definition set_processed_at (v : option datetime) (e : t) : t :=
    mk (id e) (provider e) (event_id e) (event_type e) (payload_raw e)
       (signature e) (signature_timestamp e) (received_at e) v
       (attempt_count e) (next_retry_at e) (needs_attention e)
       (processing_status e) (error_message e).
Definition set_attempt_count (v : Z) (e : t) : t :=
    mk (id e) (provider e) (event_id e) (event_type e) (payload_raw e)
       (signature e) (signature_timestamp e) (received_at e) (processed_at e)
       v (next_retry_at e) (needs_attention e)
       (processing_status e) (error_message e).
Definition set_next_retry_at (v : option datetime) (e : t) : t :=
    mk (id e) (provider e) (event_id e) (event_type e) (payload_raw e)
       (signature e) (signature_timestamp e) (received_at e) (processed_at e)
       (attempt_count e) v (needs_attention e)
       (processing_status e) (error_message e).
Definition set_needs_attention (v : bool) (e : t) : t :=
    mk (id e) (provider e) (event_id e) (event_type e) (payload_raw e)
       (signature e) (signature_timestamp e) (received_at e) (processed_at e)
       (attempt_count e) (next_retry_at e) v
       (processing_status e) (error_message e).
Definition set_processing_status (v : WebhookProcessingStatus) (e : t) : t :=
    mk (id e) (provider e) (event_id e) (event_type e) (payload_raw e)
       (signature e) (signature_timestamp e) (received_at e) (processed_at e)
       (attempt_count e) (next_retry_at e) (needs_attention e)
       v (error_message e).
Definition set_error_message (v : option string) (e : t) : t :=
    mk (id e) (provider e) (event_id e) (event_type e) (payload_raw e)
       (signature e) (signature_timestamp e) (received_at e) (processed_at e)
       (attempt_count e) (next_retry_at e) (needs_attention e)
       (processing_status e) v.
End WebhookEvent.

(** ** Library functions the code calls *)

Inductive Outcome (A : Type) :=
| Return (a : A)
| Raise (e : Exn).
Arguments Return {A} a.
Arguments Raise {A} e.

(** The argument of [utcfromtimestamp]: an [int] or a [float]. *)
Inductive PyNumber :=
| NumInt (n : Z)
| NumFloat (bits : Z).

(** [datetime_fromisoformat] yields the naive fields of the parsed value and
    whether it carries a [tzinfo]. *)
Record Libs := {
  json_loads : string -> Outcome PyVal;
  PaymentSucceededPayload_model_validate : PyVal -> Outcome Payload.t;
  InvoicePaymentFailedPayload_model_validate : PyVal -> Outcome Payload.t;
  datetime_fromisoformat : string -> Outcome (datetime * bool);
  datetime_utcfromtimestamp : PyNumber -> Outcome datetime;
  repr : PyVal -> string }.

(** ** The database, the session and the metrics *)

Record Store := mkStore {
  customers : list Customer.t;
  subscriptions : list Subscription.t;
  payments : list Payment.t;
  webhook_events : list WebhookEvent.t }.

Definition empty_store : Store := mkStore [] [] [] [].

Definition set_customers (v : list Customer.t) (s : Store) : Store :=
  mkStore v (subscriptions s) (payments s) (webhook_events s).
Definition set_subscriptions (v : list Subscription.t) (s : Store) : Store :=
  mkStore (customers s) v (payments s) (webhook_events s).
Definition set_payments (v : list Payment.t) (s : Store) : Store :=
  mkStore (customers s) (subscriptions s) v (webhook_events s).
Definition set_webhook_events (v : list WebhookEvent.t) (s : Store) : Store :=
  mkStore (customers s) (subscriptions s) (payments s) v.

Record Metrics := mkMetrics {
  webhook_processed : Z;
  webhook_failed : Z;
  webhook_ignored : Z;
  webhook_replayed : Z }.

Definition METRICS_initial : Metrics := mkMetrics 0 0 0 0.

Definition incr_webhook_processed (m : Metrics) : Metrics :=
  mkMetrics (webhook_processed m + 1) (webhook_failed m) (webhook_ignored m)
            (webhook_replayed m).
Definition incr_webhook_failed (m : Metrics) : Metrics :=
  mkMetrics (webhook_processed m) (webhook_failed m + 1) (webhook_ignored m)
            (webhook_replayed m).
Definition incr_webhook_ignored (m : Metrics) : Metrics :=
  mkMetrics (webhook_processed m) (webhook_failed m) (webhook_ignored m + 1)
            (webhook_replayed m).
Definition incr_webhook_replayed (m : Metrics) : Metrics :=
  mkMetrics (webhook_processed m) (webhook_failed m) (webhook_ignored m)
            (webhook_replayed m + 1).

(** The calls made on the session; [FlushFailed] records that a flush
    raised, after which the session refuses to flush until it is rolled
    back. *)
Inductive SessionCall :=
| CallAdd | CallFlush | CallCommit | CallRollback | CallRefresh
| FlushFailed.

(** The state a service call runs in: the committed database, the view of
    the session's transaction, the session calls made so far (latest last)
    and the process-wide counters. *)
Record Env := mkEnv {
  committed : Store;
  working : Store;
  calls : list SessionCall;
  METRICS : Metrics }.

Definition M (A : Type) : Type := Env -> Outcome A * Env.

Definition ret {A} (a : A) : M A := fun st => (Return a, st).
Definition raise {A} (e : Exn) : M A := fun st => (Raise e, st).
Definition bind {A B} (m : M A) (k : A -> M B) : M B :=
  fun st =>
    match m st with
    | (Return a, st') => k a st'
    | (Raise e, st') => (Raise e, st')
    end.
Definition lift {A} (o : Outcome A) : M A := fun st => (o, st).

(** [try: body except Exception as exc: handler(exc)]: the handler runs in
    the state the body had reached. *)
Definition try_except {A} (body : M A) (handler : Exn -> M A) : M A :=
  fun st =>
    match body st with
    | (Return a, st') => (Return a, st')
    | (Raise e, st') => handler e st'
    end.

Notation "x <- m ;; k" := (bind m (fun x => k))
  (at level 61, m at next level, right associativity).
Notation "m ;; k" := (bind m (fun _ => k))
  (at level 61, right associativity).

Definition read {A} (f : Store -> A) : M A :=
  fun st => (Return (f (working st)), st).
Definition write (f : Store -> Store) : M unit :=
  fun st => (Return tt,
             mkEnv (committed st) (f (working st)) (calls st) (METRICS st)).
Definition log_call (c : SessionCall) : M unit :=
  fun st => (Return tt,
             mkEnv (committed st) (working st) (calls st ++ [c]) (METRICS st)).
Definition count (f : Metrics -> Metrics) : M unit :=
  fun st => (Return tt,
             mkEnv (committed st) (working st) (calls st) (f (METRICS st))).

(** [session.add(obj)] for an object the session already holds, and for a
    new object whose INSERT is modelled where it is flushed. *)
Definition session_add : M unit := log_call CallAdd.

Definition session_refresh : M unit := log_call CallRefresh.

(** SQLite keeps an INTEGER in 64 bits, signed; binding a Python [int]
    outside that range raises [OverflowError]. *)
Definition sqlite_integer (n : Z) : bool :=
  (- 2 ^ 63 <=? n) && (n <? 2 ^ 63).

Definition OverflowError : Exn :=
  OtherException "Python int too large to convert to SQLite INTEGER".

Definition PendingRollbackError : Exn :=
  OtherException
    "This Session's transaction has been rolled back due to a previous exception during flush.".

(** The payment rows the transaction has added: the table is only appended
    to, so they are the rows after the committed ones. *)
Definition pending_payments (st : Env) : list Payment.t :=
  skipn (List.length (payments (committed st))) (payments (working st)).

(** The INSERT of a payment binds [amount], the one integer of the row that
    comes from the caller. *)
Definition flushable (st : Env) : bool :=
  forallb (fun p => sqlite_integer (Payment.amount p)) (pending_payments st).

Definition needs_rollback (calls : list SessionCall) : bool :=
  fold_left (fun failed c =>
               match c with
               | FlushFailed => true
               | CallRollback => false
               | _ => failed
               end) calls false.

(** The flush of the pending rows, as [session.flush()] and
    [session.commit()] run it. *)
Definition flush : M unit :=
  fun st =>
    if needs_rollback (calls st) then (Raise PendingRollbackError, st)
    else if flushable st then (Return tt, st)
    else (Raise OverflowError,
          mkEnv (committed st) (working st) (calls st ++ [FlushFailed])
                (METRICS st)).

Definition session_flush : M unit := flush ;; log_call CallFlush.

Definition session_commit : M unit :=
  flush ;;
  fun st => (Return tt,
             mkEnv (working st) (working st) (calls st ++ [CallCommit])
                   (METRICS st)).

Definition session_rollback : M unit :=
  fun st => (Return tt,
             mkEnv (committed st) (committed st) (calls st ++ [CallRollback])
                   (METRICS st)).

Definition next_id (ids : list Z) : Z := 1 + fold_right Z.max 0 ids.

Definition opt_string_eqb (o : option string) (s : string) : bool :=
  match o with Some s' => String.eqb s' s | None => false end.

(** Mutating the attributes of an attached object: the row with that primary
    key changes in the transaction view. *)
Definition update_rows {A} (key : A -> Z) (id : Z) (f : A -> A) (rows : list A)
  : list A :=
  map (fun r => if key r =? id then f r else r) rows.

Definition update_event (id : Z) (f : WebhookEvent.t -> WebhookEvent.t) : M unit :=
  write (fun s => set_webhook_events
    (update_rows WebhookEvent.id id f (webhook_events s)) s).

Definition update_subscription (id : Z) (f : Subscription.t -> Subscription.t)
  : M unit :=
  write (fun s => set_subscriptions
    (update_rows Subscription.id id f (subscriptions s)) s).

Definition update_customer (id : Z) (f : Customer.t -> Customer.t) : M unit :=
  write (fun s => set_customers
    (update_rows Customer.id id f (customers s)) s).

(** The present attributes of an attached event object. *)
Definition the_event (event : WebhookEvent.t) : M WebhookEvent.t :=
  read (fun s =>
    match find (fun r => WebhookEvent.id r =? WebhookEvent.id event)
               (webhook_events s) with
    | Some r => r
    | None => event
    end).

Definition the_subscription (subscription : Subscription.t) : M Subscription.t :=
  read (fun s =>
    match find (fun r => Subscription.id r =? Subscription.id subscription)
               (subscriptions s) with
    | Some r => r
    | None => subscription
    end).

(** ** app/services.py *)

(** [value.replace(old, new)] for a one-character [old]. *)
Fixpoint str_replace_char (old : ascii) (new : string) (value : string) : string :=
  match value with
  | EmptyString => EmptyString
  | String a rest =>
      if Ascii.eqb a old
      then String.append new (str_replace_char old new rest)
      else String a (str_replace_char old new rest)
  end.

(** [str(a or b)] for [a : str | None] and a string [b]. *)
Definition str_or (a : option string) (b : string) : string :=
  match a with
  | Some s => if String.eqb s "" then b else s
  | None => b
  end.

Section Services.

Variable L : Libs.

Definition _parse_period_end (now : datetime) (value : option PeriodEndValue)
  : M datetime :=
  match value with
  | Some (PE_int n) => lift (datetime_utcfromtimestamp L (NumInt n))
  | Some (PE_float b) => lift (datetime_utcfromtimestamp L (NumFloat b))
  | Some (PE_str s) =>
      let iso_value := str_replace_char "Z"%char "+00:00" s in
      parsed <- lift (datetime_fromisoformat L iso_value) ;;
      (* [parsed.replace(tzinfo=None) if parsed.tzinfo else parsed] *)
      ret (if snd parsed then fst parsed else fst parsed)
  | None => ret now
  end.

Definition _get_customer_by_provider_id (provider_customer_id : string)
  : M Customer.t :=
  customer <- read (fun s =>
    find (fun c => opt_string_eqb (Customer.provider_customer_id c)
                                  provider_customer_id) (customers s)) ;;
  match customer with
  | None => raise (InvalidPayloadError "provider_customer_id not found")
  | Some customer => ret customer
  end.

(** [session.add(obj); session.flush()] for a new customer: the INSERT
    checks the unique columns and assigns the key. *)
Definition flush_new_customer (c : Z -> Customer.t) : M Customer.t :=
  session_add ;;
  session_flush ;;
  rows <- read customers ;;
  let row := c (next_id (map Customer.id rows)) in
  if existsb (fun r => String.eqb (Customer.email r) (Customer.email row)) rows
  then raise (IntegrityError "UNIQUE constraint failed: customer.email")
  else write (set_customers (rows ++ [row])) ;; ret row.

Definition _get_or_create_customer_by_email (now : datetime)
  (customer_email : string) : M Customer.t :=
  customer <- read (fun s =>
    find (fun c => String.eqb (Customer.email c) customer_email) (customers s)) ;;
  match customer with
  | Some customer => ret customer
  | None =>
      flush_new_customer
        (fun id => Customer.mk id None customer_email (Some "active") now)
  end.

(** [uuid_hex16] is [uuid.uuid4().hex[:16]]; the flush of the UPDATE checks
    the unique column. *)
Definition _ensure_provider_customer_id (uuid_hex16 : string)
  (customer : Customer.t) : M string :=
  match Customer.provider_customer_id customer with
  | Some (String a rest) => ret (String a rest)
  | _ =>
      let provider_customer_id := String.append "cus_" uuid_hex16 in
      session_add ;;
      session_flush ;;
      rows <- read customers ;;
      if existsb (fun r => opt_string_eqb (Customer.provider_customer_id r)
                                          provider_customer_id) rows
      then raise (IntegrityError
                    "UNIQUE constraint failed: customer.provider_customer_id")
      else
        update_customer (Customer.id customer)
          (Customer.set_provider_customer_id (Some provider_customer_id)) ;;
        ret provider_customer_id
  end.

Definition _get_subscription_by_provider_id (provider_subscription_id : string)
  (customer_id : Z) : M Subscription.t :=
  subscription <- read (fun s =>
    find (fun r => String.eqb (Subscription.provider_subscription_id r)
                              provider_subscription_id) (subscriptions s)) ;;
  match subscription with
  | None => raise (InvalidPayloadError "provider_subscription_id not found")
  | Some subscription =>
      if negb (Subscription.customer_id subscription =? customer_id)
      then raise (InvalidPayloadError
                    "provider_subscription_id belongs to a different customer_id")
      else ret subscription
  end.

(** [session.add(payment)]: the row is inserted by the flush of the next
    commit; no code reads the table in between. *)
Definition add_payment (p : Z -> Payment.t) : M unit :=
  session_add ;;
  write (fun s => set_payments
    (payments s ++ [p (next_id (map Payment.id (payments s)))]) s).

Definition mark_stale (now : datetime) (e : WebhookEvent.t) : WebhookEvent.t :=
  WebhookEvent.set_error_message (Some "stale event ignored")
    (WebhookEvent.set_processed_at (Some now)
      (WebhookEvent.set_processing_status ignored e)).

(** The assignments of [_handle_payment_succeeded] to the subscription. *)
Definition apply_payment_succeeded (now period_end : datetime)
  (subscription : Subscription.t) : Subscription.t :=
  let s :=
    match Subscription.status subscription with
    | pending_activation | past_due => Subscription.set_status active subscription
    | _ => subscription
    end in
  let s := Subscription.set_canceled_at None s in
  let s := Subscription.set_expired_at None s in
  let s := Subscription.set_current_period_end period_end s in
  let s := Subscription.set_past_due_since None s in
  let s := Subscription.set_access_revoked false s in
  Subscription.set_updated_at now s.

Definition _handle_payment_succeeded (now : datetime) (event : WebhookEvent.t)
  (payload_data : PyVal) : M unit :=
  payload <- lift (PaymentSucceededPayload_model_validate L payload_data) ;;
  let provider_subscription_id := Payload.provider_subscription_id payload in
  let provider_customer_id := Payload.provider_customer_id payload in
  customer <- _get_customer_by_provider_id provider_customer_id ;;
  period_end <- _parse_period_end now (Payload.current_period_end payload) ;;
  subscription <- _get_subscription_by_provider_id provider_subscription_id
                    (Customer.id customer) ;;
  if period_end <? Subscription.current_period_end subscription then
    update_event (WebhookEvent.id event) (mark_stale now)
  else
    update_subscription (Subscription.id subscription)
      (apply_payment_succeeded now period_end) ;;
    session_add ;;
    add_payment (fun id =>
      Payment.mk id (Customer.id customer) (Subscription.id subscription)
        approved (Payload.amount payload) (Payload.currency payload)
        (str_or (Payload.payment_id payload) (WebhookEvent.event_id event))
        (str_or (Payload.invoice_id payload) "")
        (Some now) (WebhookEvent.provider event)).

(** The assignments of [_handle_invoice_payment_failed] to the subscription. *)
Definition apply_invoice_payment_failed (now : datetime)
  (subscription : Subscription.t) : Subscription.t :=
  let s :=
    match Subscription.status subscription with
    | active =>
        Subscription.set_past_due_since (Some now)
          (Subscription.set_status past_due subscription)
    | _ => subscription
    end in
  Subscription.set_updated_at now s.

Definition _handle_invoice_payment_failed (now : datetime)
  (event : WebhookEvent.t) (payload_data : PyVal) : M unit :=
  payload <- lift (InvoicePaymentFailedPayload_model_validate L payload_data) ;;
  let provider_subscription_id := Payload.provider_subscription_id payload in
  let provider_customer_id := Payload.provider_customer_id payload in
  customer <- _get_customer_by_provider_id provider_customer_id ;;
  period_end <- _parse_period_end now (Payload.current_period_end payload) ;;
  subscription <- _get_subscription_by_provider_id provider_subscription_id
                    (Customer.id customer) ;;
  if period_end <? Subscription.current_period_end subscription then
    update_event (WebhookEvent.id event) (mark_stale now)
  else
    update_subscription (Subscription.id subscription)
      (apply_invoice_payment_failed now) ;;
    session_add ;;
    add_payment (fun id =>
      Payment.mk id (Customer.id customer) (Subscription.id subscription)
        refused (Payload.amount payload) (Payload.currency payload)
        (str_or (Payload.payment_id payload) (WebhookEvent.event_id event))
        (str_or (Payload.invoice_id payload) "")
        (Some now) (WebhookEvent.provider event)).

Definition mark_ignored (now : datetime) (e : WebhookEvent.t) : WebhookEvent.t :=
  WebhookEvent.set_processed_at (Some now)
    (WebhookEvent.set_processing_status ignored e).

Definition _handle_unknown_event (now : datetime) (event : WebhookEvent.t)
  (_ : PyVal) : M unit :=
  update_event (WebhookEvent.id event) (mark_ignored now).

Definition EVENT_HANDLERS (event_type : string)
  : option (datetime -> WebhookEvent.t -> PyVal -> M unit) :=
  if String.eqb event_type "payment.succeeded"
  then Some _handle_payment_succeeded
  else if String.eqb event_type "invoice.payment_failed"
  then Some _handle_invoice_payment_failed
  else None.

Definition mark_processed (now : datetime) (e : WebhookEvent.t) : WebhookEvent.t :=
  WebhookEvent.set_processed_at (Some now)
    (WebhookEvent.set_processing_status processed e).

Definition dispatch_event (now : datetime) (event : WebhookEvent.t) : M unit :=
  event_payload <- lift (json_loads L (WebhookEvent.payload_raw event)) ;;
  match event_payload with
  | PyDict items =>
      let payload_data :=
        match dict_get items "payload_json" with
        | Some v => v
        | None => event_payload
        end in
      match payload_data with
      | PyDict _ =>
          match EVENT_HANDLERS (WebhookEvent.event_type event) with
          | None => _handle_unknown_event now event payload_data
          | Some handler =>
              handler now event payload_data ;;
              update_event (WebhookEvent.id event) (mark_processed now)
          end
      | _ => raise (InvalidPayloadError "payload_json must be an object")
      end
  | _ => raise (InvalidPayloadError "payload_json must be an object")
  end.

(** [str(n)] for an [int]. *)
Definition str_int (n : Z) : string :=
  DecimalString.NilZero.string_of_int (Z.to_int n).

(** [session.add(subscription); session.commit()] for a new subscription:
    the INSERT of the commit's flush binds [plan_id], the one integer of the
    row that comes from the caller, and checks the unique column. *)
Definition flush_new_subscription (s : Z -> Subscription.t) : M Subscription.t :=
  session_add ;;
  rows <- read subscriptions ;;
  let row := s (next_id (map Subscription.id rows)) in
  if negb (sqlite_integer (Subscription.plan_id row)) then raise OverflowError
  else if existsb (fun r => String.eqb (Subscription.provider_subscription_id r)
                                  (Subscription.provider_subscription_id row)) rows
  then raise (IntegrityError
                "UNIQUE constraint failed: subscription.provider_subscription_id")
  else write (set_subscriptions (rows ++ [row])) ;; ret row.

(** [uuid_customer] and [uuid_subscription] are the two values of
    [uuid.uuid4().hex[:16]] the call may draw. *)
Definition create_subscription (now : datetime)
  (uuid_customer uuid_subscription : string)
  (subscription_in : SubscriptionCreateIn.t) : M SubscriptionCreateOut.t :=
  match SubscriptionCreateIn.customer_id subscription_in,
        SubscriptionCreateIn.customer_email subscription_in with
  | None, None =>
      raise (InvalidPayloadError "customer_id or customer_email is required")
  | _, _ =>
      customer <-
        match SubscriptionCreateIn.customer_id subscription_in with
        | Some cid =>
            customer <-
              (if negb (sqlite_integer cid) then raise OverflowError
               else read (fun s =>
                      find (fun c => Customer.id c =? cid) (customers s))) ;;
            match customer with
            | None =>
                raise (NotFoundError
                  (String.append "Customer '"
                     (String.append (str_int cid) "' not found")))
            | Some customer => ret customer
            end
        | None =>
            _get_or_create_customer_by_email now
              (match SubscriptionCreateIn.customer_email subscription_in with
               | Some e => e
               | None => "None"
               end)
        end ;;
      provider_customer_id <- _ensure_provider_customer_id uuid_customer customer ;;
      let provider_subscription_id := String.append "sub_" uuid_subscription in
      subscription <- flush_new_subscription (fun id =>
        Subscription.mk id (Customer.id customer)
          (SubscriptionCreateIn.plan_id subscription_in)
          pending_activation now false None None None
          provider_subscription_id false now now) ;;
      session_commit ;;
      session_refresh ;;
      ret (SubscriptionCreateOut.mk (Subscription.id subscription)
             provider_subscription_id (Customer.id customer)
             provider_customer_id (Subscription.status subscription)
             (Subscription.plan_id subscription))
  end.

(** The assignments of [_mark_failed] to the event, in source order. *)
Definition mark_failed_row (now : datetime) (message : string)
  (event : WebhookEvent.t) : WebhookEvent.t :=
  let event :=
    WebhookEvent.set_attempt_count (WebhookEvent.attempt_count event + 1) event in
  let retry_delay_seconds := Z.min (300 * WebhookEvent.attempt_count event) 3600 in
  let event :=
    WebhookEvent.set_next_retry_at
      (Some (now + timedelta_seconds retry_delay_seconds)) event in
  let event :=
    WebhookEvent.set_needs_attention (WebhookEvent.attempt_count event >=? 3)
      event in
  let event := WebhookEvent.set_processing_status failed event in
  let event := WebhookEvent.set_processed_at (Some now) event in
  WebhookEvent.set_error_message (Some message) event.

Definition _mark_failed (now : datetime) (event : WebhookEvent.t)
  (message : string) : M unit :=
  update_event (WebhookEvent.id event) (mark_failed_row now message) ;;
  count incr_webhook_failed.

Definition _get_existing_event (provider event_id : string)
  : M (option WebhookEvent.t) :=
  read (fun s =>
    find (fun e => String.eqb (WebhookEvent.provider e) provider
                   && String.eqb (WebhookEvent.event_id e) event_id)
         (webhook_events s)).

Definition clear_retry (e : WebhookEvent.t) : WebhookEvent.t :=
  WebhookEvent.set_error_message None
    (WebhookEvent.set_needs_attention false
      (WebhookEvent.set_next_retry_at None e)).

Definition clear_retry_first_delivery (e : WebhookEvent.t) : WebhookEvent.t :=
  WebhookEvent.set_needs_attention false (WebhookEvent.set_next_retry_at None e).

Definition count_outcome (event : WebhookEvent.t) : M unit :=
  ev <- the_event event ;;
  if WebhookProcessingStatus_eqb (WebhookEvent.processing_status ev) ignored
  then count incr_webhook_ignored
  else count incr_webhook_processed.

(** Both [except] clauses of the source run the same statements. *)
Definition fail_and_reraise (now : datetime) (event : WebhookEvent.t)
  (exc : Exn) : M WebhookEvent.t :=
  if is_InvalidPayloadError exc then
    _mark_failed now event (str_exc exc) ;;
    session_add ;;
    session_commit ;;
    raise exc
  else
    _mark_failed now event (str_exc exc) ;;
    session_add ;;
    session_commit ;;
    raise exc.

Definition _handle_existing_event (now : datetime) (event : WebhookEvent.t)
  (verified : VerifiedWebhookData.t) : M WebhookEvent.t :=
  if negb (VerifiedWebhookData.timestamp verified
           =? WebhookEvent.signature_timestamp event) then
    _mark_failed now event "replay timestamp mismatch" ;;
    session_add ;;
    session_commit ;;
    raise (ReplayAttackError "replay timestamp mismatch")
  else if negb (String.eqb (VerifiedWebhookData.signature verified)
                           (WebhookEvent.signature event)) then
    _mark_failed now event "replay signature mismatch" ;;
    session_add ;;
    session_commit ;;
    raise (ReplayAttackError "replay signature mismatch")
  else if WebhookProcessingStatus_eqb (WebhookEvent.processing_status event) processed
          || WebhookProcessingStatus_eqb (WebhookEvent.processing_status event) ignored
  then
    count incr_webhook_replayed ;;
    ret event
  else if WebhookProcessingStatus_eqb (WebhookEvent.processing_status event) failed
  then
    try_except
      (dispatch_event now event ;;
       update_event (WebhookEvent.id event) clear_retry ;;
       session_add ;;
       session_commit ;;
       session_refresh ;;
       the_event event)
      (fail_and_reraise now event)
  else ret event.

(** [session.flush()] of the event just added: the INSERT checks the unique
    constraint on (provider, event_id) and assigns the key. *)
Definition flush_new_event (e : Z -> WebhookEvent.t) : M WebhookEvent.t :=
  session_flush ;;
  rows <- read webhook_events ;;
  let row := e (next_id (map WebhookEvent.id rows)) in
  if existsb (fun r => String.eqb (WebhookEvent.provider r) (WebhookEvent.provider row)
                       && String.eqb (WebhookEvent.event_id r)
                                     (WebhookEvent.event_id row)) rows
  then raise (IntegrityError "UNIQUE constraint failed: uq_webhook_provider_event")
  else write (set_webhook_events (rows ++ [row])) ;; ret row.

Definition process_webhook (now : datetime) (provider : string)
  (webhook : WebhookEventIn.t) (verified : VerifiedWebhookData.t)
  : M WebhookEvent.t :=
  existing <- _get_existing_event provider (WebhookEventIn.event_id webhook) ;;
  match existing with
  | Some existing => _handle_existing_event now existing verified
  | None =>
      let event := fun id =>
        WebhookEvent.mk id provider (WebhookEventIn.event_id webhook)
          (WebhookEventIn.event_type webhook)
          (VerifiedWebhookData.raw_body verified)
          (VerifiedWebhookData.signature verified)
          (VerifiedWebhookData.timestamp verified)
          now None 1 None false received None in
      session_add ;;
      flushed <- try_except
        (event <- flush_new_event event ;; ret (inl event))
        (fun exc =>
           if is_IntegrityError exc then
             session_rollback ;;
             existing <- _get_existing_event provider
                           (WebhookEventIn.event_id webhook) ;;
             match existing with
             | None => raise exc
             | Some existing =>
                 r <- _handle_existing_event now existing verified ;;
                 ret (inr r)
             end
           else raise exc) ;;
      match flushed with
      | inr r => ret r
      | inl event =>
          try_except
            (dispatch_event now event ;;
             count_outcome event ;;
             update_event (WebhookEvent.id event) clear_retry_first_delivery ;;
             session_add ;;
             session_commit ;;
             session_refresh ;;
             the_event event)
            (fail_and_reraise now event)
      end
  end.

Definition list_webhook_events : M (list WebhookEvent.t) :=
  read (fun s => rev (webhook_events s)).

Definition get_webhook_event (event_id : string) (provider : option string)
  : M WebhookEvent.t :=
  events <- read (fun s =>
    filter (fun e =>
              String.eqb (WebhookEvent.event_id e) event_id
              && match provider with
                 | Some (String a rest) =>
                     String.eqb (WebhookEvent.provider e) (String a rest)
                 | _ => true
                 end)
           (webhook_events s)) ;;
  match events with
  | [] =>
      raise (NotFoundError
               (String.append "Webhook '" (String.append event_id "' not found")))
  | [event] => ret event
  | _ => raise (InvalidPayloadError "multiple events found; specify provider")
  end.

(** The WHERE clause of the retry sweep. *)
Definition retry_candidate (now : datetime) (e : WebhookEvent.t) : bool :=
  WebhookProcessingStatus_eqb (WebhookEvent.processing_status e) failed
  && Bool.eqb (WebhookEvent.needs_attention e) false
  && match WebhookEvent.next_retry_at e with
     | None => true
     | Some t => t <=? now
     end.

(** [LIMIT limit]; a negative limit is no limit. *)
Definition sql_limit {A} (limit : Z) (rows : list A) : list A :=
  if limit <? 0 then rows else firstn (Z.to_nat limit) rows.

Definition find_retry_candidates (now : datetime) (limit : Z)
  : M (list WebhookEvent.t) :=
  if negb (sqlite_integer limit) then raise OverflowError
  else read (fun s =>
         sql_limit limit (filter (retry_candidate now) (webhook_events s))).

Fixpoint retry_loop (now : datetime) (events : list WebhookEvent.t)
  (processed_ids failed_ids : list Z) : M (list Z * list Z) :=
  match events with
  | [] => ret (processed_ids, failed_ids)
  | event :: rest =>
      ids <- try_except
        (dispatch_event now event ;;
         count_outcome event ;;
         update_event (WebhookEvent.id event) clear_retry ;;
         session_add ;;
         ret (processed_ids ++ [WebhookEvent.id event], failed_ids))
        (fun exc =>
           _mark_failed now event (str_exc exc) ;;
           session_add ;;
           ret (processed_ids, failed_ids ++ [WebhookEvent.id event])) ;;
      retry_loop now rest (fst ids) (snd ids)
  end.

Record RetryReport := mkRetryReport {
  checked : Z;
  processed_ids : list Z;
  failed_ids : list Z }.

Definition retry_failed_webhooks (now : datetime) (limit : Z) : M RetryReport :=
  events <- find_retry_candidates now limit ;;
  ids <- retry_loop now events [] [] ;;
  session_commit ;;
  ret (mkRetryReport (Z.of_nat (List.length events)) (fst ids) (snd ids)).

Definition reprocess_webhook_event (now : datetime) (event_id : string)
  : M WebhookEvent.t :=
  webhook_event <- get_webhook_event event_id None ;;
  try_except
    (dispatch_event now webhook_event ;;
     count_outcome webhook_event ;;
     update_event (WebhookEvent.id webhook_event) clear_retry)
    (fun exc => _mark_failed now webhook_event (str_exc exc)) ;;
  session_add ;;
  session_commit ;;
  session_refresh ;;
  the_event webhook_event.

Definition get_metrics : M Metrics := fun st => (Return (METRICS st), st).

Definition cancel_row (now : datetime) (s : Subscription.t) : Subscription.t :=
  Subscription.set_updated_at now
    (Subscription.set_access_revoked true
      (Subscription.set_canceled_at (Some now)
        (Subscription.set_status canceled s))).

Fixpoint enforce_grace_loop (now grace_limit : datetime)
  (subscriptions : list Subscription.t) (canceled_subscriptions : list Z)
  : M (list Z) :=
  match subscriptions with
  | [] => ret canceled_subscriptions
  | subscription :: rest =>
      match Subscription.past_due_since subscription with
      | None => enforce_grace_loop now grace_limit rest canceled_subscriptions
      | Some since =>
          if since >? grace_limit
          then enforce_grace_loop now grace_limit rest canceled_subscriptions
          else
            update_subscription (Subscription.id subscription)
              (cancel_row now) ;;
            session_add ;;
            enforce_grace_loop now grace_limit rest
              (canceled_subscriptions ++ [Subscription.id subscription])
      end
  end.

Definition enforce_grace_period (now : datetime) : M (list Z) :=
  let grace_limit := now - timedelta_days 1 in
  subscriptions <- read (fun s =>
    filter (fun r => SubscriptionStatus_eqb (Subscription.status r) past_due)
           (subscriptions s)) ;;
  canceled_subscriptions <- enforce_grace_loop now grace_limit subscriptions [] ;;
  session_commit ;;
  ret canceled_subscriptions.

Definition expire_row (now : datetime) (s : Subscription.t) : Subscription.t :=
  Subscription.set_updated_at now
    (Subscription.set_expired_at (Some now) (Subscription.set_status expired s)).

Definition flag_row (now : datetime) (cancel_at_period_end : bool)
  (s : Subscription.t) : Subscription.t :=
  Subscription.set_updated_at now
    (Subscription.set_cancel_at_period_end cancel_at_period_end s).

Fixpoint expire_loop (now : datetime) (subscriptions : list Subscription.t)
  (expired_ids canceled_ids : list Z) : M (list Z * list Z) :=
  match subscriptions with
  | [] => ret (expired_ids, canceled_ids)
  | subscription :: rest =>
      if Subscription.cancel_at_period_end subscription then
        update_subscription (Subscription.id subscription)
          (cancel_row now) ;;
        session_add ;;
        expire_loop now rest expired_ids
          (canceled_ids ++ [Subscription.id subscription])
      else
        update_subscription (Subscription.id subscription)
          (expire_row now) ;;
        session_add ;;
        expire_loop now rest (expired_ids ++ [Subscription.id subscription])
          canceled_ids
  end.

Definition expire_subscriptions (now : datetime) : M (list Z * list Z) :=
  subscriptions <- read (fun s =>
    filter (fun r => SubscriptionStatus_eqb (Subscription.status r) active
                     && (Subscription.current_period_end r <=? now))
           (subscriptions s)) ;;
  ids <- expire_loop now subscriptions [] [] ;;
  session_commit ;;
  ret ids.

Definition set_subscription_cancel_at_period_end (now : datetime)
  (subscription_id : Z) (cancel_at_period_end : bool) : M Subscription.t :=
  subscription <-
    (if negb (sqlite_integer subscription_id) then raise OverflowError
     else read (fun s =>
            find (fun r => Subscription.id r =? subscription_id)
                 (subscriptions s))) ;;
  match subscription with
  | None =>
      raise (NotFoundError
               (String.append "Subscription '"
                  (String.append (str_int subscription_id) "' not found")))
  | Some subscription =>
      update_subscription (Subscription.id subscription)
        (flag_row now cancel_at_period_end) ;;
      session_add ;;
      session_commit ;;
      session_refresh ;;
      the_subscription subscription
  end.

End Services.

(** ** app/api.py: the secret registry *)

Definition DEFAULT_WEBHOOK_SECRETS : list (string * PyVal) :=
  [("stripe", PyStr "stripe_secret_here");
   ("mercadopago", PyStr "mp_secret_here");
   ("test", PyStr "test_secret")].




Definition str_items (l : list PyVal) : list string :=
  flat_map (fun v => match v with PyStr s => [s] | _ => [] end) l.

(** Keep order and remove duplicates. *)
Fixpoint dedupe (seen : list string) (candidates : list string) : list string :=
  match candidates with
  | [] => []
  | secret :: rest =>
      if existsb (String.eqb secret) seen
      then dedupe seen rest
      else secret :: dedupe (secret :: seen) rest
  end.

Definition _get_secret_candidates (WEBHOOK_SECRETS : list (string * PyVal))
  (provider : string) (key_id : option string) : list string :=
  match dict_get WEBHOOK_SECRETS provider with
  | None => []
  | Some (PyStr provider_cfg) => [provider_cfg]
  | Some (PyDict provider_cfg) =>
      let by_key :=
        match key_id, dict_get provider_cfg "keys" with
        | Some (String a rest), Some (PyDict key_map) =>
            match dict_get key_map (String a rest) with
            | Some (PyStr maybe) => [maybe]
            | _ => []
            end
        | _, _ => []
        end in
      let current :=
        match dict_get provider_cfg "current" with
        | Some (PyStr current_secret) => [current_secret]
        | _ => []
        end in
      let previous :=
        match dict_get provider_cfg "previous" with
        | Some (PyList previous_secrets) => str_items previous_secrets
        | _ => []
        end in
      dedupe [] (by_key ++ current ++ previous)
  | Some _ => []
  end.


(** ** The application as a transition system

    One request is one [with Session(engine) as session:] block: the session
    starts from the committed database, and what it has not committed when
    the block ends is lost.  The counters outlive the session. *)

Record App := mkApp {
  db : Store;
  metrics : Metrics }.

Definition initial : App := mkApp empty_store METRICS_initial.

Definition open_session (a : App) : Env := mkEnv (db a) (db a) [] (metrics a).

Definition with_session {A} (body : M A) (a : App) : Outcome A * App :=
  let r := body (open_session a) in
  (fst r, mkApp (committed (snd r)) (METRICS (snd r))).

(** The requests that reach [app/services.py], each with the clock reading
    [now] of its call. *)
Inductive Op :=
| OpCreateSubscription (now : datetime) (uuid_customer uuid_subscription : string)
    (subscription_in : SubscriptionCreateIn.t)
| OpWebhook (now : datetime) (provider : string) (webhook : WebhookEventIn.t)
    (verified : VerifiedWebhookData.t)
| OpEnforceGrace (now : datetime)
| OpExpireSubscriptions (now : datetime)
| OpRetryFailedWebhooks (now : datetime) (limit : Z)
| OpReprocess (now : datetime) (event_id : string)
| OpCancelAtPeriodEnd (now : datetime) (subscription_id : Z)
    (cancel_at_period_end : bool).

Definition discard {A} (r : Outcome A * App) : App := snd r.

Definition exec (L : Libs) (op : Op) (a : App) : App :=
  match op with
  | OpCreateSubscription now uc us subscription_in =>
      discard (with_session (create_subscription now uc us subscription_in) a)
  | OpWebhook now provider webhook verified =>
      discard (with_session (process_webhook L now provider webhook verified) a)
  | OpEnforceGrace now => discard (with_session (enforce_grace_period now) a)
  | OpExpireSubscriptions now => discard (with_session (expire_subscriptions now) a)
  | OpRetryFailedWebhooks now limit =>
      discard (with_session (retry_failed_webhooks L now limit) a)
  | OpReprocess now event_id =>
      discard (with_session (reprocess_webhook_event L now event_id) a)
  | OpCancelAtPeriodEnd now subscription_id flag =>
      discard (with_session
                 (set_subscription_cancel_at_period_end now subscription_id flag) a)
  end.

Definition run_ops (L : Libs) (ops : list Op) (a : App) : App :=
  fold_left (fun a op => exec L op a) ops a.


(** ** A concrete instance of the library functions

    Used to run the model on explicit inputs: request bodies are looked up in
    a table of decoded values, validation reads the declared fields, epoch
    seconds convert to microseconds. *)

Definition table_json_loads (table : list (string * PyVal)) (raw : string)
  : Outcome PyVal :=
  match dict_get table raw with
  | Some v => Return v
  | None => Raise (OtherException "Expecting value")
  end.

Definition field_str (d : list (string * PyVal)) (k : string) : option string :=
  match dict_get d k with Some (PyStr s) => Some s | _ => None end.

Definition table_model_validate (v : PyVal) : Outcome Payload.t :=
  match v with
  | PyDict d =>
      match field_str d "provider_customer_id",
            field_str d "provider_subscription_id" with
      | Some c, Some s =>
          Return (Payload.mk c s
            (match dict_get d "amount" with Some (PyInt n) => n | _ => 0 end)
            (match field_str d "currency" with Some c => c | None => "USD" end)
            (match dict_get d "current_period_end" with
             | Some (PyStr s) => Some (PE_str s)
             | Some (PyInt n) => Some (PE_int n)
             | Some (PyFloat b) => Some (PE_float b)
             | _ => None
             end)
            (field_str d "payment_id")
            (field_str d "invoice_id"))
      | _, _ => Raise (OtherException "validation error: field required")
      end
  | _ => Raise (OtherException "validation error: not a dict")
  end.

Definition table_libs (table : list (string * PyVal)) : Libs :=
  Build_Libs
    (table_json_loads table)
    table_model_validate
    table_model_validate
    (fun _ => Raise (OtherException "Invalid isoformat string"))
    (fun n => match n with
              | NumInt n => Return (timedelta_seconds n)
              | NumFloat _ => Raise (OtherException "unsupported timestamp")
              end)
    (fun _ => "<object>").

(** One customer with one subscription, and four request bodies. *)
Definition demo_payload (period_end : Z) : PyVal :=
  PyDict [("provider_customer_id", PyStr "cus_c0");
          ("provider_subscription_id", PyStr "sub_s0");
          ("amount", PyInt 5000);
          ("currency", PyStr "BRL");
          ("current_period_end", PyInt period_end);
          ("payment_id", PyStr "pay_ok")].

Definition demo_body (event_id event_type : string) (payload : PyVal) : PyVal :=
  PyDict [("event_id", PyStr event_id);
          ("event_type", PyStr event_type);
          ("payload_json", payload)].

Definition demo_table : list (string * PyVal) :=
  [("body_pay_200", demo_body "evt_pay_200" "payment.succeeded" (demo_payload 200));
   ("body_pay_100", demo_body "evt_pay_100" "payment.succeeded" (demo_payload 100));
   ("body_pay_900", demo_body "evt_pay_900" "payment.succeeded" (demo_payload 900));
   ("body_fail_200",
    demo_body "evt_fail_200" "invoice.payment_failed" (demo_payload 200));
   ("body_ping", demo_body "evt_ping" "ping" (PyDict []));
   ("body_lost",
    demo_body "evt_lost" "payment.succeeded"
      (PyDict [("provider_customer_id", PyStr "cus_nobody");
               ("provider_subscription_id", PyStr "sub_s0")]));
   ("secrets_rotation",
    PyDict [("test", PyDict [("current", PyStr "s2");
                            ("previous", PyList [PyStr "s1"])])])].

Definition demo_libs : Libs := table_libs demo_table.

Definition demo_webhook (event_id event_type : string) : WebhookEventIn.t :=
  WebhookEventIn.mk event_id event_type PyNone.

Definition demo_verified (raw_body : string) (timestamp : Z)
  : VerifiedWebhookData.t :=
  VerifiedWebhookData.mk raw_body "sig" timestamp.

Definition demo_create : Op :=
  OpCreateSubscription (timedelta_seconds 10) "c0" "s0"
    (SubscriptionCreateIn.mk None (Some "x@y.com") 1).

Definition demo_deliver (now : Z) (event_id event_type raw_body : string) : Op :=
  OpWebhook (timedelta_seconds now) "test" (demo_webhook event_id event_type)
    (demo_verified raw_body now).

(** ** Predicates used in the statements *)


(** The WHERE clause of [_get_existing_event]. *)
Definition has_key (provider event_id : string) (e : WebhookEvent.t) : bool :=
  String.eqb (WebhookEvent.provider e) provider
  && String.eqb (WebhookEvent.event_id e) event_id.

(** The row [process_webhook] inserts on a first delivery. *)
Definition received_row (now : datetime) (provider : string)
  (webhook : WebhookEventIn.t) (verified : VerifiedWebhookData.t) (id : Z)
  : WebhookEvent.t :=
  WebhookEvent.mk id provider (WebhookEventIn.event_id webhook)
    (WebhookEventIn.event_type webhook)
    (VerifiedWebhookData.raw_body verified)
    (VerifiedWebhookData.signature verified)
    (VerifiedWebhookData.timestamp verified)
    now None 1 None false received None.

(** The row a handler adds to the payment table. *)
Definition payment_row (status : PaymentStatus) (now : datetime)
  (event : WebhookEvent.t) (payload : Payload.t) (customer : Customer.t)
  (subscription : Subscription.t) (id : Z) : Payment.t :=
  Payment.mk id (Customer.id customer) (Subscription.id subscription)
    status (Payload.amount payload) (Payload.currency payload)
    (str_or (Payload.payment_id payload) (WebhookEvent.event_id event))
    (str_or (Payload.invoice_id payload) "")
    (Some now) (WebhookEvent.provider event).

(** [dispatch_event] gets past its two [isinstance] tests with
    [payload_data]. *)
Definition decodes (L : Libs) (event : WebhookEvent.t) (payload_data : PyVal)
  : Prop :=
  exists items,
    json_loads L (WebhookEvent.payload_raw event) = Return (PyDict items) /\
    payload_data = match dict_get items "payload_json" with
                   | Some v => v
                   | None => PyDict items
                   end /\
    exists d, payload_data = PyDict d.

(** The statements a typed handler runs before its stale-event test all
    succeed on store [s]: the payload validates, the customer and the
    subscription are found, the subscription is the customer's, and the period
    end parses to [period_end]. *)
Definition resolves (L : Libs) (validate : PyVal -> Outcome Payload.t)
  (now : datetime) (payload_data : PyVal) (s : Store)
  (payload : Payload.t) (customer : Customer.t) (period_end : datetime)
  (subscription : Subscription.t) : Prop :=
  validate payload_data = Return payload /\
  find (fun c => opt_string_eqb (Customer.provider_customer_id c)
                                (Payload.provider_customer_id payload))
       (customers s) = Some customer /\
  (forall st, _parse_period_end L now (Payload.current_period_end payload) st
              = (Return period_end, st)) /\
  find (fun r => String.eqb (Subscription.provider_subscription_id r)
                            (Payload.provider_subscription_id payload))
       (subscriptions s) = Some subscription /\
  Subscription.customer_id subscription = Customer.id customer.

(** What a typed handler does once its lookups have succeeded. *)
Definition settle (apply : Subscription.t -> Subscription.t)
  (status : PaymentStatus) (now : datetime) (event : WebhookEvent.t)
  (payload : Payload.t) (customer : Customer.t) (period_end : datetime)
  (subscription : Subscription.t) : M unit :=
  if period_end <? Subscription.current_period_end subscription then
    update_event (WebhookEvent.id event) (mark_stale now)
  else
    update_subscription (Subscription.id subscription) apply ;;
    session_add ;;
    add_payment (payment_row status now event payload customer subscription).

(** The shape the two typed handlers share. *)
Definition typed_handler (L : Libs) (validate : PyVal -> Outcome Payload.t)
  (apply : datetime -> datetime -> Subscription.t -> Subscription.t)
  (status : PaymentStatus) (now : datetime) (event : WebhookEvent.t)
  (payload_data : PyVal) : M unit :=
  payload <- lift (validate payload_data) ;;
  customer <- _get_customer_by_provider_id (Payload.provider_customer_id payload) ;;
  period_end <- _parse_period_end L now (Payload.current_period_end payload) ;;
  subscription <- _get_subscription_by_provider_id
                    (Payload.provider_subscription_id payload)
                    (Customer.id customer) ;;
  settle (apply now period_end) status now event payload customer period_end
    subscription.

(** The registry of handlers, as data. *)
Inductive HandlerKind := PaymentSucceeded | InvoicePaymentFailed.

Definition handler_kind (event_type : string) : option HandlerKind :=
  if String.eqb event_type "payment.succeeded" then Some PaymentSucceeded
  else if String.eqb event_type "invoice.payment_failed"
  then Some InvoicePaymentFailed
  else None.

Definition kind_validate (L : Libs) (k : HandlerKind) : PyVal -> Outcome Payload.t :=
  match k with
  | PaymentSucceeded => PaymentSucceededPayload_model_validate L
  | InvoicePaymentFailed => InvoicePaymentFailedPayload_model_validate L
  end.

Definition kind_apply (k : HandlerKind) (now period_end : datetime)
  : Subscription.t -> Subscription.t :=
  match k with
  | PaymentSucceeded => apply_payment_succeeded now period_end
  | InvoicePaymentFailed => apply_invoice_payment_failed now
  end.

Definition kind_status (k : HandlerKind) : PaymentStatus :=
  match k with
  | PaymentSucceeded => approved
  | InvoicePaymentFailed => refused
  end.

(** The functions the services apply to an event row. *)
Inductive event_mutation : (WebhookEvent.t -> WebhookEvent.t) -> Prop :=
| em_stale now : event_mutation (mark_stale now)
| em_processed now : event_mutation (mark_processed now)
| em_ignored now : event_mutation (mark_ignored now)
| em_failed now message : event_mutation (mark_failed_row now message).

(** The two functions the services apply to an event row after a dispatch
    that returned. *)
Inductive event_clearing : (WebhookEvent.t -> WebhookEvent.t) -> Prop :=
| ec_clear : event_clearing clear_retry
| ec_clear_first : event_clearing clear_retry_first_delivery.

(** No event row with key [id] is in status failed. *)
Definition settled (id : Z) (rows : list WebhookEvent.t) : Prop :=
  forall r, In r rows -> WebhookEvent.id r = id ->
            WebhookEvent.processing_status r <> failed.

(** The functions the sweeps and the cancel-at-period-end endpoint apply to a
    subscription row. *)
Inductive subscription_sweep : (Subscription.t -> Subscription.t) -> Prop :=
| ss_cancel now : subscription_sweep (cancel_row now)
| ss_expire now : subscription_sweep (expire_row now)
| ss_flag now flag : subscription_sweep (flag_row now flag).

(** The row [create_subscription] inserts. *)
Definition pending_row (now : datetime) (customer_id plan_id : Z)
  (provider_subscription_id : string) (id : Z) : Subscription.t :=
  Subscription.mk id customer_id plan_id pending_activation now false None None
    None provider_subscription_id false now now.

(** A property of the store holds of the transaction view and of the
    committed database. *)
Definition both (P : Store -> Prop) (st : Env) : Prop :=
  P (working st) /\ P (committed st).

Definition preserves (P : Store -> Prop) {A} (m : M A) : Prop :=
  forall st, both P st -> both P (snd (m st)).

(** An event row flagged for attention has been attempted three times, and
    a row in status failed is flagged exactly when it has been. *)
Definition attention_justified (e : WebhookEvent.t) : Prop :=
  (WebhookEvent.needs_attention e = true -> 3 <= WebhookEvent.attempt_count e) /\
  (WebhookEvent.processing_status e = failed ->
   WebhookEvent.needs_attention e = (3 <=? WebhookEvent.attempt_count e)).

(** Every subscription of [before] is in [after] under the same key, with a
    period end that is not earlier. *)
Definition period_end_not_earlier (before after : Store) : Prop :=
  forall s, In s (subscriptions before) ->
    exists s', In s' (subscriptions after) /\
               Subscription.id s' = Subscription.id s /\
               Subscription.current_period_end s
               <= Subscription.current_period_end s'.

(** The invariant of the data model on a canceled subscription. *)
Definition canceled_consistent (s : Subscription.t) : Prop :=
  Subscription.status s = canceled ->
  Subscription.canceled_at s <> None /\ Subscription.access_revoked s = true.

Definition unique_subscription_ids (s : Store) : Prop :=
  NoDup (map Subscription.id (subscriptions s)).

Definition attention_flags_justified (s : Store) : Prop :=
  Forall attention_justified (webhook_events s).

(** ** Scenarios on the concrete instance *)

(** A subscription is created and paid up to second 200. *)
Definition paid_ops : list Op :=
  [demo_create; demo_deliver 20 "evt_pay_200" "payment.succeeded" "body_pay_200"].

(** Then a payment event for the period ending at second 100 arrives. *)
Definition stale_delivery : Op :=
  demo_deliver 30 "evt_pay_100" "payment.succeeded" "body_pay_100".

(** The paid subscription fails a payment and the grace sweep cancels it two
    days later. *)
Definition canceled_ops : list Op :=
  paid_ops
  ++ [demo_deliver 30 "evt_fail_200" "invoice.payment_failed" "body_fail_200";
      OpEnforceGrace (timedelta_seconds 30 + timedelta_days 2)].

(** Then a payment event for the period ending at second 900 arrives. *)
Definition late_payment : Op :=
  demo_deliver 400 "evt_pay_900" "payment.succeeded" "body_pay_900".

(** An unknown-type event is stored, then its key is presented twice with
    other timestamps. *)
Definition flagged_ops : list Op :=
  [demo_deliver 20 "evt_ping" "ping" "body_ping";
   demo_deliver 21 "evt_ping" "ping" "body_ping";
   demo_deliver 22 "evt_ping" "ping" "body_ping"].

(** Then an operator reprocesses it. *)
Definition operator_reprocess : Op :=
  OpReprocess (timedelta_seconds 500) "evt_ping".

(** A first delivery whose customer does not exist. *)
Definition lost_delivery : M WebhookEvent.t :=
  process_webhook demo_libs (timedelta_seconds 50) "test"
    (demo_webhook "evt_lost" "payment.succeeded") (demo_verified "body_lost" 50).

(** The rows of the scenarios. *)
Definition demo_customer : Customer.t :=
  Customer.mk 1 (Some "cus_c0") "x@y.com" (Some "active") 10000000.

Definition demo_pending_subscription : Subscription.t :=
  Subscription.mk 1 1 1 pending_activation 10000000 false None None None
    "sub_s0" false 10000000 10000000.

Definition demo_active_subscription : Subscription.t :=
  Subscription.mk 1 1 1 active 200000000 false None None None
    "sub_s0" false 10000000 20000000.

Definition demo_paid_event : WebhookEvent.t :=
  WebhookEvent.mk 1 "test" "evt_pay_200" "payment.succeeded" "body_pay_200"
    "sig" 20 20000000 (Some 20000000) 1 None false processed None.

Definition demo_flagged_event : WebhookEvent.t :=
  WebhookEvent.mk 1 "test" "evt_ping" "ping" "body_ping" "sig" 20 20000000
    (Some 22000000) 3 (Some 922000000) true failed
    (Some "replay timestamp mismatch").

Definition demo_parsed_payload : Payload.t :=
  Payload.mk "cus_c0" "sub_s0" 5000 "BRL" (Some (PE_int 200)) (Some "pay_ok") None.

(** ** app/api.py: the request gatekeeper *)

From Stdlib Require Import Sorted Permutation.

(** The functions of [hmac], [int] and the codecs the gatekeeper calls.
    Bytes are a [string]; [int_of_str] is [int(s)], [None] when it raises
    ValueError; [utf8_decode] is [None] when it raises UnicodeDecodeError. *)
Record GateLibs := {
  int_of_str : string -> option Z;
  utf8_encode : string -> string;
  utf8_decode : string -> option string;
  hmac_sha256_hexdigest : string -> string -> string }.

(** What the gatekeeper reads of a request: three headers, the peer address
    ([request.client.host], absent when [request.client] is None) and the
    body. *)
Record Request := mkRequest {
  X_Webhook_Key_Id : option string;
  X_Webhook_Timestamp : option string;
  X_Webhook_Signature : option string;
  client_host : option string;
  request_body : string }.

(** The module-level configuration of [app/api.py]. *)
Record GateConfig := mkGateConfig {
  WEBHOOK_SECRETS : list (string * PyVal);
  WEBHOOK_RATE_LIMIT_PER_MINUTE : Z;
  WEBHOOK_IP_ALLOWLIST : list string }.

Definition WEBHOOK_MAX_SKEW_SECONDS : Z := 300.

(** How a call of the gatekeeper ends: the verified data, an HTTPException,
    or the TypeError of [hmac.compare_digest] on a non-ASCII string. *)
Inductive GateOutcome :=
| Verified (v : VerifiedWebhookData.t)
| HTTPException (status_code : Z) (detail : string)
| TypeError.

Definition is_ascii (s : string) : bool :=
  forallb (fun c => (nat_of_ascii c <? 128)%nat) (list_ascii_of_string s).

(** [hmac.compare_digest(a, b)] on two [str]: both must be ASCII. *)
Definition compare_digest (a b : string) : option bool :=
  if is_ascii a && is_ascii b then Some (String.eqb a b) else None.

(** [while window and window[0] <= cutoff: window.popleft()]. *)
Fixpoint popleft_until (cutoff : Z) (window : list Z) : list Z :=
  match window with
  | [] => []
  | first :: rest =>
      if first <=? cutoff then popleft_until cutoff rest else window
  end.

(** The [for secret in candidate_secrets] loop: [Some true] when it breaks,
    [Some false] when it runs out, [None] when [compare_digest] raises. *)
Fixpoint signature_loop (G : GateLibs) (signature signed_payload : string)
  (candidate_secrets : list string) : option bool :=
  match candidate_secrets with
  | [] => Some false
  | secret :: rest =>
      let expected_signature :=
        hmac_sha256_hexdigest G (utf8_encode G secret) signed_payload in
      match compare_digest signature expected_signature with
      | None => None
      | Some true => Some true
      | Some false => signature_loop G signature signed_payload rest
      end
  end.

(** [s] is falsy: None or the empty string. *)
Definition falsy (s : option string) : bool :=
  match s with
  | Some (String _ _) => false
  | _ => true
  end.

(** [_webhook_request_windows[rate_key]] of a defaultdict: a missing key is
    inserted with an empty deque. *)
Definition defaultdict_get (windows : list (string * list Z)) (rate_key : string)
  : list Z * list (string * list Z) :=
  match dict_get windows rate_key with
  | Some window => (window, windows)
  | None => ([], dict_set windows rate_key [])
  end.

(** [now_timestamp] is [int(dt.datetime.utcnow().timestamp())]; the second
    component is [_webhook_request_windows] after the call. *)
Definition validate_webhook_signature (G : GateLibs) (cfg : GateConfig)
  (now_timestamp : Z) (provider : string) (request : Request)
  (windows : list (string * list Z))
  : GateOutcome * list (string * list Z) :=
  let key_id := X_Webhook_Key_Id request in
  let candidate_secrets :=
    _get_secret_candidates (WEBHOOK_SECRETS cfg) provider key_id in
  match candidate_secrets with
  | [] => (HTTPException 401 "unknown webhook provider", windows)
  | _ :: _ =>
  if falsy (X_Webhook_Timestamp request) || falsy (X_Webhook_Signature request)
  then (HTTPException 401 "missing webhook signature headers", windows)
  else
  let timestamp :=
    match X_Webhook_Timestamp request with Some t => t | None => "" end in
  let signature :=
    match X_Webhook_Signature request with Some s => s | None => "" end in
  match int_of_str G timestamp with
  | None => (HTTPException 401 "invalid webhook timestamp", windows)
  | Some timestamp_value =>
  if Z.abs (now_timestamp - timestamp_value) >? WEBHOOK_MAX_SKEW_SECONDS
  then (HTTPException 401 "webhook timestamp outside allowed window", windows)
  else
  let client_ip :=
    match client_host request with Some h => h | None => "unknown" end in
  if negb (match WEBHOOK_IP_ALLOWLIST cfg with [] => true | _ => false end)
     && negb (existsb (String.eqb client_ip) (WEBHOOK_IP_ALLOWLIST cfg))
  then (HTTPException 403 "ip not allowed", windows)
  else
  let rate_key := String.append provider (String.append ":" client_ip) in
  let (window, windows) := defaultdict_get windows rate_key in
  let cutoff := now_timestamp - 60 in
  let window := popleft_until cutoff window in
  let windows := dict_set windows rate_key window in
  if Z.of_nat (List.length window) >=? WEBHOOK_RATE_LIMIT_PER_MINUTE cfg
  then (HTTPException 429 "rate limit exceeded", windows)
  else
  let window := window ++ [now_timestamp] in
  let windows := dict_set windows rate_key window in
  let raw_body_bytes := request_body request in
  let signed_payload :=
    String.append (utf8_encode G (String.append timestamp ".")) raw_body_bytes in
  match signature_loop G signature signed_payload candidate_secrets with
  | None => (TypeError, windows)
  | Some false => (HTTPException 403 "invalid webhook signature", windows)
  | Some true =>
      match utf8_decode G raw_body_bytes with
      | None => (HTTPException 400 "invalid webhook body encoding", windows)
      | Some raw_body =>
          (Verified (VerifiedWebhookData.mk raw_body signature timestamp_value),
           windows)
      end
  end
  end
  end.

(** [_get_signing_secret]: the first candidate without a key id, or the
    HTTPException's status and detail. *)
Definition _get_signing_secret (cfg : GateConfig) (provider : string)
  : (Z * string) + string :=
  match _get_secret_candidates (WEBHOOK_SECRETS cfg) provider None with
  | [] =>
      inl (400, String.append "provider '"
                  (String.append provider "' has no configured secret"))
  | secret :: _ => inr secret
  end.

(** The request the simulator sends for [body] at [timestamp]: signed with
    the signing secret, no key id header. *)
Definition simulated_request (G : GateLibs) (signing_secret : string)
  (timestamp : Z) (body : string) (client : option string) : Request :=
  mkRequest None (Some (str_int timestamp))
    (Some (hmac_sha256_hexdigest G (utf8_encode G signing_secret)
             (String.append (utf8_encode G (String.append (str_int timestamp) "."))
                (utf8_encode G body))))
    client (utf8_encode G body).

(** The window of a rate key, empty when the key is absent. *)
Definition window_of (windows : list (string * list Z)) (rate_key : string)
  : list Z :=
  match dict_get windows rate_key with Some w => w | None => [] end.

Definition rate_key_of (provider : string) (request : Request) : string :=
  String.append provider
    (String.append ":"
       (match client_host request with Some h => h | None => "unknown" end)).

(** The tests of the gatekeeper that come before the rate limiter all pass:
    a candidate secret exists, both headers are present, the timestamp
    parses to [timestamp_value] and is fresh, and the peer is allowed. *)
Definition reaches_rate_limiter (G : GateLibs) (cfg : GateConfig)
  (now_timestamp : Z) (provider : string) (request : Request)
  (timestamp_value : Z) : Prop :=
  _get_secret_candidates (WEBHOOK_SECRETS cfg) provider (X_Webhook_Key_Id request)
    <> [] /\
  falsy (X_Webhook_Timestamp request) = false /\
  falsy (X_Webhook_Signature request) = false /\
  int_of_str G (match X_Webhook_Timestamp request with Some t => t | None => "" end)
  = Some timestamp_value /\
  Z.abs (now_timestamp - timestamp_value) <= 300 /\
  (WEBHOOK_IP_ALLOWLIST cfg = [] \/
   In (match client_host request with Some h => h | None => "unknown" end)
      (WEBHOOK_IP_ALLOWLIST cfg)).

(** A window as the rate limiter keeps it under a clock that does not go
    back: ascending, nothing later than [now]. *)
Definition window_ok (now : Z) (window : list Z) : Prop :=
  StronglySorted Z.le window /\ Forall (fun t => t <= now) window.

(** A concrete instance of the gatekeeper's library functions: decimal
    parsing, identity codecs and a keyed tag in place of the MAC. *)
Definition toy_gate_libs : GateLibs :=
  Build_GateLibs
    (fun s => option_map Z.of_int (NilZero.int_of_string s))
    (fun s => s)
    (fun b => Some b)
    (fun key msg => String.append key (String.append "|" msg)).

Definition toy_config : GateConfig :=
  mkGateConfig DEFAULT_WEBHOOK_SECRETS 2 [].

Definition toy_request (timestamp signature : string) : Request :=
  mkRequest None (Some timestamp) (Some signature) (Some "10.0.0.1") "{}".

(** ** Predicates of the further properties *)

(** The secret [keys[key_id]] of a rotation entry, when the key id is truthy
    and names a string. *)
Definition key_secret (provider_cfg : list (string * PyVal))
  (key_id : option string) : option string :=
  match key_id, dict_get provider_cfg "keys" with
  | Some (String a rest), Some (PyDict key_map) =>
      match dict_get key_map (String a rest) with
      | Some (PyStr maybe) => Some maybe
      | _ => None
      end
  | _, _ => None
  end.

(** The columns of an event row that identify the delivery. *)
Definition delivery_columns (e : WebhookEvent.t)
  : Z * string * string * string * string * string * Z * datetime :=
  (WebhookEvent.id e, WebhookEvent.provider e, WebhookEvent.event_id e,
   WebhookEvent.event_type e, WebhookEvent.payload_raw e,
   WebhookEvent.signature e, WebhookEvent.signature_timestamp e,
   WebhookEvent.received_at e).

(** [after] extends [before]: same rows first, as far as [columns] tell. *)
Definition extends {A B} (columns : A -> B) (before after : list A) : Prop :=
  exists added, map columns after = map columns before ++ map columns added.

(** An event row has been attempted at least once, and at least twice when
    it is in status failed. *)
Definition attempts_counted (e : WebhookEvent.t) : Prop :=
  1 <= WebhookEvent.attempt_count e /\
  (WebhookEvent.processing_status e = failed -> 2 <= WebhookEvent.attempt_count e).

(** The unique constraint of the event table: no two rows share
    (provider, event_id). *)
Definition event_key (e : WebhookEvent.t) : string * string :=
  (WebhookEvent.provider e, WebhookEvent.event_id e).

Definition unique_event_keys (s : Store) : Prop :=
  NoDup (map event_key (webhook_events s)).

(** ** The two sweeps and the store *)

(** The rows the grace sweep cancels: selected as past due, with a
    [past_due_since] that is not later than one day before [now]. *)
Definition grace_due (now : datetime) (r : Subscription.t) : bool :=
  SubscriptionStatus_eqb (Subscription.status r) past_due
  && match Subscription.past_due_since r with
     | Some since => negb (since >? now - timedelta_days 1)
     | None => false
     end.

(** The rows the expiry sweep selects. *)
Definition period_ended (now : datetime) (r : Subscription.t) : bool :=
  SubscriptionStatus_eqb (Subscription.status r) active
  && (Subscription.current_period_end r <=? now).

(** What the expiry sweep does to a row it selects. *)
Definition end_row (now : datetime) (r : Subscription.t) : Subscription.t :=
  if Subscription.cancel_at_period_end r then cancel_row now r
  else expire_row now r.

(** What one turn of a sweep's loop does to the row it holds. *)
Definition grace_action (now grace_limit : datetime) (x : Subscription.t)
  : option (Subscription.t -> Subscription.t) :=
  match Subscription.past_due_since x with
  | None => None
  | Some since => if since >? grace_limit then None else Some (cancel_row now)
  end.

Definition expire_action (now : datetime) (x : Subscription.t)
  : option (Subscription.t -> Subscription.t) :=
  Some (if Subscription.cancel_at_period_end x then cancel_row now
        else expire_row now).

Definition acts (act : Subscription.t -> option (Subscription.t -> Subscription.t))
  (x : Subscription.t) : bool :=
  match act x with Some _ => true | None => false end.

(** The table after a loop over the snapshot [l] has run [act] on each of
    its rows. *)
Definition sweep_with
  (act : Subscription.t -> option (Subscription.t -> Subscription.t))
  (l rows : list Subscription.t) : list Subscription.t :=
  map (fun r =>
         match find (fun x => Subscription.id x =? Subscription.id r) l with
         | Some x => match act x with Some f => f r | None => r end
         | None => r
         end) rows.

(** A subscription in one of the two final statuses. *)
Definition terminal (r : Subscription.t) : bool :=
  SubscriptionStatus_eqb (Subscription.status r) canceled
  || SubscriptionStatus_eqb (Subscription.status r) expired.

(** Every subscription of [before] in a final status is in [after] under the
    same key and in the same status. *)
Definition status_kept (before after : Store) : Prop :=
  forall r, In r (subscriptions before) -> terminal r = true ->
    exists r', In r' (subscriptions after) /\
               Subscription.id r' = Subscription.id r /\
               Subscription.status r' = Subscription.status r.

Definition final_status_invariant (before s : Store) : Prop :=
  unique_subscription_ids s /\ status_kept before s.

(** The subscription of the scenarios after the failed payment at second 30
    and the grace sweep two days later. *)
Definition demo_canceled_subscription : Subscription.t :=
  cancel_row (timedelta_seconds 30 + timedelta_days 2)
    (apply_invoice_payment_failed (timedelta_seconds 30)
       demo_active_subscription).

(** The two unique columns of the customer table that the services read:
    the key, and the provider's identifier where it is set. *)
Definition customers_well_keyed (s : Store) : Prop :=
  NoDup (map Customer.id (customers s)) /\
  forall c1 c2 p, In c1 (customers s) -> In c2 (customers s) ->
    Customer.provider_customer_id c1 = Some p ->
    Customer.provider_customer_id c2 = Some p -> c1 = c2.


(** The events counted as handled: processed or ignored. *)
Definition webhook_handled (m : Metrics) : Z :=
  webhook_processed m + webhook_ignored m.

(** The payment event delivered at second 5, before its customer exists,
    and the subscription created afterwards. *)
Definition early_ops : list Op :=
  [demo_deliver 5 "evt_pay_200" "payment.succeeded" "body_pay_200"; demo_create].

Definition demo_early_event : WebhookEvent.t :=
  mark_failed_row (timedelta_seconds 5) "provider_customer_id not found"
    (received_row (timedelta_seconds 5) "test"
       (demo_webhook "evt_pay_200" "payment.succeeded")
       (demo_verified "body_pay_200" 5) 1).

(** The amounts the typed handlers would read from the stored bodies of
    [events] all fit an SQLite INTEGER. *)
Definition storable_amounts (L : Libs) (events : list WebhookEvent.t) : Prop :=
  forall ev pd k p,
    In ev events -> decodes L ev pd ->
    handler_kind (WebhookEvent.event_type ev) = Some k ->
    kind_validate L k pd = Return p ->
    sqlite_integer (Payload.amount p) = true.

(** An operator reprocesses the early payment event while its customer still
    does not exist. *)
Definition orphan_ops : list Op :=
  [demo_deliver 5 "evt_pay_200" "payment.succeeded" "body_pay_200"].

(** The paid subscription after a failed payment at second 30. *)
Definition past_due_ops : list Op :=
  paid_ops
  ++ [demo_deliver 30 "evt_fail_200" "invoice.payment_failed" "body_fail_200"].

Definition demo_past_due_subscription : Subscription.t :=
  Subscription.mk 1 1 1 past_due 200000000 false (Some 30000000) None None
    "sub_s0" false 10000000 30000000.

(** ** Inputs the database cannot store *)








(** The paid subscription's event arrives again from a second provider: the
    same [event_id] is then stored under two providers. *)
Definition two_provider_ops : list Op :=
  paid_ops
  ++ [OpWebhook (timedelta_seconds 25) "other"
        (demo_webhook "evt_pay_200" "payment.succeeded")
        (demo_verified "body_pay_200" 25)].

Definition demo_repaid_subscription : Subscription.t :=
  Subscription.mk 1 1 1 active 200000000 false None None None
    "sub_s0" false 10000000 25000000.
(** * Properties *)

(** ** The secret registry *)








(** ** The canceled subscription *)

Lemma cancel_row_consistent now s : canceled_consistent (cancel_row now s).
Proof. intros _. split; [discriminate|reflexivity]. Qed.

Lemma expire_row_consistent now s : canceled_consistent (expire_row now s).
Proof. intros H. discriminate. Qed.

Lemma flag_row_consistent now flag s :
  canceled_consistent s -> canceled_consistent (flag_row now flag s).
Proof. intros H. exact H. Qed.

Lemma pending_row_consistent now customer_id plan_id psid id :
  canceled_consistent (pending_row now customer_id plan_id psid id).
Proof. intros H. discriminate. Qed.

Lemma invoice_payment_failed_consistent now s :
  canceled_consistent s -> canceled_consistent (apply_invoice_payment_failed now s).
Proof.
  intros H. unfold apply_invoice_payment_failed, canceled_consistent in *.
  destruct (Subscription.status s) eqn:E; cbn; rewrite ?E; auto; discriminate.
Qed.

Lemma payment_succeeded_consistent now period_end s :
  Subscription.status s <> canceled ->
  canceled_consistent (apply_payment_succeeded now period_end s).
Proof.
  intros Hs. unfold apply_payment_succeeded, canceled_consistent.
  destruct (Subscription.status s) eqn:E; cbn; rewrite ?E;
    try discriminate; contradiction.
Qed.

(** The one assignment sequence that breaks the invariant: a payment applied
    to a canceled row keeps the status and clears the other two columns. *)
Lemma payment_succeeded_on_canceled now period_end s :
  Subscription.status s = canceled ->
  let s' := apply_payment_succeeded now period_end s in
  Subscription.status s' = canceled /\
  Subscription.canceled_at s' = None /\
  Subscription.access_revoked s' = false.
Proof.
  intros Hs s'. subst s'. unfold apply_payment_succeeded. rewrite Hs. cbn.
  rewrite Hs. repeat split.
Qed.

(** ** Running a computation step by step *)

Lemma bind_return {A B} (m : M A) (k : A -> M B) st a st' :
  m st = (Return a, st') -> bind m k st = k a st'.
Proof. intros H. unfold bind. now rewrite H. Qed.

Lemma bind_raise {A B} (m : M A) (k : A -> M B) st e st' :
  m st = (Raise e, st') -> bind m k st = (Raise e, st').
Proof. intros H. unfold bind. now rewrite H. Qed.

Lemma bind_inv {A B} (m : M A) (k : A -> M B) st b st' :
  bind m k st = (Return b, st') ->
  exists a st1, m st = (Return a, st1) /\ k a st1 = (Return b, st').
Proof. unfold bind. destruct (m st) as [[a|e] st1]; [eauto|discriminate]. Qed.

Lemma try_except_return {A} (body : M A) (handler : Exn -> M A) st a st' :
  body st = (Return a, st') -> try_except body handler st = (Return a, st').
Proof. intros H. unfold try_except. now rewrite H. Qed.

Lemma try_except_raise {A} (body : M A) (handler : Exn -> M A) st e st' :
  body st = (Raise e, st') -> try_except body handler st = handler e st'.
Proof. intros H. unfold try_except. now rewrite H. Qed.

(** ** The flush *)

Lemma needs_rollback_snoc (l : list SessionCall) (c : SessionCall) :
  needs_rollback (l ++ [c])
  = match c with
    | FlushFailed => true
    | CallRollback => false
    | _ => needs_rollback l
    end.
Proof. unfold needs_rollback. rewrite fold_left_app. now destruct c. Qed.

Lemma skipn_length_app {A} (l l' : list A) : skipn (List.length l) (l ++ l') = l'.
Proof. induction l as [|a l IH]; cbn; auto. Qed.

Lemma skipn_length {A} (l : list A) : skipn (List.length l) l = [].
Proof. induction l as [|a l IH]; cbn; auto. Qed.

Lemma flush_returns st :
  needs_rollback (calls st) = false -> flushable st = true ->
  flush st = (Return tt, st).
Proof. intros Hn Hf. unfold flush. now rewrite Hn, Hf. Qed.

Lemma session_commit_returns st :
  needs_rollback (calls st) = false -> flushable st = true ->
  session_commit st
  = (Return tt,
     mkEnv (working st) (working st) (calls st ++ [CallCommit]) (METRICS st)).
Proof.
  intros Hn Hf. unfold session_commit, bind. now rewrite (flush_returns st Hn Hf).
Qed.

(** A flush that raises leaves the database and the transaction view as they
    are. *)
Lemma flush_raises st e st' :
  flush st = (Raise e, st') ->
  committed st' = committed st /\ working st' = working st /\
  METRICS st' = METRICS st /\
  (needs_rollback (calls st) = true \/ flushable st = false) /\
  needs_rollback (calls st') = true.
Proof.
  unfold flush. destruct (needs_rollback (calls st)) eqn:Hn.
  - intros [= <- <-]. auto 6.
  - destruct (flushable st) eqn:Hf; [discriminate|].
    intros [= <- <-]. cbn [committed working METRICS calls].
    rewrite needs_rollback_snoc. auto 6.
Qed.

Lemma session_commit_raises st e st' :
  session_commit st = (Raise e, st') ->
  committed st' = committed st /\ working st' = working st /\
  METRICS st' = METRICS st /\
  (needs_rollback (calls st) = true \/ flushable st = false) /\
  needs_rollback (calls st') = true.
Proof.
  unfold session_commit, bind. destruct (flush st) as [[u|e0] st0] eqn:Hf;
    [discriminate|].
  intros [= <- <-]. now apply (flush_raises st e0 st0).
Qed.

(** Nothing is pending when the session opens. *)
Lemma flushable_no_payment (c w : Store) cl m :
  payments w = payments c -> flushable (mkEnv c w cl m) = true.
Proof.
  intros H. unfold flushable, pending_payments. cbn [committed working].
  now rewrite H, skipn_length.
Qed.

Lemma flushable_one_payment (c w : Store) cl m (p : Payment.t) :
  payments w = payments c ++ [p] ->
  flushable (mkEnv c w cl m) = sqlite_integer (Payment.amount p).
Proof.
  intros H. unfold flushable, pending_payments. cbn [committed working].
  rewrite H, skipn_length_app. cbn. apply Bool.andb_true_r.
Qed.

Lemma session_commit_cases st :
  session_commit st
  = if needs_rollback (calls st) then (Raise PendingRollbackError, st)
    else if flushable st
    then (Return tt,
          mkEnv (working st) (working st) (calls st ++ [CallCommit]) (METRICS st))
    else (Raise OverflowError,
          mkEnv (committed st) (working st) (calls st ++ [FlushFailed])
                (METRICS st)).
Proof.
  unfold session_commit, bind, flush.
  destruct (needs_rollback (calls st)); [reflexivity|].
  destruct (flushable st); reflexivity.
Qed.

(** Whether a session can flush depends on its payments only. *)
Lemma flushable_same_payments st st' :
  payments (committed st') = payments (committed st) ->
  payments (working st') = payments (working st) ->
  flushable st' = flushable st.
Proof. unfold flushable, pending_payments. now intros -> ->. Qed.

Lemma flushable_add_payment st st' (p : Payment.t) :
  payments (committed st') = payments (committed st) ->
  payments (working st') = payments (working st) ++ [p] ->
  sqlite_integer (Payment.amount p) = true ->
  flushable st = true -> flushable st' = true.
Proof.
  unfold flushable, pending_payments. intros -> -> Hp H.
  rewrite skipn_app, forallb_app, H. cbn [andb].
  destruct (List.length (payments (committed st))
            - List.length (payments (working st)))%nat as [|n].
  - cbn. now rewrite Hp.
  - cbn [skipn]. now rewrite skipn_nil.
Qed.

(** The statements that end a delivery and a reprocess. *)
Lemma add_commit_refresh_cases event st :
  (session_add ;; session_commit ;; session_refresh ;; the_event event) st
  = if needs_rollback (calls st)
    then (Raise PendingRollbackError,
          mkEnv (committed st) (working st) (calls st ++ [CallAdd]) (METRICS st))
    else if flushable st
    then (Return match find (fun r => WebhookEvent.id r =? WebhookEvent.id event)
                         (webhook_events (working st)) with
                 | Some r => r
                 | None => event
                 end,
          mkEnv (working st) (working st)
                (((calls st ++ [CallAdd]) ++ [CallCommit]) ++ [CallRefresh])
                (METRICS st))
    else (Raise OverflowError,
          mkEnv (committed st) (working st)
                ((calls st ++ [CallAdd]) ++ [FlushFailed]) (METRICS st)).
Proof.
  destruct st as [c w cl m].
  cbv beta iota delta [bind session_add log_call committed working calls METRICS].
  rewrite session_commit_cases. cbn [calls committed working METRICS].
  rewrite needs_rollback_snoc.
  change (flushable (mkEnv c w (cl ++ [CallAdd]) m)) with (flushable (mkEnv c w cl m)).
  destruct (needs_rollback cl); [reflexivity|].
  destruct (flushable (mkEnv c w cl m)); reflexivity.
Qed.

Lemma session_commit_inv st u st' :
  session_commit st = (Return u, st') ->
  st' = mkEnv (working st) (working st) (calls st ++ [CallCommit]) (METRICS st).
Proof.
  rewrite session_commit_cases.
  destruct (needs_rollback (calls st)); [discriminate|].
  destruct (flushable st); [|discriminate].
  now intros [= _ <-].
Qed.

Lemma session_flush_cases st :
  session_flush st
  = if needs_rollback (calls st) then (Raise PendingRollbackError, st)
    else if flushable st
    then (Return tt,
          mkEnv (committed st) (working st) (calls st ++ [CallFlush]) (METRICS st))
    else (Raise OverflowError,
          mkEnv (committed st) (working st) (calls st ++ [FlushFailed])
                (METRICS st)).
Proof.
  unfold session_flush, bind, flush, log_call.
  destruct (needs_rollback (calls st)); [reflexivity|].
  destruct (flushable st); reflexivity.
Qed.

(** ** Failure marking *)

(** Marking an event failed, committing and raising: the statements both
    [except] clauses and the replay tests run.  The commit raises in a
    session whose flush has failed, and when a pending payment cannot be
    stored. *)
Lemma mark_failed_commit_cases {A} now event message exc st :
  (_mark_failed now event message ;;
   session_add ;;
   session_commit ;;
   @raise A exc) st
  = let w := set_webhook_events
               (update_rows WebhookEvent.id (WebhookEvent.id event)
                  (mark_failed_row now message)
                  (webhook_events (working st)))
               (working st) in
    if needs_rollback (calls st)
    then (Raise PendingRollbackError,
          mkEnv (committed st) w (calls st ++ [CallAdd])
                (incr_webhook_failed (METRICS st)))
    else if flushable st
    then (Raise exc,
          mkEnv w w ((calls st ++ [CallAdd]) ++ [CallCommit])
                (incr_webhook_failed (METRICS st)))
    else (Raise OverflowError,
          mkEnv (committed st) w ((calls st ++ [CallAdd]) ++ [FlushFailed])
                (incr_webhook_failed (METRICS st))).
Proof.
  destruct st as [c w cl m].
  cbv beta iota zeta delta [bind _mark_failed update_event write count
                            session_add log_call raise
                            committed working calls METRICS].
  rewrite session_commit_cases. cbn [calls committed working METRICS].
  rewrite needs_rollback_snoc.
  change (flushable (mkEnv c (set_webhook_events _ w) _ _))
    with (flushable (mkEnv c w cl m)).
  destruct (needs_rollback cl); [reflexivity|].
  destruct (flushable (mkEnv c w cl m)); reflexivity.
Qed.

Lemma fail_and_reraise_cases now event exc st :
  fail_and_reraise now event exc st
  = let w := set_webhook_events
               (update_rows WebhookEvent.id (WebhookEvent.id event)
                  (mark_failed_row now (str_exc exc))
                  (webhook_events (working st)))
               (working st) in
    if needs_rollback (calls st)
    then (Raise PendingRollbackError,
          mkEnv (committed st) w (calls st ++ [CallAdd])
                (incr_webhook_failed (METRICS st)))
    else if flushable st
    then (Raise exc,
          mkEnv w w ((calls st ++ [CallAdd]) ++ [CallCommit])
                (incr_webhook_failed (METRICS st)))
    else (Raise OverflowError,
          mkEnv (committed st) w ((calls st ++ [CallAdd]) ++ [FlushFailed])
                (incr_webhook_failed (METRICS st))).
Proof.
  unfold fail_and_reraise.
  destruct (is_InvalidPayloadError exc); apply mark_failed_commit_cases.
Qed.

(** The [except] clauses of a delivery, in a session that can flush and in
    one whose flush has failed. *)
Lemma fail_and_reraise_run now event exc st :
  needs_rollback (calls st) = false -> flushable st = true ->
  fail_and_reraise now event exc st
  = (Raise exc,
     let w := set_webhook_events
                (update_rows WebhookEvent.id (WebhookEvent.id event)
                   (mark_failed_row now (str_exc exc))
                   (webhook_events (working st)))
                (working st) in
     mkEnv w w ((calls st ++ [CallAdd]) ++ [CallCommit])
           (incr_webhook_failed (METRICS st))).
Proof.
  intros Hn Hf. rewrite fail_and_reraise_cases. cbv zeta. now rewrite Hn, Hf.
Qed.

Lemma fail_and_reraise_blocked now event exc st :
  needs_rollback (calls st) = true ->
  fail_and_reraise now event exc st
  = (Raise PendingRollbackError,
     mkEnv (committed st)
           (set_webhook_events
              (update_rows WebhookEvent.id (WebhookEvent.id event)
                 (mark_failed_row now (str_exc exc))
                 (webhook_events (working st)))
              (working st))
           (calls st ++ [CallAdd]) (incr_webhook_failed (METRICS st))).
Proof.
  intros Hn. rewrite fail_and_reraise_cases. cbv zeta. now rewrite Hn.
Qed.

(** C6.  [_mark_failed] returns normally; it adds one to the failure counter
    and rewrites the rows with the event's key by [mark_failed_row]; the
    [except] clauses of a delivery call it with [str(exc)], commit and raise
    the exception again; when that commit itself raises (the session's flush
    has failed, or a pending payment cannot be stored), the clause still
    raises and nothing is committed.  [mark_failed_row] increments
    [attempt_count] by one, sets [next_retry_at] to
    [now + min(300 * attempt_count, 3600)] seconds for the incremented count,
    [needs_attention] to [attempt_count >= 3], [processing_status] to
    [failed], [processed_at] to [now] and [error_message] to the message,
    and leaves the other columns alone. *)
Theorem C6_mark_failed_updates (now : datetime) (message : string)
  (event : WebhookEvent.t) (st : Env) :
  _mark_failed now event message st
  = (Return tt,
     mkEnv (committed st)
           (set_webhook_events
              (update_rows WebhookEvent.id (WebhookEvent.id event)
                 (mark_failed_row now message) (webhook_events (working st)))
              (working st))
           (calls st) (incr_webhook_failed (METRICS st))) /\
  (forall exc,
      (needs_rollback (calls st) = false -> flushable st = true ->
       fail_and_reraise now event exc st
       = (Raise exc,
          let marked := snd (_mark_failed now event (str_exc exc) st) in
          mkEnv (working marked) (working marked)
                ((calls st ++ [CallAdd]) ++ [CallCommit]) (METRICS marked))) /\
      (needs_rollback (calls st) = true \/ flushable st = false ->
       exists e st',
         fail_and_reraise now event exc st = (Raise e, st') /\
         committed st' = committed st)) /\
  forall row : WebhookEvent.t,
    let row' := mark_failed_row now message row in
    WebhookEvent.attempt_count row' = WebhookEvent.attempt_count row + 1 /\
    WebhookEvent.next_retry_at row'
    = Some (now + 1000000 * Z.min (300 * (WebhookEvent.attempt_count row + 1)) 3600) /\
    WebhookEvent.needs_attention row'
    = (3 <=? WebhookEvent.attempt_count row + 1) /\
    WebhookEvent.processing_status row' = failed /\
    WebhookEvent.processed_at row' = Some now /\
    WebhookEvent.error_message row' = Some message /\
    WebhookEvent.id row' = WebhookEvent.id row /\
    WebhookEvent.provider row' = WebhookEvent.provider row /\
    WebhookEvent.event_id row' = WebhookEvent.event_id row /\
    WebhookEvent.event_type row' = WebhookEvent.event_type row /\
    WebhookEvent.payload_raw row' = WebhookEvent.payload_raw row /\
    WebhookEvent.signature row' = WebhookEvent.signature row /\
    WebhookEvent.signature_timestamp row' = WebhookEvent.signature_timestamp row /\
    WebhookEvent.received_at row' = WebhookEvent.received_at row.
Proof.
  split; [reflexivity|]. split.
  { intros exc. split.
    - intros Hn Hf. rewrite (fail_and_reraise_run now event exc st Hn Hf).
      reflexivity.
    - intros Hbad. rewrite fail_and_reraise_cases. cbv zeta.
      destruct (needs_rollback (calls st)); [eexists _, _; split; reflexivity|].
      destruct (flushable st); [destruct Hbad; discriminate|].
      eexists _, _; split; reflexivity. }
  intros row row'. subst row'. unfold mark_failed_row, timedelta_seconds.
  cbn -[Z.mul Z.add Z.min Z.geb Z.leb].
  repeat split.
  - f_equal. lia.
  - rewrite Z.geb_leb. reflexivity.
Qed.

(** ** The handlers and the dispatcher *)

(** Runs the session primitives of a computation applied to a state. *)
Ltac run_session :=
  cbv beta iota delta
    [bind ret raise lift read write log_call count session_add
     session_refresh session_rollback update_event update_subscription
     update_customer the_event the_subscription count_outcome try_except
     _mark_failed add_payment open_session
     working committed calls METRICS fst snd].

Ltac store_simpl :=
  cbn [webhook_events customers subscriptions payments set_payments
       set_subscriptions set_webhook_events set_customers].


Section Handlers.
Variable L : Libs.

Lemma payment_succeeded_shape now ev pd :
  _handle_payment_succeeded L now ev pd
  = typed_handler L (kind_validate L PaymentSucceeded) (kind_apply PaymentSucceeded)
      (kind_status PaymentSucceeded) now ev pd.
Proof. reflexivity. Qed.

Lemma invoice_payment_failed_shape now ev pd :
  _handle_invoice_payment_failed L now ev pd
  = typed_handler L (kind_validate L InvoicePaymentFailed)
      (kind_apply InvoicePaymentFailed) (kind_status InvoicePaymentFailed) now ev pd.
Proof. reflexivity. Qed.

Lemma parse_period_end_outcome now v :
  exists o, forall st, _parse_period_end L now v st = (o, st).
Proof.
  unfold _parse_period_end. destruct v as [[s|n|b]|].
  - unfold bind, lift, ret.
    destruct (datetime_fromisoformat L _) as [[d tz]|e]; eexists; intros; reflexivity.
  - eexists; intros; reflexivity.
  - eexists; intros; reflexivity.
  - eexists; intros; reflexivity.
Qed.

Lemma typed_handler_cases validate apply status now ev pd st :
  (exists e, typed_handler L validate apply status now ev pd st = (Raise e, st)) \/
  (exists p c pe sub,
      resolves L validate now pd (working st) p c pe sub /\
      typed_handler L validate apply status now ev pd st
      = settle (apply now pe) status now ev p c pe sub st).
Proof.
  cbv beta iota delta [typed_handler bind lift _get_customer_by_provider_id
    _get_subscription_by_provider_id read ret raise].
  destruct (validate pd) as [p|e] eqn:Hv; [|left; eauto].
  cbv beta.
  destruct (find _ (customers (working st))) as [c|] eqn:Hc; [|left; eauto].
  destruct (parse_period_end_outcome now (Payload.current_period_end p)) as [o Ho].
  rewrite Ho. destruct o as [pe|e]; [|left; eauto].
  cbv beta.
  destruct (find _ (subscriptions (working st))) as [sub|] eqn:Hs; [|left; eauto].
  destruct (Subscription.customer_id sub =? Customer.id c) eqn:Hcid; simpl;
    [|left; eauto].
  right. exists p, c, pe, sub. split; [|reflexivity].
  repeat split; auto. now apply Z.eqb_eq.
Qed.

Lemma typed_handler_run validate apply status now ev pd st p c pe sub :
  resolves L validate now pd (working st) p c pe sub ->
  typed_handler L validate apply status now ev pd st
  = settle (apply now pe) status now ev p c pe sub st.
Proof.
  intros (Hv & Hc & Hp & Hs & Hcid).
  cbv beta iota delta [typed_handler bind lift _get_customer_by_provider_id
    _get_subscription_by_provider_id read ret raise].
  rewrite Hv. cbv beta. rewrite Hc, Hp. cbv beta. rewrite Hs, Hcid, Z.eqb_refl.
  reflexivity.
Qed.

Lemma settle_returns apply status now ev p c pe sub st :
  exists st', settle apply status now ev p c pe sub st = (Return tt, st').
Proof.
  unfold settle. destruct (pe <? Subscription.current_period_end sub);
    eexists; reflexivity.
Qed.

Lemma EVENT_HANDLERS_kind event_type :
  EVENT_HANDLERS L event_type
  = match handler_kind event_type with
    | Some k => Some (typed_handler L (kind_validate L k) (kind_apply k)
                        (kind_status k))
    | None => None
    end.
Proof.
  unfold EVENT_HANDLERS, handler_kind.
  destruct (String.eqb event_type "payment.succeeded"); [reflexivity|].
  destruct (String.eqb event_type "invoice.payment_failed"); reflexivity.
Qed.

Lemma dispatch_event_unfold now ev st :
  dispatch_event L now ev st
  = match json_loads L (WebhookEvent.payload_raw ev) with
    | Raise e => (Raise e, st)
    | Return (PyDict items) =>
        match (match dict_get items "payload_json" with
               | Some v => v
               | None => PyDict items
               end) with
        | PyDict d =>
            match handler_kind (WebhookEvent.event_type ev) with
            | None => update_event (WebhookEvent.id ev) (mark_ignored now) st
            | Some k =>
                (typed_handler L (kind_validate L k) (kind_apply k)
                   (kind_status k) now ev (PyDict d) ;;
                 update_event (WebhookEvent.id ev) (mark_processed now)) st
            end
        | _ => (Raise (InvalidPayloadError "payload_json must be an object"), st)
        end
    | Return _ => (Raise (InvalidPayloadError "payload_json must be an object"), st)
    end.
Proof.
  unfold dispatch_event. rewrite EVENT_HANDLERS_kind.
  unfold bind at 1, lift.
  destruct (json_loads L (WebhookEvent.payload_raw ev)) as [v|e];
    [|reflexivity].
  destruct v as [| | | | |l|items]; try reflexivity.
  destruct (match dict_get items "payload_json" with
            | Some v => v
            | None => PyDict items
            end) as [| | | | |l|d]; try reflexivity.
  destruct (handler_kind (WebhookEvent.event_type ev)); reflexivity.
Qed.

(** The three ways [dispatch_event] can end: it raises before any write, it
    takes the unknown-type branch, or a typed handler settles the event and
    the dispatcher marks it processed. *)
Lemma dispatch_event_cases now ev st :
  (exists e, dispatch_event L now ev st = (Raise e, st)) \/
  (exists pd,
      decodes L ev pd /\ handler_kind (WebhookEvent.event_type ev) = None /\
      dispatch_event L now ev st
      = update_event (WebhookEvent.id ev) (mark_ignored now) st) \/
  (exists pd k p c pe sub,
      decodes L ev pd /\ handler_kind (WebhookEvent.event_type ev) = Some k /\
      resolves L (kind_validate L k) now pd (working st) p c pe sub /\
      dispatch_event L now ev st
      = (settle (kind_apply k now pe) (kind_status k) now ev p c pe sub ;;
         update_event (WebhookEvent.id ev) (mark_processed now)) st).
Proof.
  rewrite dispatch_event_unfold. unfold decodes.
  destruct (json_loads L (WebhookEvent.payload_raw ev)) as [v|e] eqn:Hj;
    [|left; eauto].
  destruct v as [| | | | |l|items]; try (left; eexists; reflexivity).
  destruct (match dict_get items "payload_json" with
            | Some v => v
            | None => PyDict items
            end) as [| | | | |l|d] eqn:Hpd; try (left; eexists; reflexivity).
  assert (Hdec : exists items0,
             Return (PyDict items) = Return (PyDict items0) /\
             PyDict d = match dict_get items0 "payload_json" with
                        | Some v => v
                        | None => PyDict items0
                        end /\
             exists d0, PyDict d = PyDict d0).
  { exists items. rewrite Hpd. eauto. }
  destruct (handler_kind (WebhookEvent.event_type ev)) as [k|] eqn:Hk.
  - destruct (typed_handler_cases (kind_validate L k) (kind_apply k)
                (kind_status k) now ev (PyDict d) st)
      as [[e He]|(p & c & pe & sub & Hres & Hrun)].
    + left. exists e. unfold bind; cbv beta. rewrite He. reflexivity.
    + right; right. exists (PyDict d), k, p, c, pe, sub.
      split; [exact Hdec|]. split; [reflexivity|]. split; [exact Hres|].
      unfold bind; cbv beta. rewrite Hrun. reflexivity.
  - right; left. exists (PyDict d). auto.
Qed.

Lemma dispatch_event_run now ev st pd k p c pe sub :
  decodes L ev pd ->
  handler_kind (WebhookEvent.event_type ev) = Some k ->
  resolves L (kind_validate L k) now pd (working st) p c pe sub ->
  dispatch_event L now ev st
  = (settle (kind_apply k now pe) (kind_status k) now ev p c pe sub ;;
     update_event (WebhookEvent.id ev) (mark_processed now)) st.
Proof.
  intros (items & Hj & Hpd & d & Hd) Hk Hres.
  rewrite dispatch_event_unfold, Hj, <- Hpd, Hk.
  rewrite Hd in Hres |- *.
  unfold bind; cbv beta. rewrite (typed_handler_run _ _ _ _ _ _ _ _ _ _ _ Hres).
  reflexivity.
Qed.

Lemma dispatch_event_unknown now ev st pd :
  decodes L ev pd ->
  handler_kind (WebhookEvent.event_type ev) = None ->
  dispatch_event L now ev st
  = update_event (WebhookEvent.id ev) (mark_ignored now) st.
Proof.
  intros (items & Hj & Hpd & d & Hd) Hk.
  rewrite dispatch_event_unfold, Hj, <- Hpd, Hk, Hd. reflexivity.
Qed.

(** A raising dispatch has written nothing. *)
Lemma dispatch_event_raise_keeps_state now ev st e st' :
  dispatch_event L now ev st = (Raise e, st') -> st' = st.
Proof.
  intros H.
  destruct (dispatch_event_cases now ev st)
    as [[e' He]|[(pd & _ & _ & Hrun)|(pd & k & p & c & pe & sub & _ & _ & _ & Hrun)]].
  - rewrite He in H. now inversion H.
  - rewrite Hrun in H. discriminate.
  - rewrite Hrun in H. unfold bind in H; cbv beta in H.
    destruct (settle_returns (kind_apply k now pe) (kind_status k) now ev p c pe sub st)
      as [st1 Hs].
    rewrite Hs in H. discriminate.
Qed.

Lemma update_rows_hit {A} (key : A -> Z) id f (rows : list A) (r : A) :
  In r (update_rows key id f rows) -> key r = id ->
  exists r0, In r0 rows /\ r = f r0.
Proof.
  unfold update_rows. intros Hin Hk. apply in_map_iff in Hin.
  destruct Hin as (r0 & Hr & Hin). destruct (key r0 =? id) eqn:E.
  - eauto.
  - subst r. apply Z.eqb_neq in E. contradiction.
Qed.

(** After a dispatch that returned, no row with the event's key is failed. *)
Lemma dispatch_event_settles now ev st u st1 :
  dispatch_event L now ev st = (Return u, st1) ->
  settled (WebhookEvent.id ev) (webhook_events (working st1)).
Proof.
  intros H.
  destruct (dispatch_event_cases now ev st)
    as [[e He]|[(pd & _ & _ & Hrun)|(pd & k & p & c & pe & sub & _ & _ & _ & Hrun)]].
  - rewrite He in H. discriminate.
  - rewrite Hrun in H. inversion H; subst. intros r Hin Hid.
    destruct (update_rows_hit _ _ _ _ _ Hin Hid) as (r0 & _ & ->). discriminate.
  - rewrite Hrun in H. unfold bind in H.
    destruct (settle_returns (kind_apply k now pe) (kind_status k) now ev p c pe sub st)
      as [st0 Hs].
    rewrite Hs in H. inversion H; subst. intros r Hin Hid.
    destruct (update_rows_hit _ _ _ _ _ Hin Hid) as (r0 & _ & ->). discriminate.
Qed.

Lemma count_outcome_run ev st :
  exists m,
    count_outcome ev st
    = (Return tt, mkEnv (committed st) (working st) (calls st) m).
Proof.
  unfold count_outcome. run_session.
  match goal with
  | |- context [WebhookProcessingStatus_eqb ?s ignored] =>
      destruct (WebhookProcessingStatus_eqb s ignored)
  end; eexists; reflexivity.
Qed.

End Handlers.

Lemma dispatch_event_keeps_counters (L : Libs) now ev st :
  METRICS (snd (dispatch_event L now ev st)) = METRICS st /\
  committed (snd (dispatch_event L now ev st)) = committed st.
Proof.
  destruct (dispatch_event_cases L now ev st)
    as [[e He]|[(pd & _ & _ & Hrun)|(pd & k & p & c & pe & sub & _ & _ & _ & Hrun)]];
    rewrite ?He, ?Hrun.
  - split; reflexivity.
  - split; reflexivity.
  - unfold bind, settle.
    destruct (pe <? Subscription.current_period_end sub); split; reflexivity.
Qed.

Lemma count_outcome_counters ev st :
  exists m,
    count_outcome ev st
    = (Return tt, mkEnv (committed st) (working st) (calls st) m) /\
    webhook_failed m = webhook_failed (METRICS st) /\
    webhook_replayed m = webhook_replayed (METRICS st) /\
    webhook_handled m = webhook_handled (METRICS st) + 1.
Proof.
  unfold count_outcome. run_session.
  match goal with
  | |- context [WebhookProcessingStatus_eqb ?s ignored] =>
      destruct (WebhookProcessingStatus_eqb s ignored)
  end; eexists; (split; [reflexivity|]); unfold webhook_handled; cbn;
    repeat split; lia.
Qed.

(** A dispatch logs nothing but [session.add] calls. *)
Lemma dispatch_event_keeps_session (L : Libs) now ev st :
  needs_rollback (calls (snd (dispatch_event L now ev st)))
  = needs_rollback (calls st).
Proof.
  destruct (dispatch_event_cases L now ev st)
    as [[e He]|[(pd & _ & _ & Hrun)|(pd & k & p & c & pe & sub & _ & _ & _ & Hrun)]];
    rewrite ?He, ?Hrun; try reflexivity.
  unfold settle.
  destruct st as [cm wk cl mt].
  destruct (pe <? Subscription.current_period_end sub); run_session;
    rewrite ?needs_rollback_snoc; reflexivity.
Qed.

Lemma find_none_existsb {A} (f : A -> bool) (l : list A) :
  find f l = None -> existsb f l = false.
Proof.
  induction l as [|x l IH]; simpl; [reflexivity|].
  destruct (f x); [discriminate|auto].
Qed.

Lemma next_id_fresh (ids : list Z) (i : Z) : In i ids -> i < next_id ids.
Proof.
  unfold next_id. induction ids as [|j ids IH]; cbn [fold_right In]; [tauto|].
  intros [->|H]; [lia|]. specialize (IH H). lia.
Qed.

Lemma update_rows_fresh {A} (key : A -> Z) id f (rows : list A) :
  (forall r, In r rows -> key r <> id) -> update_rows key id f rows = rows.
Proof.
  unfold update_rows. induction rows as [|r rows IH]; simpl; intros H; [reflexivity|].
  rewrite IH by auto. destruct (key r =? id) eqn:E; [|reflexivity].
  apply Z.eqb_eq in E. exfalso. apply (H r); auto.
Qed.

Lemma update_rows_app {A} (key : A -> Z) id f (l1 l2 : list A) :
  update_rows key id f (l1 ++ l2)
  = update_rows key id f l1 ++ update_rows key id f l2.
Proof. unfold update_rows. apply map_app. Qed.

Lemma update_rows_new {A} (key : A -> Z) f (rows : list A) (row : A) :
  key row = next_id (map key rows) ->
  update_rows key (key row) f (rows ++ [row]) = rows ++ [f row].
Proof.
  intros Hk. rewrite update_rows_app, update_rows_fresh.
  - unfold update_rows. simpl. now rewrite Z.eqb_refl.
  - intros r Hr E. assert (key r < next_id (map key rows)).
    { apply next_id_fresh. now apply in_map. }
    lia.
Qed.

Section Deliveries.
Variable L : Libs.

Lemma process_webhook_first_delivery now provider webhook verified a :
  find (has_key provider (WebhookEventIn.event_id webhook))
       (webhook_events (db a)) = None ->
  let row := received_row now provider webhook verified
               (next_id (map WebhookEvent.id (webhook_events (db a)))) in
  process_webhook L now provider webhook verified (open_session a)
  = try_except
      (dispatch_event L now row ;;
       count_outcome row ;;
       update_event (WebhookEvent.id row) clear_retry_first_delivery ;;
       session_add ;;
       session_commit ;;
       session_refresh ;;
       the_event row)
      (fail_and_reraise now row)
      (mkEnv (db a)
             (set_webhook_events (webhook_events (db a) ++ [row]) (db a))
             [CallAdd; CallFlush] (metrics a)).
Proof.
  intros Hfind row.
  unfold process_webhook, bind at 1, _get_existing_event, read, open_session.
  cbn [working]. unfold has_key in Hfind. rewrite Hfind.
  apply find_none_existsb in Hfind.
  unfold bind at 1. unfold session_add at 1, log_call.
  unfold bind at 1. unfold try_except at 1. unfold bind at 1, flush_new_event.
  erewrite (bind_return session_flush).
  2:{ unfold session_flush. erewrite bind_return; [reflexivity|].
      apply flush_returns; [reflexivity|]. apply flushable_no_payment.
      reflexivity. }
  unfold bind at 1, read. cbn [working calls app].
  cbn [WebhookEvent.provider WebhookEvent.event_id].
  rewrite Hfind. unfold bind at 1, write. unfold ret at 1. cbn [working calls committed METRICS].
  unfold ret at 1. cbv beta iota. reflexivity.
Qed.

(** What follows the dispatch of a first delivery: the counter, the cleared
    retry fields, and the commit, which raises when the payment the handler
    added cannot be stored. *)
Lemma first_delivery_tail row st :
  needs_rollback (calls st) = false ->
  exists m,
    let w := set_webhook_events
               (update_rows WebhookEvent.id (WebhookEvent.id row)
                  clear_retry_first_delivery (webhook_events (working st)))
               (working st) in
    (count_outcome row ;;
     update_event (WebhookEvent.id row) clear_retry_first_delivery ;;
     session_add ;;
     session_commit ;;
     session_refresh ;;
     the_event row) st
    = (if flushable st
       then (Return match find (fun r => WebhookEvent.id r =? WebhookEvent.id row)
                            (webhook_events w) with
                    | Some r => r
                    | None => row
                    end,
             mkEnv w w (((calls st ++ [CallAdd]) ++ [CallCommit]) ++ [CallRefresh]) m)
       else (Raise OverflowError,
             mkEnv (committed st) w ((calls st ++ [CallAdd]) ++ [FlushFailed]) m)) /\
    m = (if WebhookProcessingStatus_eqb
              (WebhookEvent.processing_status
                 match find (fun r => WebhookEvent.id r =? WebhookEvent.id row)
                         (webhook_events (working st)) with
                 | Some r => r
                 | None => row
                 end) ignored
         then incr_webhook_ignored (METRICS st)
         else incr_webhook_processed (METRICS st)).
Proof.
  intros Hn. destruct st as [c w cl m]. cbn [calls] in Hn.
  eexists. split; [|reflexivity].
  unfold count_outcome. run_session.
  match goal with
  | |- context [WebhookProcessingStatus_eqb ?s ignored] =>
      destruct (WebhookProcessingStatus_eqb s ignored)
  end;
    rewrite session_commit_cases; cbn [calls committed working METRICS];
    rewrite needs_rollback_snoc, Hn;
    change (flushable (mkEnv c (set_webhook_events _ w) _ _))
      with (flushable (mkEnv c w cl m));
    destruct (flushable (mkEnv c w cl m)); reflexivity.
Qed.

(** C3 (amended).  When the dispatch of a first delivery raises, the
    delivery raises the same exception, and the committed database has the
    customers, subscriptions and payments it had before, and the one new event
    row, marked failed with the exception's message.  The session calls made
    are add, flush, add, commit: nothing is rolled back; the handlers raise
    only before their first write.  When the delivery raises although the
    dispatch returned, it is the commit that failed, and nothing at all is
    committed. *)
Theorem C3_failed_first_delivery_has_no_side_effects now provider webhook
  verified a :
  find (has_key provider (WebhookEventIn.event_id webhook))
       (webhook_events (db a)) = None ->
  let row := received_row now provider webhook verified
               (next_id (map WebhookEvent.id (webhook_events (db a)))) in
  let st1 := mkEnv (db a)
               (set_webhook_events (webhook_events (db a) ++ [row]) (db a))
               [CallAdd; CallFlush] (metrics a) in
  (forall exc st1',
     dispatch_event L now row st1 = (Raise exc, st1') ->
     exists st,
       process_webhook L now provider webhook verified (open_session a)
       = (Raise exc, st) /\
       customers (committed st) = customers (db a) /\
       subscriptions (committed st) = subscriptions (db a) /\
       payments (committed st) = payments (db a) /\
       webhook_events (committed st)
       = webhook_events (db a) ++ [mark_failed_row now (str_exc exc) row] /\
       WebhookEvent.processing_status (mark_failed_row now (str_exc exc) row)
       = failed /\
       calls st = [CallAdd; CallFlush; CallAdd; CallCommit]) /\
  (forall u st1' exc st,
     dispatch_event L now row st1 = (Return u, st1') ->
     process_webhook L now provider webhook verified (open_session a)
     = (Raise exc, st) ->
     exc = PendingRollbackError /\ committed st = db a).
Proof.
  intros Hfind row st1.
  rewrite (process_webhook_first_delivery _ _ _ _ _ Hfind).
  fold row. fold st1. split.
  - intros exc st1' Hd.
    pose proof (dispatch_event_raise_keeps_state L _ _ _ _ _ Hd) as ->.
    erewrite try_except_raise; [|erewrite bind_raise; [reflexivity|exact Hd]].
    rewrite fail_and_reraise_run;
      [|reflexivity|apply flushable_no_payment; reflexivity].
    eexists. split; [reflexivity|].
    cbn [committed calls working st1 customers subscriptions payments
         webhook_events set_webhook_events app].
    repeat split.
    apply update_rows_new. reflexivity.
  - intros u st2 exc st Hd.
    pose proof (dispatch_event_keeps_counters L now row st1) as [_ Hc].
    pose proof (dispatch_event_keeps_session L now row st1) as Hs.
    rewrite Hd in Hc, Hs. cbn [snd] in Hc, Hs.
    destruct (first_delivery_tail row st2 Hs) as (m & Htail & _).
    cbv zeta in Htail.
    destruct (flushable st2).
    + erewrite try_except_return; [discriminate|].
      erewrite bind_return; [|exact Hd]. exact Htail.
    + erewrite try_except_raise;
        [|erewrite bind_return; [exact Htail|exact Hd]].
      rewrite fail_and_reraise_blocked
        by (cbn [calls]; now rewrite needs_rollback_snoc).
      intros [= <- <-]. split; [reflexivity|exact Hc].
Qed.

(** C4.  When the delivered key is already stored and the presented timestamp
    or signature differs from the stored one, [process_webhook] raises
    [ReplayAttackError] with the message of the first failing test, and the
    committed database is the old one with the stored row rewritten by
    [mark_failed_row] under that message. *)
Theorem C4_replay_mismatch_marks_failed_and_raises now provider webhook
  verified a existing :
  find (has_key provider (WebhookEventIn.event_id webhook))
       (webhook_events (db a)) = Some existing ->
  VerifiedWebhookData.timestamp verified
    <> WebhookEvent.signature_timestamp existing \/
  VerifiedWebhookData.signature verified <> WebhookEvent.signature existing ->
  let message :=
    if VerifiedWebhookData.timestamp verified
       =? WebhookEvent.signature_timestamp existing
    then "replay signature mismatch"
    else "replay timestamp mismatch" in
  with_session (process_webhook L now provider webhook verified) a
  = (Raise (ReplayAttackError message),
     mkApp (set_webhook_events
              (update_rows WebhookEvent.id (WebhookEvent.id existing)
                 (mark_failed_row now message) (webhook_events (db a)))
              (db a))
           (incr_webhook_failed (metrics a))) /\
  In (mark_failed_row now message existing)
     (update_rows WebhookEvent.id (WebhookEvent.id existing)
        (mark_failed_row now message) (webhook_events (db a))) /\
  WebhookEvent.processing_status (mark_failed_row now message existing) = failed /\
  WebhookEvent.error_message (mark_failed_row now message existing) = Some message.
Proof.
  intros Hfind Hdiff message. split; [|split; [|split; reflexivity]].
  - assert (Hrun : process_webhook L now provider webhook verified (open_session a)
                   = (Raise (ReplayAttackError message),
                      let w := set_webhook_events
                                 (update_rows WebhookEvent.id (WebhookEvent.id existing)
                                    (mark_failed_row now message)
                                    (webhook_events (db a))) (db a) in
                      mkEnv w w [CallAdd; CallCommit]
                            (incr_webhook_failed (metrics a))));
      [|unfold with_session; rewrite Hrun; reflexivity].
    unfold process_webhook, bind at 1, _get_existing_event, read, open_session.
    cbn [working]. unfold has_key in Hfind. rewrite Hfind. cbv beta iota.
    unfold _handle_existing_event. subst message.
    destruct (VerifiedWebhookData.timestamp verified
              =? WebhookEvent.signature_timestamp existing) eqn:Ets.
    + apply Z.eqb_eq in Ets.
      destruct (String.eqb (VerifiedWebhookData.signature verified)
                           (WebhookEvent.signature existing)) eqn:Esig.
      * apply String.eqb_eq in Esig. destruct Hdiff; contradiction.
      * cbv beta iota delta [negb]. rewrite mark_failed_commit_cases.
        cbv zeta. rewrite flushable_no_payment; reflexivity.
    + cbv beta iota delta [negb]. rewrite mark_failed_commit_cases.
      cbv zeta. rewrite flushable_no_payment; reflexivity.
  - apply find_some in Hfind. destruct Hfind as [Hin _].
    unfold update_rows. apply in_map_iff. exists existing.
    rewrite Z.eqb_refl. auto.
Qed.

(** What a typed handler leaves behind when the event is not stale. *)
Lemma settle_applied apply status now ev p c pe sub st :
  Subscription.current_period_end sub <= pe ->
  settle apply status now ev p c pe sub st
  = (Return tt,
     mkEnv (committed st)
           (set_payments
              (payments (working st)
               ++ [payment_row status now ev p c sub
                     (next_id (map Payment.id (payments (working st))))])
              (set_subscriptions
                 (update_rows Subscription.id (Subscription.id sub) apply
                    (subscriptions (working st)))
                 (working st)))
           ((calls st ++ [CallAdd]) ++ [CallAdd]) (METRICS st)).
Proof.
  intros Hle. unfold settle.
  replace (pe <? Subscription.current_period_end sub) with false
    by (symmetry; apply Z.ltb_ge; exact Hle).
  reflexivity.
Qed.

(** What a typed handler leaves behind when the event is stale. *)
Lemma settle_stale apply status now ev p c pe sub st :
  pe < Subscription.current_period_end sub ->
  settle apply status now ev p c pe sub st
  = (Return tt,
     mkEnv (committed st)
           (set_webhook_events
              (update_rows WebhookEvent.id (WebhookEvent.id ev) (mark_stale now)
                 (webhook_events (working st)))
              (working st))
           (calls st) (METRICS st)).
Proof.
  intros Hlt. unfold settle.
  replace (pe <? Subscription.current_period_end sub) with true
    by (symmetry; apply Z.ltb_lt; exact Hlt).
  reflexivity.
Qed.

(** C10 (amended).  [reprocess_webhook_event] dispatches the stored event
    whatever its [processing_status].  When the event is the only one with
    that [event_id], its type is payment.succeeded, its payload resolves to a
    customer and a subscription and is not stale, and its amount fits a
    signed 64-bit integer, the call returns, the
    committed payments are the old ones followed by one new approved row, and
    that row carries the [provider_payment_id] every payment row written for
    this event and payload carries: [payment_id], or the [event_id] when the
    payload has none. *)
Theorem C10_admin_reprocess_appends_payment now event_id a event pd p c pe sub :
  filter (fun e => String.eqb (WebhookEvent.event_id e) event_id && true)
         (webhook_events (db a)) = [event] ->
  WebhookEvent.event_type event = "payment.succeeded" ->
  decodes L event pd ->
  resolves L (PaymentSucceededPayload_model_validate L) now pd (db a) p c pe sub ->
  Subscription.current_period_end sub <= pe ->
  sqlite_integer (Payload.amount p) = true ->
  let row := payment_row approved now event p c sub
               (next_id (map Payment.id (payments (db a)))) in
  exists ev' a',
    with_session (reprocess_webhook_event L now event_id) a = (Return ev', a') /\
    payments (db a') = payments (db a) ++ [row] /\
    Payment.provider_payment_id row
    = str_or (Payload.payment_id p) (WebhookEvent.event_id event) /\
    (forall status0 now0 c0 sub0 id0,
        Payment.provider_payment_id (payment_row status0 now0 event p c0 sub0 id0)
        = Payment.provider_payment_id row) /\
    subscriptions (db a')
    = update_rows Subscription.id (Subscription.id sub)
        (apply_payment_succeeded now pe) (subscriptions (db a)).
Proof.
  intros Hfilter Htype Hdec Hres Hle Hamt row.
  assert (Hk : handler_kind (WebhookEvent.event_type event) = Some PaymentSucceeded)
    by (rewrite Htype; reflexivity).
  assert (Hrun : exists ev' st',
             reprocess_webhook_event L now event_id (open_session a)
             = (Return ev', st') /\
             payments (committed st') = payments (db a) ++ [row] /\
             subscriptions (committed st')
             = update_rows Subscription.id (Subscription.id sub)
                 (apply_payment_succeeded now pe) (subscriptions (db a))).
  { unfold reprocess_webhook_event, bind at 1, get_webhook_event, bind at 1, read.
    change (working (open_session a)) with (db a).
    rewrite Hfilter. unfold ret at 1. cbv beta iota.
    unfold bind at 1, try_except, bind at 1.
    rewrite (dispatch_event_run L now event (open_session a) pd PaymentSucceeded
               p c pe sub Hdec Hk Hres).
    unfold bind at 1. rewrite settle_applied by exact Hle.
    run_session.
    match goal with
    | |- context [WebhookProcessingStatus_eqb ?s ignored] =>
        destruct (WebhookProcessingStatus_eqb s ignored)
    end;
      (rewrite session_commit_returns;
       [run_session; do 2 eexists; (split; [reflexivity|split; reflexivity])
       |cbn [calls]; rewrite ?needs_rollback_snoc; reflexivity
       |rewrite (flushable_one_payment _ _ _ _ row) by reflexivity;
        exact Hamt]). }
  destruct Hrun as (ev' & st' & Hrun & Hpay & Hsub).
  exists ev', (mkApp (committed st') (METRICS st')).
  unfold with_session. rewrite Hrun. cbn [fst snd db].
  repeat split; auto.
Qed.

Lemma find_app {A} (f : A -> bool) (l1 l2 : list A) :
  find f (l1 ++ l2)
  = match find f l1 with Some x => Some x | None => find f l2 end.
Proof.
  induction l1 as [|x l1 IH]; simpl; [reflexivity|].
  destruct (f x); [reflexivity|exact IH].
Qed.




Lemma find_key_fresh {A} (key : A -> Z) (rows : list A) :
  find (fun r => key r =? next_id (map key rows)) rows = None.
Proof.
  destruct (find _ rows) as [r|] eqn:Hf; [|reflexivity].
  apply find_some in Hf. destruct Hf as [Hin Hk]. apply Z.eqb_eq in Hk.
  assert (key r < next_id (map key rows)) by (apply next_id_fresh; now apply in_map).
  lia.
Qed.

Lemma find_key_new {A} (key : A -> Z) (rows : list A) (row : A) :
  key row = next_id (map key rows) ->
  find (fun r => key r =? key row) (rows ++ [row]) = Some row.
Proof.
  intros Hk. rewrite find_app.
  replace (find (fun r => key r =? key row) rows) with (@None A).
  - cbn. now rewrite Z.eqb_refl.
  - symmetry. rewrite Hk. apply find_key_fresh.
Qed.



(** A stale event leaves the subscription and payment tables alone, and its
    row ends the dispatch processed, with the handler's message: the
    dispatcher's assignment follows the handler's. *)
Lemma dispatch_event_stale now ev st pd k p c pe sub :
  decodes L ev pd ->
  handler_kind (WebhookEvent.event_type ev) = Some k ->
  resolves L (kind_validate L k) now pd (working st) p c pe sub ->
  pe < Subscription.current_period_end sub ->
  dispatch_event L now ev st
  = (Return tt,
     mkEnv (committed st)
           (set_webhook_events
              (update_rows WebhookEvent.id (WebhookEvent.id ev) (mark_processed now)
                 (update_rows WebhookEvent.id (WebhookEvent.id ev) (mark_stale now)
                    (webhook_events (working st))))
              (working st))
           (calls st) (METRICS st)) /\
  forall row,
    WebhookEvent.processing_status (mark_processed now (mark_stale now row))
    = processed /\
    WebhookEvent.error_message (mark_processed now (mark_stale now row))
    = Some "stale event ignored".
Proof.
  intros Hdec Hk Hres Hlt. split; [|intros row; split; reflexivity].
  rewrite (dispatch_event_run L now ev st pd k p c pe sub Hdec Hk Hres).
  unfold bind at 1. rewrite settle_stale by exact Hlt.
  destruct (working st); reflexivity.
Qed.

End Deliveries.

(** ** Properties every request preserves

    A property of the store that each write of the services preserves is
    preserved by every request. *)

Section Closure.

Variable L : Libs.
Variable P : Store -> Prop.

Hypothesis P_event_update : forall s id f,
  event_mutation f -> P s ->
  P (set_webhook_events (update_rows WebhookEvent.id id f (webhook_events s)) s).
Hypothesis P_event_clear : forall s id f,
  event_clearing f -> settled id (webhook_events s) -> P s ->
  P (set_webhook_events (update_rows WebhookEvent.id id f (webhook_events s)) s).
Hypothesis P_event_insert : forall s now provider webhook verified,
  P s ->
  P (set_webhook_events
       (webhook_events s
        ++ [received_row now provider webhook verified
              (next_id (map WebhookEvent.id (webhook_events s)))]) s).
Hypothesis P_payment_insert : forall s row,
  P s -> P (set_payments (payments s ++ [row]) s).
Hypothesis P_customer_insert : forall s row,
  P s -> P (set_customers (customers s ++ [row]) s).
Hypothesis P_customer_update : forall s id f,
  P s -> P (set_customers (update_rows Customer.id id f (customers s)) s).
Hypothesis P_subscription_insert : forall s now customer_id plan_id psid,
  P s ->
  P (set_subscriptions
       (subscriptions s
        ++ [pending_row now customer_id plan_id psid
              (next_id (map Subscription.id (subscriptions s)))]) s).
Hypothesis P_subscription_settle : forall s k now pe sub,
  In sub (subscriptions s) ->
  Subscription.current_period_end sub <= pe ->
  P s ->
  P (set_subscriptions
       (update_rows Subscription.id (Subscription.id sub) (kind_apply k now pe)
          (subscriptions s)) s).
Hypothesis P_subscription_sweep : forall s id f,
  subscription_sweep f -> P s ->
  P (set_subscriptions (update_rows Subscription.id id f (subscriptions s)) s).

Lemma preserves_ret {A} (a : A) : preserves P (ret a).
Proof. intros st H; exact H. Qed.

Lemma preserves_raise {A} (e : Exn) : preserves P (@raise A e).
Proof. intros st H; exact H. Qed.

Lemma preserves_lift {A} (o : Outcome A) : preserves P (lift o).
Proof. intros st H; exact H. Qed.

Lemma preserves_read {A} (f : Store -> A) : preserves P (read f).
Proof. intros st H; exact H. Qed.

Lemma preserves_log_call c : preserves P (log_call c).
Proof. intros st H; exact H. Qed.

Lemma preserves_count f : preserves P (count f).
Proof. intros st H; exact H. Qed.

Lemma preserves_flush : preserves P flush.
Proof.
  intros st H. unfold flush.
  destruct (needs_rollback (calls st)); [exact H|].
  destruct (flushable st); exact H.
Qed.

Lemma preserves_session_commit : preserves P session_commit.
Proof.
  intros st H. unfold session_commit, bind.
  pose proof (preserves_flush st H) as H1.
  destruct (flush st) as [[u|e] st1]; cbn [snd] in H1 |- *; [|exact H1].
  destruct H1 as [Hw Hc]. split; exact Hw.
Qed.

Lemma preserves_session_flush : preserves P session_flush.
Proof.
  intros st H. unfold session_flush, bind.
  pose proof (preserves_flush st H) as H1.
  destruct (flush st) as [[u|e] st1]; exact H1.
Qed.

Lemma preserves_session_rollback : preserves P session_rollback.
Proof. intros st [Hw Hc]. split; exact Hc. Qed.

Lemma preserves_write f : (forall s, P s -> P (f s)) -> preserves P (write f).
Proof. intros Hf st [Hw Hc]. split; [apply Hf; exact Hw|exact Hc]. Qed.

Lemma preserves_bind {A B} (m : M A) (k : A -> M B) :
  preserves P m -> (forall a, preserves P (k a)) -> preserves P (bind m k).
Proof.
  intros Hm Hk st H. unfold bind. specialize (Hm st H).
  destruct (m st) as [[a|e] st']; cbn [snd] in *.
  - apply Hk. exact Hm.
  - exact Hm.
Qed.

Lemma preserves_try_except {A} (m : M A) (h : Exn -> M A) :
  preserves P m -> (forall e, preserves P (h e)) -> preserves P (try_except m h).
Proof.
  intros Hm Hh st H. unfold try_except. specialize (Hm st H).
  destruct (m st) as [[a|e] st']; cbn [snd] in *.
  - exact Hm.
  - apply Hh. exact Hm.
Qed.

Lemma preserves_update_event id f :
  event_mutation f -> preserves P (update_event id f).
Proof. intros Hf. apply preserves_write. intros s. now apply P_event_update. Qed.

Lemma preserves_update_sweep id f :
  subscription_sweep f -> preserves P (update_subscription id f).
Proof. intros Hf. apply preserves_write. intros s. now apply P_subscription_sweep. Qed.

(** Applies the composition rules as far as they go. *)
Ltac preserve_step :=
  match goal with
  | |- preserves _ (ret _) => apply preserves_ret
  | |- preserves _ (raise _) => apply preserves_raise
  | |- preserves _ (lift _) => apply preserves_lift
  | |- preserves _ (read _) => apply preserves_read
  | |- preserves _ (log_call _) => apply preserves_log_call
  | |- preserves _ session_add => apply preserves_log_call
  | |- preserves _ session_refresh => apply preserves_log_call
  | |- preserves _ (the_event _) => apply preserves_read
  | |- preserves _ (the_subscription _) => apply preserves_read
  | |- preserves _ (count _) => apply preserves_count
  | |- preserves _ session_commit => apply preserves_session_commit
  | |- preserves _ flush => apply preserves_flush
  | |- preserves _ session_flush => apply preserves_session_flush
  | |- preserves _ session_rollback => apply preserves_session_rollback
  | |- preserves _ (update_event _ _) => apply preserves_update_event; constructor
  | |- preserves _ (update_subscription _ _) =>
      apply preserves_update_sweep; constructor
  | |- preserves _ (bind _ _) => apply preserves_bind; [|intros ?]
  | |- preserves _ (try_except _ _) => apply preserves_try_except; [|intros ?]
  | |- preserves _ (if ?b then _ else _) => destruct b
  | |- preserves _ (match ?x with _ => _ end) => destruct x
  end.

Ltac preserve := repeat preserve_step.

Lemma preserves_settle k now ev p c pe sub st :
  In sub (subscriptions (working st)) ->
  both P st ->
  both P (snd (settle (kind_apply k now pe) (kind_status k) now ev p c pe sub st)).
Proof.
  intros Hin [Hw Hc]. destruct (Z.lt_ge_cases pe (Subscription.current_period_end sub))
    as [Hlt|Hge].
  - rewrite settle_stale by exact Hlt. split; [|exact Hc]. cbn [snd working].
    apply P_event_update; [constructor|exact Hw].
  - rewrite settle_applied by exact Hge. split; [|exact Hc]. cbn [snd working].
    apply (P_payment_insert
             (set_subscriptions
                (update_rows Subscription.id (Subscription.id sub)
                   (kind_apply k now pe) (subscriptions (working st)))
                (working st))).
    now apply P_subscription_settle.
Qed.

Lemma preserves_dispatch_event now ev : preserves P (dispatch_event L now ev).
Proof.
  intros st H.
  destruct (dispatch_event_cases L now ev st)
    as [[e He]|[(pd & _ & _ & Hrun)
               |(pd & k & p & c & pe & sub & _ & _ & Hres & Hrun)]];
    rewrite ?He, ?Hrun.
  - exact H.
  - exact (preserves_update_event _ _ (em_ignored now) st H).
  - unfold bind.
    destruct (settle_returns (kind_apply k now pe) (kind_status k) now ev p c pe
                sub st) as [st1 Hs].
    assert (H1 : both P st1).
    { replace st1 with (snd (settle (kind_apply k now pe) (kind_status k) now ev
                               p c pe sub st)) by (rewrite Hs; reflexivity).
      apply preserves_settle; [|exact H].
      destruct Hres as (_ & _ & _ & Hf & _). apply find_some in Hf. tauto. }
    rewrite Hs. exact (preserves_update_event _ _ (em_processed now) st1 H1).
Qed.

Lemma clear_after_dispatch id f st :
  event_clearing f -> settled id (webhook_events (working st)) ->
  both P st -> both P (snd (update_event id f st)).
Proof.
  intros Hf Hs [Hw Hc]. split; [|exact Hc]. cbn. now apply P_event_clear.
Qed.

(** The clearing assignments come after a dispatch that returned. *)
Lemma preserves_dispatch_clear {A} now ev f (rest : M A) :
  event_clearing f -> preserves P rest ->
  preserves P (dispatch_event L now ev ;;
               update_event (WebhookEvent.id ev) f ;; rest).
Proof.
  intros Hf Hrest st H. unfold bind at 1.
  pose proof (preserves_dispatch_event now ev st H) as H1.
  destruct (dispatch_event L now ev st) as [[u|e] st1] eqn:Hd; cbn [snd] in H1;
    [|exact H1].
  apply dispatch_event_settles in Hd.
  unfold bind.
  pose proof (clear_after_dispatch _ f st1 Hf Hd H1) as H2.
  destruct (update_event (WebhookEvent.id ev) f st1) as [[v|e] st2];
    cbn [snd] in H2 |- *; [apply Hrest|]; exact H2.
Qed.

Lemma preserves_dispatch_count_clear_end now ev f :
  event_clearing f ->
  preserves P (dispatch_event L now ev ;;
               count_outcome ev ;;
               update_event (WebhookEvent.id ev) f).
Proof.
  intros Hf st H. unfold bind at 1.
  pose proof (preserves_dispatch_event now ev st H) as H1.
  destruct (dispatch_event L now ev st) as [[u|e] st1] eqn:Hd; cbn [snd] in H1;
    [|exact H1].
  apply dispatch_event_settles in Hd.
  unfold bind. destruct (count_outcome_run ev st1) as [m Hc]. rewrite Hc.
  apply clear_after_dispatch; [exact Hf|exact Hd|exact H1].
Qed.

Lemma preserves_dispatch_count_clear {A} now ev f (rest : M A) :
  event_clearing f -> preserves P rest ->
  preserves P (dispatch_event L now ev ;;
               count_outcome ev ;;
               update_event (WebhookEvent.id ev) f ;; rest).
Proof.
  intros Hf Hrest st H. unfold bind at 1.
  pose proof (preserves_dispatch_event now ev st H) as H1.
  destruct (dispatch_event L now ev st) as [[u|e] st1] eqn:Hd; cbn [snd] in H1;
    [|exact H1].
  apply dispatch_event_settles in Hd.
  unfold bind at 1. destruct (count_outcome_run ev st1) as [m Hc]. rewrite Hc.
  unfold bind.
  pose proof (clear_after_dispatch (WebhookEvent.id ev) f
                (mkEnv (committed st1) (working st1) (calls st1) m) Hf Hd H1) as H2.
  destruct (update_event (WebhookEvent.id ev) f _) as [[v|e] st2];
    cbn [snd] in H2 |- *; [apply Hrest|]; exact H2.
Qed.

Lemma preserves_mark_failed now ev message :
  preserves P (_mark_failed now ev message).
Proof. unfold _mark_failed. preserve. Qed.

Lemma preserves_count_outcome ev : preserves P (count_outcome ev).
Proof. unfold count_outcome. preserve. Qed.

Lemma preserves_fail_and_reraise now ev exc :
  preserves P (fail_and_reraise now ev exc).
Proof.
  unfold fail_and_reraise.
  destruct (is_InvalidPayloadError exc);
    (apply preserves_bind; [apply preserves_mark_failed|intros; preserve]).
Qed.

Lemma preserves_handle_existing_event now ev verified :
  preserves P (_handle_existing_event L now ev verified).
Proof.
  unfold _handle_existing_event.
  destruct (negb _).
  { apply preserves_bind; [apply preserves_mark_failed|intros; preserve]. }
  destruct (negb _).
  { apply preserves_bind; [apply preserves_mark_failed|intros; preserve]. }
  destruct (_ || _); [preserve|].
  destruct (WebhookProcessingStatus_eqb _ failed); [|preserve].
  apply preserves_try_except; [|intros; apply preserves_fail_and_reraise].
  apply preserves_dispatch_clear; [constructor|preserve].
Qed.

Lemma preserves_flush_new_event now provider webhook verified :
  preserves P (flush_new_event (received_row now provider webhook verified)).
Proof.
  intros st H. unfold flush_new_event, bind at 1.
  pose proof (preserves_session_flush st H) as H1.
  destruct (session_flush st) as [[u|e] st1]; cbn [snd] in H1 |- *;
    [|exact H1].
  destruct H1 as [Hw Hc]. run_session.
  match goal with |- context [existsb ?f ?l] => destruct (existsb f l) end;
    split; try assumption.
  cbv beta iota. now apply P_event_insert.
Qed.

Lemma preserves_process_webhook now provider webhook verified :
  preserves P (process_webhook L now provider webhook verified).
Proof.
  unfold process_webhook, _get_existing_event.
  apply preserves_bind; [apply preserves_read|intros existing].
  destruct existing as [existing|].
  - apply preserves_handle_existing_event.
  - apply preserves_bind; [preserve|intros _].
    apply preserves_bind.
    + apply preserves_try_except.
      * apply preserves_bind; [|intros; preserve].
        apply (preserves_flush_new_event now provider webhook verified).
      * intros exc. unfold _get_existing_event.
        destruct (is_IntegrityError exc); [|preserve].
        apply preserves_bind; [preserve|intros _].
        apply preserves_bind; [preserve|intros existing].
        destruct existing; [|preserve].
        apply preserves_bind; [apply preserves_handle_existing_event|intros; preserve].
    + intros [event|r]; [|preserve].
      apply preserves_try_except; [|intros; apply preserves_fail_and_reraise].
      apply preserves_dispatch_count_clear; [constructor|preserve].
Qed.

Lemma preserves_retry_loop now events :
  forall processed_ids failed_ids,
    preserves P (retry_loop L now events processed_ids failed_ids).
Proof.
  induction events as [|event rest IH]; intros processed_ids failed_ids;
    cbn [retry_loop].
  - preserve.
  - apply preserves_bind; [|intros ids; apply IH].
    apply preserves_try_except.
    + apply preserves_dispatch_count_clear; [constructor|preserve].
    + intros exc.
      apply preserves_bind; [apply preserves_mark_failed|intros; preserve].
Qed.

Lemma preserves_retry_failed_webhooks now limit :
  preserves P (retry_failed_webhooks L now limit).
Proof.
  unfold retry_failed_webhooks, find_retry_candidates.
  apply preserves_bind; [preserve|intros events].
  apply preserves_bind; [apply preserves_retry_loop|intros ids]. preserve.
Qed.

Lemma preserves_reprocess_webhook_event now event_id :
  preserves P (reprocess_webhook_event L now event_id).
Proof.
  unfold reprocess_webhook_event, get_webhook_event.
  apply preserves_bind.
  - apply preserves_bind; [preserve|intros events].
    destruct events as [|e [|e' rest]]; preserve.
  - intros webhook_event. apply preserves_bind; [|intros; preserve].
    apply preserves_try_except.
    + apply preserves_dispatch_count_clear_end. constructor.
    + intros exc. apply preserves_mark_failed.
Qed.

Lemma preserves_enforce_grace_loop now grace_limit subs :
  forall acc, preserves P (enforce_grace_loop now grace_limit subs acc).
Proof.
  induction subs as [|sub rest IH]; intros acc; cbn [enforce_grace_loop].
  - preserve.
  - destruct (Subscription.past_due_since sub) as [since|]; [|apply IH].
    destruct (since >? grace_limit); [apply IH|].
    preserve. apply IH.
Qed.

Lemma preserves_enforce_grace_period now : preserves P (enforce_grace_period now).
Proof.
  unfold enforce_grace_period.
  apply preserves_bind; [preserve|intros subs].
  apply preserves_bind; [apply preserves_enforce_grace_loop|intros; preserve].
Qed.

Lemma preserves_expire_loop now subs :
  forall expired_ids canceled_ids,
    preserves P (expire_loop now subs expired_ids canceled_ids).
Proof.
  induction subs as [|sub rest IH]; intros expired_ids canceled_ids;
    cbn [expire_loop].
  - preserve.
  - destruct (Subscription.cancel_at_period_end sub); preserve; apply IH.
Qed.

Lemma preserves_expire_subscriptions now : preserves P (expire_subscriptions now).
Proof.
  unfold expire_subscriptions.
  apply preserves_bind; [preserve|intros subs].
  apply preserves_bind; [apply preserves_expire_loop|intros; preserve].
Qed.

Lemma preserves_set_subscription_cancel_at_period_end now subscription_id flag :
  preserves P (set_subscription_cancel_at_period_end now subscription_id flag).
Proof.
  unfold set_subscription_cancel_at_period_end. preserve.
Qed.

Lemma preserves_update_customer id f : preserves P (update_customer id f).
Proof. apply preserves_write. intros s. apply P_customer_update. Qed.

Lemma preserves_flush_new_customer c : preserves P (flush_new_customer c).
Proof.
  unfold flush_new_customer.
  apply preserves_bind; [preserve|intros _].
  apply preserves_bind; [apply preserves_session_flush|intros _].
  intros st [Hw Hc]. run_session.
  match goal with |- context [existsb ?f ?l] => destruct (existsb f l) end;
    split; try assumption.
  cbv beta iota. now apply P_customer_insert.
Qed.

Lemma preserves_get_or_create_customer_by_email now customer_email :
  preserves P (_get_or_create_customer_by_email now customer_email).
Proof.
  unfold _get_or_create_customer_by_email.
  apply preserves_bind; [preserve|intros customer].
  destruct customer; [preserve|apply preserves_flush_new_customer].
Qed.

Lemma preserves_ensure_provider_customer_id uuid customer :
  preserves P (_ensure_provider_customer_id uuid customer).
Proof.
  unfold _ensure_provider_customer_id.
  destruct (Customer.provider_customer_id customer) as [[|a rest]|];
    preserve; apply preserves_update_customer.
Qed.

Lemma preserves_flush_new_subscription now customer_id plan_id psid :
  preserves P (flush_new_subscription (pending_row now customer_id plan_id psid)).
Proof.
  intros st [Hw Hc]. unfold flush_new_subscription. run_session.
  match goal with |- context [negb ?b] => destruct (negb b) end;
    [split; assumption|].
  match goal with |- context [existsb ?f ?l] => destruct (existsb f l) end;
    split; try assumption.
  cbv beta iota. now apply P_subscription_insert.
Qed.

Lemma preserves_create_subscription now uc us subscription_in :
  preserves P (create_subscription now uc us subscription_in).
Proof.
  unfold create_subscription.
  assert (Hrest : forall m : M Customer.t,
             preserves P m ->
             preserves P
               (customer <- m ;;
                provider_customer_id <- _ensure_provider_customer_id uc customer ;;
                subscription <- flush_new_subscription
                  (fun id => Subscription.mk id (Customer.id customer)
                     (SubscriptionCreateIn.plan_id subscription_in)
                     pending_activation now false None None None
                     (String.append "sub_" us) false now now) ;;
                session_commit ;;
                session_refresh ;;
                ret (SubscriptionCreateOut.mk (Subscription.id subscription)
                       (String.append "sub_" us) (Customer.id customer)
                       provider_customer_id (Subscription.status subscription)
                       (Subscription.plan_id subscription)))).
  { intros m Hm. apply preserves_bind; [exact Hm|intros customer].
    apply preserves_bind; [apply preserves_ensure_provider_customer_id|intros pc].
    apply preserves_bind; [|intros; preserve].
    apply (preserves_flush_new_subscription now (Customer.id customer)
             (SubscriptionCreateIn.plan_id subscription_in)
             (String.append "sub_" us)). }
  destruct (SubscriptionCreateIn.customer_id subscription_in) as [cid|];
    destruct (SubscriptionCreateIn.customer_email subscription_in) as [email|];
    try apply preserves_raise; apply Hrest; preserve;
    apply preserves_get_or_create_customer_by_email.
Qed.

(** Every request preserves the property. *)
Lemma exec_preserves op a : P (db a) -> P (db (exec L op a)).
Proof.
  intros H.
  assert (Hs : both P (open_session a)) by (split; exact H).
  destruct op; cbn [exec discard with_session snd db].
  - apply (preserves_create_subscription _ _ _ _ _ Hs).
  - apply (preserves_process_webhook _ _ _ _ _ Hs).
  - apply (preserves_enforce_grace_period _ _ Hs).
  - apply (preserves_expire_subscriptions _ _ Hs).
  - apply (preserves_retry_failed_webhooks _ _ _ Hs).
  - apply (preserves_reprocess_webhook_event _ _ _ Hs).
  - apply (preserves_set_subscription_cancel_at_period_end _ _ _ _ Hs).
Qed.

Lemma run_ops_preserves ops : forall a, P (db a) -> P (db (run_ops L ops a)).
Proof.
  induction ops as [|op ops IH]; intros a H; cbn [run_ops fold_left].
  - exact H.
  - apply IH. now apply exec_preserves.
Qed.

End Closure.

(** ** The attention flag *)

Lemma Forall_update_rows {A} (Q : A -> Prop) (key : A -> Z) id f (rows : list A) :
  Forall Q rows ->
  (forall r, In r rows -> key r = id -> Q r -> Q (f r)) ->
  Forall Q (update_rows key id f rows).
Proof.
  intros HQ Hf. unfold update_rows. apply Forall_forall. intros r' Hin.
  apply in_map_iff in Hin. destruct Hin as (r & <- & Hin).
  rewrite Forall_forall in HQ.
  destruct (key r =? id) eqn:E; [|auto].
  apply Z.eqb_eq in E. auto.
Qed.

Lemma event_mutation_attention f r :
  event_mutation f -> attention_justified r -> attention_justified (f r).
Proof.
  intros Hf [H1 H2]. destruct Hf; unfold attention_justified;
    cbn -[Z.leb Z.geb Z.add]; try (split; [exact H1|discriminate]).
  rewrite Z.geb_leb. split; [|reflexivity].
  intros H. apply Z.leb_le. exact H.
Qed.

Lemma event_clearing_attention f r :
  event_clearing f -> WebhookEvent.processing_status r <> failed ->
  attention_justified (f r).
Proof.
  intros Hf Hs. destruct Hf; unfold attention_justified; cbn;
    (split; [discriminate|intros; contradiction]).
Qed.

Lemma run_ops_attention (L : Libs) (ops : list Op) :
  attention_flags_justified (db (run_ops L ops initial)).
Proof.
  apply (run_ops_preserves L attention_flags_justified);
    unfold attention_flags_justified; try (intros; assumption).
  - intros s id f Hf H. cbn. apply Forall_update_rows; [exact H|].
    intros r _ _. now apply event_mutation_attention.
  - intros s id f Hf Hs H. cbn. apply Forall_update_rows; [exact H|].
    intros r Hin Hid _. apply event_clearing_attention; [exact Hf|]. now apply Hs.
  - intros s now provider webhook verified H. cbn.
    apply Forall_app. split; [exact H|]. constructor; [|constructor].
    split; [discriminate|discriminate].
  - constructor.
Qed.

Lemma sql_limit_incl {A} (limit : Z) (rows : list A) (r : A) :
  In r (sql_limit limit rows) -> In r rows.
Proof.
  unfold sql_limit. destruct (limit <? 0); [auto|].
  intros H. rewrite <- (firstn_skipn (Z.to_nat limit) rows).
  apply in_or_app. now left.
Qed.

(** C5 (amended).  In every state the requests can reach, an event row with
    [needs_attention] set has [attempt_count >= 3], and a row in status
    failed has [needs_attention] set exactly when [attempt_count >= 3]; a row
    with [needs_attention] set is never among the candidates of the retry
    sweep, whose query raises only when its limit cannot be bound as a 64-bit
    integer.  (After a dispatch that returned the flag is cleared while the
    count stays, so the flag does not follow from the count alone.) *)
Theorem C5_attention_flag_in_reachable_states (L : Libs) (ops : list Op)
  (e : WebhookEvent.t) (now : datetime) (limit : Z) :
  let a := run_ops L ops initial in
  In e (webhook_events (db a)) ->
  (WebhookEvent.needs_attention e = true -> 3 <= WebhookEvent.attempt_count e) /\
  (WebhookEvent.processing_status e = failed ->
   (WebhookEvent.needs_attention e = true <-> 3 <= WebhookEvent.attempt_count e)) /\
  find_retry_candidates now limit (open_session a)
  = ((if sqlite_integer limit
      then Return (sql_limit limit
                     (filter (retry_candidate now) (webhook_events (db a))))
      else Raise OverflowError),
     open_session a) /\
  (WebhookEvent.needs_attention e = true ->
   ~ In e (sql_limit limit (filter (retry_candidate now) (webhook_events (db a))))).
Proof.
  intros a Hin.
  pose proof (run_ops_attention L ops) as Hall.
  unfold attention_flags_justified in Hall. rewrite Forall_forall in Hall.
  destruct (Hall e Hin) as [H1 H2].
  split; [exact H1|]. split; [|split].
  - intros Hf. rewrite (H2 Hf). split; intros H; apply Z.leb_le; exact H.
  - unfold find_retry_candidates. destruct (sqlite_integer limit); reflexivity.
  - intros Hna Hc. apply sql_limit_incl in Hc. apply filter_In in Hc.
    destruct Hc as [_ Hc]. unfold retry_candidate in Hc. rewrite Hna in Hc.
    cbn in Hc. rewrite Bool.andb_false_r in Hc. discriminate.
Qed.

(** ** The period end *)

Lemma map_key_update_rows {A} (key : A -> Z) id f (rows : list A) :
  (forall r, key (f r) = key r) ->
  map key (update_rows key id f rows) = map key rows.
Proof.
  intros Hf. unfold update_rows. rewrite map_map. apply map_ext.
  intros r. destruct (key r =? id); auto.
Qed.

Lemma NoDup_map_key {A} (key : A -> Z) (rows : list A) (x y : A) :
  NoDup (map key rows) -> In x rows -> In y rows -> key x = key y -> x = y.
Proof.
  induction rows as [|r rows IH]; cbn [map In]; intros Hnd Hx Hy Hk; [tauto|].
  inversion Hnd as [|? ? Hnotin Hnd']; subst.
  destruct Hx as [->|Hx]; destruct Hy as [->|Hy]; auto.
  - exfalso. apply Hnotin. rewrite Hk. now apply in_map.
  - exfalso. apply Hnotin. rewrite <- Hk. now apply in_map.
Qed.

Lemma period_end_update (before s : Store) id f :
  (forall r, Subscription.id (f r) = Subscription.id r) ->
  (forall r, In r (subscriptions s) -> Subscription.id r = id ->
             Subscription.current_period_end r
             <= Subscription.current_period_end (f r)) ->
  unique_subscription_ids s /\ period_end_not_earlier before s ->
  unique_subscription_ids
    (set_subscriptions (update_rows Subscription.id id f (subscriptions s)) s) /\
  period_end_not_earlier before
    (set_subscriptions (update_rows Subscription.id id f (subscriptions s)) s).
Proof.
  intros Hid Hle [Hu Hm]. unfold unique_subscription_ids, period_end_not_earlier.
  cbn [subscriptions set_subscriptions]. split.
  - rewrite map_key_update_rows by exact Hid. exact Hu.
  - intros s0 Hin0. destruct (Hm s0 Hin0) as (r & Hr & Hrid & Hrle).
    exists (if Subscription.id r =? id then f r else r). split; [|split].
    + unfold update_rows. apply in_map_iff. exists r. auto.
    + destruct (Subscription.id r =? id); [rewrite Hid|]; exact Hrid.
    + destruct (Subscription.id r =? id) eqn:E; [|exact Hrle].
      apply Z.eqb_eq in E. specialize (Hle r Hr E). lia.
Qed.

Lemma kind_apply_id k now pe r :
  Subscription.id (kind_apply k now pe r) = Subscription.id r.
Proof.
  destruct k; unfold kind_apply, apply_payment_succeeded,
    apply_invoice_payment_failed;
    destruct (Subscription.status r); reflexivity.
Qed.

Lemma subscription_sweep_keeps f r :
  subscription_sweep f ->
  Subscription.id (f r) = Subscription.id r /\
  Subscription.current_period_end (f r) = Subscription.current_period_end r.
Proof. intros Hf. destruct Hf; split; reflexivity. Qed.

Lemma run_ops_period_end (L : Libs) (ops : list Op) (a : App) :
  unique_subscription_ids (db a) ->
  unique_subscription_ids (db (run_ops L ops a)) /\
  period_end_not_earlier (db a) (db (run_ops L ops a)).
Proof.
  intros Hu.
  apply (run_ops_preserves L
           (fun s => unique_subscription_ids s /\ period_end_not_earlier (db a) s));
    try (intros; assumption).
  - intros s now customer_id plan_id psid [Hs Hm]. split.
    + unfold unique_subscription_ids in *. cbn [subscriptions set_subscriptions].
      rewrite map_app. cbn [map pending_row Subscription.id].
      apply NoDup_app; [exact Hs|repeat constructor; cbn; tauto|].
      intros i Hi [<-|[]]. apply next_id_fresh in Hi. lia.
    + intros s0 Hin0. destruct (Hm s0 Hin0) as (r & Hr & Hrest).
      exists r. split; [|exact Hrest]. cbn. apply in_or_app. now left.
  - intros s k now pe sub Hin Hle H. apply period_end_update; [| |exact H].
    + intros r. apply kind_apply_id.
    + intros r Hr Hrid. destruct H as [Hs _].
      assert (r = sub) by (eapply NoDup_map_key; eauto). subst r.
      destruct k; unfold kind_apply, apply_payment_succeeded,
        apply_invoice_payment_failed;
        destruct (Subscription.status sub); cbn; lia.
  - intros s id f Hf H. apply period_end_update; [| |exact H].
    + intros r. apply (subscription_sweep_keeps f r Hf).
    + intros r _ _. destruct (subscription_sweep_keeps f r Hf) as [_ ->]. lia.
  - split; [exact Hu|]. intros s0 Hin0. exists s0. repeat split; auto. lia.
Qed.

(** C7.  Across any sequence of requests that follows a reachable state,
    every subscription of that state is still stored under its key, that key
    still names one row only, and the row's [current_period_end] is not
    earlier than it was. *)
Theorem C7_current_period_end_never_decreases (L : Libs) (ops ops' : list Op)
  (s : Subscription.t) :
  In s (subscriptions (db (run_ops L ops initial))) ->
  exists s',
    In s' (subscriptions (db (run_ops L (ops ++ ops') initial))) /\
    Subscription.id s' = Subscription.id s /\
    Subscription.current_period_end s <= Subscription.current_period_end s' /\
    forall s'', In s'' (subscriptions (db (run_ops L (ops ++ ops') initial))) ->
                Subscription.id s'' = Subscription.id s -> s'' = s'.
Proof.
  intros Hin.
  assert (Hu : unique_subscription_ids (db (run_ops L ops initial))).
  { apply (run_ops_period_end L ops initial). constructor. }
  unfold run_ops at 1 2. rewrite fold_left_app.
  change (fold_left (fun a op => exec L op a) ops initial)
    with (run_ops L ops initial) in *.
  change (fold_left (fun a op => exec L op a) ops' ?x) with (run_ops L ops' x).
  destruct (run_ops_period_end L ops' _ Hu) as [Hu' Hm].
  destruct (Hm s Hin) as (s' & Hin' & Hid & Hle).
  exists s'. repeat split; auto.
  intros s'' Hin'' Hid''. eapply NoDup_map_key; eauto. congruence.
Qed.
(** * Runs on explicit inputs *)

(** C1.  The paid subscription receives a payment event for an earlier
    period.  The subscription and the payments stay as they were, yet the
    stale event's row ends processed, not ignored, with the message "stale
    event ignored", and it is counted as processed. *)
Theorem C1_stale_event_ends_processed :
  let before := run_ops demo_libs paid_ops initial in
  let after := exec demo_libs stale_delivery before in
  subscriptions (db after) = subscriptions (db before) /\
  payments (db after) = payments (db before) /\
  map (fun e => (WebhookEvent.event_id e, WebhookEvent.processing_status e,
                 WebhookEvent.error_message e))
      (webhook_events (db after))
  = [("evt_pay_200", processed, None);
     ("evt_pay_100", processed, Some "stale event ignored")] /\
  webhook_ignored (metrics after) = 0 /\
  webhook_processed (metrics after) = 2.
Proof. vm_compute. repeat split. Qed.

(** C2.  The grace sweep cancels the subscription with [canceled_at] set and
    access revoked; the later payment event then clears [canceled_at] and
    [access_revoked] and leaves the status canceled. *)
Theorem C2_payment_on_canceled_subscription_breaks_invariant :
  let before := run_ops demo_libs canceled_ops initial in
  let after := exec demo_libs late_payment before in
  map (fun s => (Subscription.status s, Subscription.canceled_at s,
                 Subscription.access_revoked s))
      (subscriptions (db before))
  = [(canceled, Some 172830000000, true)] /\
  map (fun s => (Subscription.status s, Subscription.canceled_at s,
                 Subscription.access_revoked s))
      (subscriptions (db after))
  = [(canceled, None, false)].
Proof. vm_compute. split; reflexivity. Qed.

(** C3, as stated, fails: a first delivery whose handler raises commits
    without a rollback. *)
Lemma C3_no_rollback_before_failure_commit :
  let a := run_ops demo_libs [demo_create] initial in
  find (has_key "test" "evt_lost") (webhook_events (db a)) = None /\
  fst (lost_delivery (open_session a))
  = Raise (InvalidPayloadError "provider_customer_id not found") /\
  calls (snd (lost_delivery (open_session a)))
  = [CallAdd; CallFlush; CallAdd; CallCommit] /\
  ~ In CallRollback (calls (snd (lost_delivery (open_session a)))).
Proof.
  vm_compute. repeat split; try reflexivity.
  intros [H|[H|[H|[H|[]]]]]; discriminate.
Qed.

(** C5, as stated, fails: after the operator's reprocess the row has been
    attempted three times and is not flagged. *)
Lemma C5_three_attempts_without_flag :
  let a := exec demo_libs operator_reprocess
             (run_ops demo_libs flagged_ops initial) in
  ~ (forall e, In e (webhook_events (db a)) ->
               (WebhookEvent.needs_attention e = true
                <-> WebhookEvent.attempt_count e >= 3)).
Proof.
  intros a H.
  assert (Hin : In (clear_retry (mark_ignored 500000000 demo_flagged_event))
                   (webhook_events (db a))) by (vm_compute; left; reflexivity).
  destruct (H _ Hin) as [_ H2].
  assert (Hge : WebhookEvent.attempt_count
                  (clear_retry (mark_ignored 500000000 demo_flagged_event)) >= 3)
    by (vm_compute; discriminate).
  specialize (H2 Hge). vm_compute in H2. discriminate.
Qed.


(** C10, as stated, fails: the processed payment event's [event_id] is also
    stored under a second provider.  Its payload still resolves and is not
    stale, yet the reprocess raises from its lookup and changes nothing. *)
Lemma C10_event_id_under_two_providers :
  let a := run_ops demo_libs two_provider_ops initial in
  In demo_paid_event (webhook_events (db a)) /\
  WebhookEvent.processing_status demo_paid_event = processed /\
  decodes demo_libs demo_paid_event (demo_payload 200) /\
  resolves demo_libs (kind_validate demo_libs PaymentSucceeded) 50000000
    (demo_payload 200) (db a) demo_parsed_payload demo_customer 200000000
    demo_repaid_subscription /\
  Subscription.current_period_end demo_repaid_subscription <= 200000000 /\
  sqlite_integer (Payload.amount demo_parsed_payload) = true /\
  map WebhookEvent.provider
      (filter (fun e => String.eqb (WebhookEvent.event_id e) "evt_pay_200")
              (webhook_events (db a)))
  = ["test"; "other"] /\
  with_session (reprocess_webhook_event demo_libs 50000000 "evt_pay_200") a
  = (Raise (InvalidPayloadError "multiple events found; specify provider"), a).
Proof.
  intros a.
  split; [vm_compute; left; reflexivity|].
  split; [reflexivity|].
  split.
  { eexists. split; [vm_compute; reflexivity|]. split; [reflexivity|].
    eexists. reflexivity. }
  split.
  { unfold resolves.
    split; [vm_compute; reflexivity|]. split; [vm_compute; reflexivity|].
    split; [intros st; reflexivity|].
    split; vm_compute; reflexivity. }
  split; [vm_compute; discriminate|].
  split; [vm_compute; reflexivity|].
  split; [vm_compute; reflexivity|].
  vm_compute. reflexivity.
Qed.


(** An unknown-type event is stored at second 20; the same key comes again
    with timestamp 21. *)
Lemma C4_replay_mismatch_witness :
  let a := run_ops demo_libs [demo_deliver 20 "evt_ping" "ping" "body_ping"] initial in
  let verified := demo_verified "body_ping" 21 in
  let existing := mark_ignored 20000000
                    (received_row 20000000 "test" (demo_webhook "evt_ping" "ping")
                       (demo_verified "body_ping" 20) 1) in
  find (has_key "test" "evt_ping") (webhook_events (db a)) = Some existing /\
  VerifiedWebhookData.timestamp verified
    <> WebhookEvent.signature_timestamp existing /\
  with_session (process_webhook demo_libs 21000000 "test"
                  (demo_webhook "evt_ping" "ping") verified) a
  = (Raise (ReplayAttackError "replay timestamp mismatch"),
     mkApp (set_webhook_events
              [mark_failed_row 21000000 "replay timestamp mismatch" existing]
              (db a))
           (incr_webhook_failed (metrics a))).
Proof.
  intros a verified existing.
  assert (Hfind : find (has_key "test" (WebhookEventIn.event_id
                                          (demo_webhook "evt_ping" "ping")))
                       (webhook_events (db a)) = Some existing) by reflexivity.
  assert (Hts : VerifiedWebhookData.timestamp verified
                <> WebhookEvent.signature_timestamp existing)
    by (vm_compute; discriminate).
  split; [exact Hfind|]. split; [exact Hts|].
  exact (proj1 (C4_replay_mismatch_marks_failed_and_raises demo_libs 21000000
                  "test" (demo_webhook "evt_ping" "ping") verified a existing
                  Hfind (or_introl Hts))).
Defined.

(** The except clause of the delivery whose customer does not exist, in the
    session that has just inserted the event row. *)
Lemma C6_mark_failed_witness :
  let a := run_ops demo_libs [demo_create] initial in
  let row := received_row (timedelta_seconds 50) "test"
               (demo_webhook "evt_lost" "payment.succeeded")
               (demo_verified "body_lost" 50) 1 in
  let st := mkEnv (db a)
              (set_webhook_events (webhook_events (db a) ++ [row]) (db a))
              [CallAdd; CallFlush] (metrics a) in
  let exc := InvalidPayloadError "provider_customer_id not found" in
  needs_rollback (calls st) = false /\
  flushable st = true /\
  fst (fail_and_reraise (timedelta_seconds 50) row exc st) = Raise exc /\
  map (fun e => (WebhookEvent.processing_status e, WebhookEvent.attempt_count e,
                 WebhookEvent.next_retry_at e, WebhookEvent.error_message e))
      (webhook_events
         (committed (snd (fail_and_reraise (timedelta_seconds 50) row exc st))))
  = [(failed, 2, Some 650000000, Some "provider_customer_id not found")].
Proof.
  intros a row st exc.
  assert (Hn : needs_rollback (calls st) = false) by reflexivity.
  assert (Hf : flushable st = true) by (vm_compute; reflexivity).
  split; [exact Hn|]. split; [exact Hf|].
  destruct (C6_mark_failed_updates (timedelta_seconds 50)
              "provider_customer_id not found" row st) as (_ & H2 & _).
  rewrite (proj1 (H2 exc) Hn Hf).
  split; [reflexivity|]. vm_compute. reflexivity.
Defined.

(** The first delivery of an event whose customer does not exist: the
    handler's lookup raises. *)
Lemma C3_failed_first_delivery_witness :
  let a := run_ops demo_libs [demo_create] initial in
  let webhook := demo_webhook "evt_lost" "payment.succeeded" in
  let verified := demo_verified "body_lost" 50 in
  let row := received_row (timedelta_seconds 50) "test" webhook verified
               (next_id (map WebhookEvent.id (webhook_events (db a)))) in
  let st1 := mkEnv (db a)
               (set_webhook_events (webhook_events (db a) ++ [row]) (db a))
               [CallAdd; CallFlush] (metrics a) in
  let exc := InvalidPayloadError "provider_customer_id not found" in
  find (has_key "test" (WebhookEventIn.event_id webhook))
       (webhook_events (db a)) = None /\
  dispatch_event demo_libs (timedelta_seconds 50) row st1 = (Raise exc, st1) /\
  exists st,
    process_webhook demo_libs (timedelta_seconds 50) "test" webhook verified
      (open_session a)
    = (Raise exc, st) /\
    customers (committed st) = customers (db a) /\
    subscriptions (committed st) = subscriptions (db a) /\
    payments (committed st) = payments (db a) /\
    webhook_events (committed st)
    = webhook_events (db a)
      ++ [mark_failed_row (timedelta_seconds 50) (str_exc exc) row] /\
    calls st = [CallAdd; CallFlush; CallAdd; CallCommit].
Proof.
  intros a webhook verified row st1 exc.
  assert (H1 : find (has_key "test" (WebhookEventIn.event_id webhook))
                    (webhook_events (db a)) = None) by (vm_compute; reflexivity).
  assert (H2 : dispatch_event demo_libs (timedelta_seconds 50) row st1
               = (Raise exc, st1)) by (vm_compute; reflexivity).
  split; [exact H1|]. split; [exact H2|].
  destruct (proj1 (C3_failed_first_delivery_has_no_side_effects demo_libs
                     (timedelta_seconds 50) "test" webhook verified a H1)
                  exc st1 H2)
    as (st & Hrun & Hc & Hs & Hp & He & _ & Hl).
  exists st. repeat split; assumption.
Defined.

(** The flagged row of [flagged_ops], at a sweep with no limit. *)
Lemma C5_attention_flag_witness :
  let a := run_ops demo_libs flagged_ops initial in
  In demo_flagged_event (webhook_events (db a)) /\
  3 <= WebhookEvent.attempt_count demo_flagged_event /\
  ~ In demo_flagged_event
       (sql_limit (-1) (filter (retry_candidate 999000000) (webhook_events (db a)))).
Proof.
  intros a.
  assert (Hin : In demo_flagged_event (webhook_events (db a)))
    by (vm_compute; left; reflexivity).
  destruct (C5_attention_flag_in_reachable_states demo_libs flagged_ops
              demo_flagged_event 999000000 (-1) Hin) as (H1 & _ & _ & H4).
  split; [exact Hin|]. split; [apply H1; reflexivity|apply H4; reflexivity].
Defined.

(** The pending subscription, across the first payment. *)
Lemma C7_current_period_end_witness :
  let first_payment :=
    [demo_deliver 20 "evt_pay_200" "payment.succeeded" "body_pay_200"] in
  In demo_pending_subscription
     (subscriptions (db (run_ops demo_libs [demo_create] initial))) /\
  exists s',
    In s' (subscriptions
             (db (run_ops demo_libs ([demo_create] ++ first_payment) initial))) /\
    Subscription.id s' = Subscription.id demo_pending_subscription /\
    Subscription.current_period_end demo_pending_subscription
    <= Subscription.current_period_end s'.
Proof.
  intros first_payment.
  assert (Hin : In demo_pending_subscription
                   (subscriptions (db (run_ops demo_libs [demo_create] initial))))
    by (vm_compute; left; reflexivity).
  split; [exact Hin|].
  destruct (C7_current_period_end_never_decreases demo_libs [demo_create]
              first_payment demo_pending_subscription Hin)
    as (s' & H1 & H2 & H3 & _).
  exists s'. split; [exact H1|]. split; [exact H2|exact H3].
Defined.

Lemma demo_decodes (row : WebhookEvent.t) (event_id : string) (period_end : Z) :
  json_loads demo_libs (WebhookEvent.payload_raw row)
  = Return (demo_body event_id "payment.succeeded" (demo_payload period_end)) ->
  decodes demo_libs row (demo_payload period_end).
Proof.
  intros H. eexists. split; [exact H|]. split; [reflexivity|].
  eexists. reflexivity.
Defined.

Lemma demo_resolves (now : datetime) (s : Store) (sub : Subscription.t) :
  customers s = [demo_customer] -> subscriptions s = [sub] ->
  Subscription.provider_subscription_id sub = "sub_s0" ->
  Subscription.customer_id sub = 1 ->
  resolves demo_libs (kind_validate demo_libs PaymentSucceeded) now
    (demo_payload 200) s demo_parsed_payload demo_customer 200000000 sub.
Proof.
  intros Hc Hs Hp Hcid. unfold resolves. rewrite Hc, Hs.
  split; [reflexivity|]. split; [reflexivity|]. split; [intros st; reflexivity|].
  split; [|exact Hcid]. cbn. rewrite Hp. reflexivity.
Defined.


(** The processed payment event, reprocessed by an operator: a second
    payment row with the same [provider_payment_id]. *)
Lemma C10_admin_reprocess_witness :
  let a := run_ops demo_libs paid_ops initial in
  WebhookEvent.processing_status demo_paid_event = processed /\
  filter (fun e => String.eqb (WebhookEvent.event_id e) "evt_pay_200" && true)
         (webhook_events (db a)) = [demo_paid_event] /\
  Subscription.current_period_end demo_active_subscription <= 200000000 /\
  sqlite_integer (Payload.amount demo_parsed_payload) = true /\
  map Payment.provider_payment_id (payments (db a)) = ["pay_ok"] /\
  exists ev' a',
    with_session (reprocess_webhook_event demo_libs 50000000 "evt_pay_200") a
    = (Return ev', a') /\
    payments (db a')
    = payments (db a)
      ++ [payment_row approved 50000000 demo_paid_event demo_parsed_payload
            demo_customer demo_active_subscription
            (next_id (map Payment.id (payments (db a))))] /\
    Payment.provider_payment_id
      (payment_row approved 50000000 demo_paid_event demo_parsed_payload
         demo_customer demo_active_subscription
         (next_id (map Payment.id (payments (db a))))) = "pay_ok".
Proof.
  intros a.
  assert (Hfilter : filter (fun e => String.eqb (WebhookEvent.event_id e)
                                                "evt_pay_200" && true)
                           (webhook_events (db a)) = [demo_paid_event])
    by (vm_compute; reflexivity).
  assert (Hle : Subscription.current_period_end demo_active_subscription
                <= 200000000) by (vm_compute; discriminate).
  assert (Hc : customers (db a) = [demo_customer]) by (vm_compute; reflexivity).
  assert (Hs : subscriptions (db a) = [demo_active_subscription])
    by (vm_compute; reflexivity).
  split; [reflexivity|]. split; [exact Hfilter|]. split; [exact Hle|].
  split; [reflexivity|].
  split; [vm_compute; reflexivity|].
  assert (Hdec : decodes demo_libs demo_paid_event (demo_payload 200))
    by (apply (demo_decodes _ "evt_pay_200" 200); vm_compute; reflexivity).
  pose proof (C10_admin_reprocess_appends_payment demo_libs 50000000
                "evt_pay_200" a demo_paid_event (demo_payload 200)
                demo_parsed_payload demo_customer 200000000
                demo_active_subscription Hfilter eq_refl
                Hdec
                (demo_resolves 50000000 (db a) demo_active_subscription
                   Hc Hs eq_refl eq_refl)
                Hle eq_refl) as H.
  cbv zeta in H. destruct H as (ev' & a' & Hrun & Hpay & _).
  exists ev', a'. split; [exact Hrun|]. split; [exact Hpay|reflexivity].
Defined.

(** * Further properties of the code *)

(** ** The request gatekeeper *)

Lemma dict_get_set_same {A} (d : list (string * A)) (k : string) (v : A) :
  dict_get (dict_set d k v) k = Some v.
Proof.
  induction d as [|[k' v'] d IH]; cbn.
  - now rewrite String.eqb_refl.
  - destruct (String.eqb k' k) eqn:E; cbn; rewrite E; [reflexivity|exact IH].
Qed.

Lemma dict_get_set_other {A} (d : list (string * A)) (k k' : string) (v : A) :
  k <> k' -> dict_get (dict_set d k v) k' = dict_get d k'.
Proof.
  intros Hne. induction d as [|[k0 v0] d IH]; cbn.
  - destruct (String.eqb k k') eqn:E; [|reflexivity].
    apply String.eqb_eq in E. contradiction.
  - destruct (String.eqb k0 k) eqn:E; cbn.
    + apply String.eqb_eq in E. subst k0.
      destruct (String.eqb k k') eqn:E'; [|reflexivity].
      apply String.eqb_eq in E'. contradiction.
    + destruct (String.eqb k0 k'); [reflexivity|exact IH].
Qed.

Lemma window_of_defaultdict_get windows rate_key :
  fst (defaultdict_get windows rate_key) = window_of windows rate_key.
Proof.
  unfold defaultdict_get, window_of.
  destruct (dict_get windows rate_key); reflexivity.
Qed.

Lemma window_of_set_same windows rate_key window :
  window_of (dict_set windows rate_key window) rate_key = window.
Proof. unfold window_of. now rewrite dict_get_set_same. Qed.

Lemma window_of_set_other windows rate_key k window :
  rate_key <> k ->
  window_of (dict_set windows rate_key window) k = window_of windows k.
Proof. intros H. unfold window_of. now rewrite dict_get_set_other. Qed.

Lemma window_of_defaultdict_other windows rate_key k :
  rate_key <> k ->
  window_of (snd (defaultdict_get windows rate_key)) k = window_of windows k.
Proof.
  intros H. unfold defaultdict_get.
  destruct (dict_get windows rate_key); cbn; [reflexivity|].
  now apply window_of_set_other.
Qed.

(** The gatekeeper from the rate limiter on, for a request that reaches it. *)
Lemma validate_from_rate_limiter G cfg now provider request windows tv :
  reaches_rate_limiter G cfg now provider request tv ->
  let rate_key := rate_key_of provider request in
  let window := popleft_until (now - 60) (window_of windows rate_key) in
  let trimmed := dict_set (snd (defaultdict_get windows rate_key)) rate_key window in
  let timestamp :=
    match X_Webhook_Timestamp request with Some t => t | None => "" end in
  let signature :=
    match X_Webhook_Signature request with Some s => s | None => "" end in
  validate_webhook_signature G cfg now provider request windows
  = if Z.of_nat (List.length window) >=? WEBHOOK_RATE_LIMIT_PER_MINUTE cfg
    then (HTTPException 429 "rate limit exceeded", trimmed)
    else
      (match signature_loop G signature
               (String.append (utf8_encode G (String.append timestamp "."))
                  (request_body request))
               (_get_secret_candidates (WEBHOOK_SECRETS cfg) provider
                  (X_Webhook_Key_Id request)) with
       | None => TypeError
       | Some false => HTTPException 403 "invalid webhook signature"
       | Some true =>
           match utf8_decode G (request_body request) with
           | None => HTTPException 400 "invalid webhook body encoding"
           | Some raw_body =>
               Verified (VerifiedWebhookData.mk raw_body signature tv)
           end
       end,
       dict_set trimmed rate_key (window ++ [now])).
Proof.
  intros (Hc & Ht & Hs & Hi & Hf & Hip). cbv zeta.
  unfold validate_webhook_signature, rate_key_of.
  destruct (_get_secret_candidates (WEBHOOK_SECRETS cfg) provider
              (X_Webhook_Key_Id request)) as [|c cs] eqn:Ec; [contradiction|].
  rewrite Ht, Hs. cbn [orb]. rewrite Hi.
  replace (Z.abs (now - tv) >? WEBHOOK_MAX_SKEW_SECONDS) with false
    by (symmetry; unfold WEBHOOK_MAX_SKEW_SECONDS; rewrite Z.gtb_ltb;
        apply Z.ltb_ge; exact Hf).
  replace (negb (match WEBHOOK_IP_ALLOWLIST cfg with [] => true | _ => false end)
           && negb (existsb
                      (String.eqb (match client_host request with
                                   | Some h => h
                                   | None => "unknown"
                                   end))
                      (WEBHOOK_IP_ALLOWLIST cfg))) with false.
  2:{ symmetry. destruct Hip as [-> | Hin]; [reflexivity|].
      apply Bool.andb_false_iff. right. apply Bool.negb_false_iff.
      apply existsb_exists. eexists. split; [exact Hin|apply String.eqb_refl]. }
  set (rate_key := String.append provider _).
  pose proof (window_of_defaultdict_get windows rate_key) as Hw.
  destruct (defaultdict_get windows rate_key) as [w0 ws0]. cbn [fst snd] in *.
  subst w0.
  destruct (Z.of_nat (List.length _) >=? WEBHOOK_RATE_LIMIT_PER_MINUTE cfg);
    [reflexivity|].
  destruct (signature_loop G _ _ (c :: cs)) as [[|]|]; try reflexivity.
  destruct (utf8_decode G (request_body request)); reflexivity.
Qed.

(** X1.  A call that ends in a 401 or in "ip not allowed" leaves the rate
    limiter's windows as they were: those tests come before the window is
    touched. *)
Theorem gate_rejects_before_rate_limiter_without_recording G cfg now provider
  request windows status detail windows' :
  validate_webhook_signature G cfg now provider request windows
  = (HTTPException status detail, windows') ->
  status = 401 \/ detail = "ip not allowed" ->
  windows' = windows.
Proof.
  unfold validate_webhook_signature. intros H Hkind.
  destruct (_get_secret_candidates _ _ _) as [|c cs];
    [inversion H; reflexivity|].
  destruct (falsy _ || falsy _); [inversion H; reflexivity|].
  destruct (int_of_str G _) as [tv|]; [|inversion H; reflexivity].
  destruct (Z.abs (now - tv) >? _); [inversion H; reflexivity|].
  destruct (negb _ && negb _); [inversion H; reflexivity|].
  destruct (defaultdict_get windows _) as [w0 ws0].
  destruct (Z.of_nat _ >=? _).
  { inversion H; subst. destruct Hkind; discriminate. }
  destruct (signature_loop G _ _ _) as [[|]|]; try discriminate.
  - destruct (utf8_decode G _); [discriminate|].
    inversion H; subst. destruct Hkind; discriminate.
  - inversion H; subst. destruct Hkind; discriminate.
Qed.

Lemma gate_early_rejection_witness :
  validate_webhook_signature toy_gate_libs toy_config 1000 "nobody"
    (toy_request "1000" "x") [("test:10.0.0.1", [990])]
  = (HTTPException 401 "unknown webhook provider", [("test:10.0.0.1", [990])]) /\
  [("test:10.0.0.1", [990])] = [("test:10.0.0.1", [990])].
Proof.
  assert (H : validate_webhook_signature toy_gate_libs toy_config 1000 "nobody"
                (toy_request "1000" "x") [("test:10.0.0.1", [990])]
              = (HTTPException 401 "unknown webhook provider",
                 [("test:10.0.0.1", [990])])) by (vm_compute; reflexivity).
  split; [exact H|].
  exact (gate_rejects_before_rate_limiter_without_recording _ _ _ _ _ _ _ _ _ H
           (or_introl eq_refl)).
Defined.

(** X2.  For a request with a known provider, both headers and a timestamp
    that parses, the gatekeeper answers "webhook timestamp outside allowed
    window" exactly when the timestamp is more than 300 seconds from the
    clock, in either direction: 300 passes, 301 does not. *)
Theorem gate_freshness_boundary G cfg now provider request windows tv :
  _get_secret_candidates (WEBHOOK_SECRETS cfg) provider (X_Webhook_Key_Id request)
    <> [] ->
  falsy (X_Webhook_Timestamp request) = false ->
  falsy (X_Webhook_Signature request) = false ->
  int_of_str G (match X_Webhook_Timestamp request with Some t => t | None => "" end)
  = Some tv ->
  (validate_webhook_signature G cfg now provider request windows
   = (HTTPException 401 "webhook timestamp outside allowed window", windows)
   <-> 300 < Z.abs (now - tv)).
Proof.
  intros Hc Ht Hs Hi. unfold validate_webhook_signature.
  destruct (_get_secret_candidates _ _ _) as [|c cs]; [contradiction|].
  rewrite Ht, Hs. cbn [orb]. rewrite Hi. unfold WEBHOOK_MAX_SKEW_SECONDS.
  destruct (Z.abs (now - tv) >? 300) eqn:E.
  - split; [intros _|reflexivity]. rewrite Z.gtb_ltb in E. now apply Z.ltb_lt.
  - rewrite Z.gtb_ltb in E. apply Z.ltb_ge in E.
    split; [|lia]. intros H. exfalso.
    destruct (negb _ && negb _); [discriminate|].
    destruct (defaultdict_get windows _) as [w0 ws0].
    destruct (Z.of_nat _ >=? _); [discriminate|].
    destruct (signature_loop G _ _ _) as [[|]|]; try discriminate.
    destruct (utf8_decode G _); discriminate.
Qed.

Lemma gate_freshness_boundary_witness :
  (validate_webhook_signature toy_gate_libs toy_config 1301 "test"
     (toy_request "1000" "x") []
   = (HTTPException 401 "webhook timestamp outside allowed window", [])
   <-> 300 < Z.abs (1301 - 1000)) /\
  (validate_webhook_signature toy_gate_libs toy_config 1300 "test"
     (toy_request "1000" "x") []
   = (HTTPException 401 "webhook timestamp outside allowed window", [])
   <-> 300 < Z.abs (1300 - 1000)).
Proof.
  split.
  - apply (gate_freshness_boundary toy_gate_libs toy_config 1301 "test"
             (toy_request "1000" "x") [] 1000);
      [vm_compute; discriminate|reflexivity|reflexivity|vm_compute; reflexivity].
  - apply (gate_freshness_boundary toy_gate_libs toy_config 1300 "test"
             (toy_request "1000" "x") [] 1000);
      [vm_compute; discriminate|reflexivity|reflexivity|vm_compute; reflexivity].
Defined.

Lemma rate_limiter_window G cfg now provider request windows tv :
  reaches_rate_limiter G cfg now provider request tv ->
  let rate_key := rate_key_of provider request in
  let window := popleft_until (now - 60) (window_of windows rate_key) in
  let result := validate_webhook_signature G cfg now provider request windows in
  (WEBHOOK_RATE_LIMIT_PER_MINUTE cfg <= Z.of_nat (List.length window) ->
   fst result = HTTPException 429 "rate limit exceeded" /\
   window_of (snd result) rate_key = window) /\
  (Z.of_nat (List.length window) < WEBHOOK_RATE_LIMIT_PER_MINUTE cfg ->
   fst result <> HTTPException 429 "rate limit exceeded" /\
   window_of (snd result) rate_key = window ++ [now]) /\
  (forall k, k <> rate_key -> window_of (snd result) k = window_of windows k).
Proof.
  intros Hreach rate_key window result. subst result.
  rewrite (validate_from_rate_limiter G cfg now provider request windows tv Hreach).
  fold rate_key. fold window.
  destruct (Z.of_nat (List.length window) >=? WEBHOOK_RATE_LIMIT_PER_MINUTE cfg)
    eqn:E; rewrite Z.geb_leb in E;
    [apply Z.leb_le in E|apply Z.leb_gt in E]; cbn [fst snd].
  - split; [|split].
    + intros _. split; [reflexivity|apply window_of_set_same].
    + intros H. lia.
    + intros k Hk. rewrite window_of_set_other by congruence.
      apply window_of_defaultdict_other. congruence.
  - split; [|split].
    + intros H. lia.
    + intros _. split; [|apply window_of_set_same].
      destruct (signature_loop G _ _ _) as [[|]|]; try discriminate.
      destruct (utf8_decode G _); discriminate.
    + intros k Hk. rewrite !window_of_set_other by congruence.
      apply window_of_defaultdict_other. congruence.
Qed.

(** X3.  For a request that reaches the rate limiter, entries at or before
    [now - 60] are dropped from the front of its window.  At the cap the
    answer is 429 and [now] is not recorded; below the cap [now] is
    recorded, whatever the signature check says next.  No other window
    changes. *)
Theorem gate_rate_limiter G cfg now provider request windows tv :
  reaches_rate_limiter G cfg now provider request tv ->
  let rate_key := rate_key_of provider request in
  let window := popleft_until (now - 60) (window_of windows rate_key) in
  let result := validate_webhook_signature G cfg now provider request windows in
  (WEBHOOK_RATE_LIMIT_PER_MINUTE cfg <= Z.of_nat (List.length window) ->
   fst result = HTTPException 429 "rate limit exceeded" /\
   window_of (snd result) rate_key = window) /\
  (Z.of_nat (List.length window) < WEBHOOK_RATE_LIMIT_PER_MINUTE cfg ->
   fst result <> HTTPException 429 "rate limit exceeded" /\
   window_of (snd result) rate_key = window ++ [now]) /\
  (forall k, k <> rate_key -> window_of (snd result) k = window_of windows k).
Proof.
  intros Hreach.
  exact (rate_limiter_window G cfg now provider request windows tv Hreach).
Qed.

(** A request below the cap of [toy_config], then the same client at the
    cap. *)
Lemma gate_rate_limiter_witness :
  let windows := [("test:10.0.0.1", [900; 990; 995])] in
  let result := validate_webhook_signature toy_gate_libs toy_config 1000 "test"
                  (toy_request "1000" "x") windows in
  reaches_rate_limiter toy_gate_libs toy_config 1000 "test"
    (toy_request "1000" "x") 1000 /\
  popleft_until (1000 - 60) (window_of windows "test:10.0.0.1") = [990; 995] /\
  fst result = HTTPException 429 "rate limit exceeded" /\
  window_of (snd result) "test:10.0.0.1" = [990; 995].
Proof.
  intros windows result.
  assert (Hreach : reaches_rate_limiter toy_gate_libs toy_config 1000 "test"
                     (toy_request "1000" "x") 1000).
  { unfold reaches_rate_limiter. split; [vm_compute; discriminate|].
    split; [reflexivity|]. split; [reflexivity|].
    split; [vm_compute; reflexivity|]. split; [vm_compute; discriminate|].
    left; reflexivity. }
  split; [exact Hreach|]. split; [vm_compute; reflexivity|].
  destruct (gate_rate_limiter toy_gate_libs toy_config 1000 "test"
              (toy_request "1000" "x") windows 1000 Hreach) as (Hcap & _ & _).
  apply Hcap. vm_compute. discriminate.
Defined.

Lemma popleft_until_sorted cutoff window :
  StronglySorted Z.le window ->
  StronglySorted Z.le (popleft_until cutoff window) /\
  Forall (fun t => cutoff < t) (popleft_until cutoff window) /\
  (List.length (popleft_until cutoff window) <= List.length window)%nat /\
  forall t, In t (popleft_until cutoff window) -> In t window.
Proof.
  induction 1 as [|first rest Hs IH Hall]; cbn [popleft_until].
  - repeat split; auto; constructor.
  - destruct (first <=? cutoff) eqn:E.
    + destruct IH as (H1 & H2 & H3 & H4).
      repeat split; auto; cbn [List.length In]; [lia|auto].
    + apply Z.leb_gt in E. repeat split; auto.
      * constructor; assumption.
      * constructor; [exact E|]. eapply Forall_impl; [|exact Hall].
        cbv beta. intros; lia.
Qed.

Lemma StronglySorted_snoc (l : list Z) (x : Z) :
  StronglySorted Z.le l -> Forall (fun t => t <= x) l ->
  StronglySorted Z.le (l ++ [x]).
Proof.
  induction 1 as [|a l Hs IH Ha]; intros Hx; cbn.
  - repeat constructor.
  - inversion Hx; subst. constructor; [auto|].
    apply Forall_app. split; [exact Ha|]. repeat constructor. assumption.
Qed.

(** X4.  Under a clock that does not go back, a window stays ascending and
    bounded by the clock, after a call every entry of the touched window is
    younger than 60 seconds, and a window within the cap stays within it: no
    more than the cap of timestamps of the last minute are ever recorded. *)
Theorem gate_window_invariant G cfg now0 now provider request windows tv :
  reaches_rate_limiter G cfg now provider request tv ->
  now0 <= now ->
  let rate_key := rate_key_of provider request in
  let cap := Z.max (WEBHOOK_RATE_LIMIT_PER_MINUTE cfg) 0 in
  window_ok now0 (window_of windows rate_key) ->
  let window' :=
    window_of (snd (validate_webhook_signature G cfg now provider request windows))
      rate_key in
  window_ok now window' /\
  Forall (fun t => now - 60 < t) window' /\
  (Z.of_nat (List.length (window_of windows rate_key)) <= cap ->
   Z.of_nat (List.length window') <= cap).
Proof.
  intros Hreach Hclock rate_key cap [Hsorted Hbound] window'.
  destruct (rate_limiter_window G cfg now provider request windows tv Hreach)
    as (Hcap & Hbelow & _).
  fold rate_key in Hcap, Hbelow.
  destruct (popleft_until_sorted (now - 60) _ Hsorted) as (Ps & Pc & Pl & Pin).
  assert (Pb : Forall (fun t => t <= now)
                 (popleft_until (now - 60) (window_of windows rate_key))).
  { apply Forall_forall. intros t Ht. apply Pin in Ht.
    rewrite Forall_forall in Hbound. specialize (Hbound t Ht). lia. }
  destruct (Z.le_gt_cases (WEBHOOK_RATE_LIMIT_PER_MINUTE cfg)
              (Z.of_nat (List.length
                           (popleft_until (now - 60) (window_of windows rate_key)))))
    as [Hge|Hlt].
  - destruct (Hcap Hge) as [_ Hw]. unfold window'. rewrite Hw.
    split; [split; assumption|]. split; [exact Pc|]. intros. lia.
  - destruct (Hbelow Hlt) as [_ Hw]. unfold window'. rewrite Hw.
    split; [split|split].
    + now apply StronglySorted_snoc.
    + apply Forall_app. split; [exact Pb|]. repeat constructor. lia.
    + apply Forall_app. split; [exact Pc|]. repeat constructor. lia.
    + intros _. rewrite length_app. cbn [List.length]. lia.
Qed.

Lemma gate_window_invariant_witness :
  let windows := [("test:10.0.0.1", [900; 990])] in
  let window' :=
    window_of (snd (validate_webhook_signature toy_gate_libs toy_config 1000
                      "test" (toy_request "1000" "x") windows))
      (rate_key_of "test" (toy_request "1000" "x")) in
  window_ok 990 (window_of windows (rate_key_of "test" (toy_request "1000" "x"))) /\
  window_ok 1000 window' /\
  Forall (fun t => 1000 - 60 < t) window'.
Proof.
  intros windows window'.
  assert (Hreach : reaches_rate_limiter toy_gate_libs toy_config 1000 "test"
                     (toy_request "1000" "x") 1000).
  { unfold reaches_rate_limiter. split; [vm_compute; discriminate|].
    split; [reflexivity|]. split; [reflexivity|].
    split; [vm_compute; reflexivity|]. split; [vm_compute; discriminate|].
    left; reflexivity. }
  assert (Hok : window_ok 990
                  (window_of windows (rate_key_of "test" (toy_request "1000" "x")))).
  { vm_compute. split.
    - repeat constructor; discriminate.
    - repeat constructor; discriminate. }
  assert (Hclock : 990 <= 1000) by (vm_compute; discriminate).
  split; [exact Hok|].
  destruct (gate_window_invariant toy_gate_libs toy_config 990 1000 "test"
              (toy_request "1000" "x") windows 1000 Hreach Hclock Hok)
    as (H1 & H2 & _).
  split; [exact H1|exact H2].
Defined.

Lemma signature_loop_true G signature signed_payload candidates :
  signature_loop G signature signed_payload candidates = Some true ->
  exists secret,
    In secret candidates /\
    signature = hmac_sha256_hexdigest G (utf8_encode G secret) signed_payload.
Proof.
  induction candidates as [|c cs IH]; cbn [signature_loop]; [discriminate|].
  unfold compare_digest.
  destruct (is_ascii signature && is_ascii _); [|discriminate].
  destruct (String.eqb signature _) eqn:E.
  - intros _. apply String.eqb_eq in E. exists c. split; [now left|exact E].
  - intros H. destruct (IH H) as (s & Hin & Hs). exists s. split; [now right|exact Hs].
Qed.

Lemma signature_loop_ascii G signature signed_payload candidates :
  is_ascii signature = true ->
  (forall secret, In secret candidates ->
     is_ascii (hmac_sha256_hexdigest G (utf8_encode G secret) signed_payload) = true) ->
  signature_loop G signature signed_payload candidates
  = Some (existsb (fun secret =>
                     String.eqb signature
                       (hmac_sha256_hexdigest G (utf8_encode G secret) signed_payload))
                  candidates).
Proof.
  intros Hs. induction candidates as [|c cs IH]; intros Hd; cbn; [reflexivity|].
  unfold compare_digest. rewrite Hs, (Hd c) by now left. cbn [andb].
  destruct (String.eqb signature _); [reflexivity|].
  apply IH. intros s Hin. apply Hd. now right.
Qed.

(** X5.  Whatever the gatekeeper returns as verified was signed by a
    candidate secret of the provider: the signature header is the MAC of the
    timestamp header, a dot and the body under that secret; the timestamp
    parses and is within 300 seconds of the clock; the peer passes the
    allowlist; and the returned fields are the decoded body, that signature
    and that timestamp. *)
Theorem gate_verified_is_signed G cfg now provider request windows v windows' :
  validate_webhook_signature G cfg now provider request windows
  = (Verified v, windows') ->
  exists timestamp secret,
    X_Webhook_Timestamp request = Some timestamp /\
    X_Webhook_Signature request = Some (VerifiedWebhookData.signature v) /\
    In secret (_get_secret_candidates (WEBHOOK_SECRETS cfg) provider
                 (X_Webhook_Key_Id request)) /\
    VerifiedWebhookData.signature v
    = hmac_sha256_hexdigest G (utf8_encode G secret)
        (String.append (utf8_encode G (String.append timestamp "."))
           (request_body request)) /\
    int_of_str G timestamp = Some (VerifiedWebhookData.timestamp v) /\
    Z.abs (now - VerifiedWebhookData.timestamp v) <= 300 /\
    utf8_decode G (request_body request) = Some (VerifiedWebhookData.raw_body v) /\
    (WEBHOOK_IP_ALLOWLIST cfg = [] \/
     In (match client_host request with Some h => h | None => "unknown" end)
        (WEBHOOK_IP_ALLOWLIST cfg)).
Proof.
  unfold validate_webhook_signature. intros H.
  destruct (_get_secret_candidates _ _ _) as [|c cs] eqn:Ec; [discriminate|].
  destruct (X_Webhook_Timestamp request) as [[|a t]|] eqn:Et;
    cbn [falsy orb] in H; try discriminate.
  destruct (X_Webhook_Signature request) as [[|b s]|] eqn:Es;
    cbn [falsy orb] in H; try discriminate.
  destruct (int_of_str G _) as [tv|] eqn:Ei; [|discriminate].
  destruct (Z.abs (now - tv) >? _) eqn:Ef; [discriminate|].
  destruct (negb _ && negb _) eqn:Eip; [discriminate|].
  destruct (defaultdict_get windows _) as [w0 ws0].
  destruct (Z.of_nat _ >=? _); [discriminate|].
  destruct (signature_loop G _ _ _) as [[|]|] eqn:El; try discriminate.
  destruct (utf8_decode G _) as [raw|] eqn:Ed; [|discriminate].
  inversion H; subst; clear H. cbn [VerifiedWebhookData.signature
    VerifiedWebhookData.timestamp VerifiedWebhookData.raw_body].
  apply signature_loop_true in El. destruct El as (secret & Hin & Hsig).
  exists (String a t), secret. repeat split; auto.
  - unfold WEBHOOK_MAX_SKEW_SECONDS in Ef. rewrite Z.gtb_ltb in Ef.
    now apply Z.ltb_ge.
  - apply Bool.andb_false_iff in Eip. destruct Eip as [E|E].
    + left. destruct (WEBHOOK_IP_ALLOWLIST cfg); [reflexivity|discriminate].
    + right. apply Bool.negb_false_iff in E. apply existsb_exists in E.
      destruct E as (x & Hx & Hxe). apply String.eqb_eq in Hxe. now subst.
Qed.

Lemma toy_reaches (now : Z) (signature : string) :
  signature <> "" -> Z.abs (now - 1000) <= 300 ->
  reaches_rate_limiter toy_gate_libs toy_config now "test"
    (toy_request "1000" signature) 1000.
Proof.
  intros Hs Hf. unfold reaches_rate_limiter. split; [vm_compute; discriminate|].
  split; [reflexivity|]. split; [destruct signature; [contradiction|reflexivity]|].
  split; [vm_compute; reflexivity|]. split; [exact Hf|]. left; reflexivity.
Defined.

Lemma gate_verified_witness :
  let request := toy_request "1000" "test_secret|1000.{}" in
  validate_webhook_signature toy_gate_libs toy_config 1200 "test" request []
  = (Verified (VerifiedWebhookData.mk "{}" "test_secret|1000.{}" 1000),
     [("test:10.0.0.1", [1200])]) /\
  exists timestamp secret,
    X_Webhook_Timestamp request = Some timestamp /\
    In secret (_get_secret_candidates (WEBHOOK_SECRETS toy_config) "test"
                 (X_Webhook_Key_Id request)) /\
    "test_secret|1000.{}"
    = hmac_sha256_hexdigest toy_gate_libs (utf8_encode toy_gate_libs secret)
        (String.append (utf8_encode toy_gate_libs (String.append timestamp "."))
           (request_body request)).
Proof.
  intros request.
  assert (H : validate_webhook_signature toy_gate_libs toy_config 1200 "test"
                request []
              = (Verified (VerifiedWebhookData.mk "{}" "test_secret|1000.{}" 1000),
                 [("test:10.0.0.1", [1200])])) by (vm_compute; reflexivity).
  split; [exact H|].
  destruct (gate_verified_is_signed _ _ _ _ _ _ _ _ H)
    as (timestamp & secret & H1 & _ & H3 & H4 & _).
  exists timestamp, secret. split; [exact H1|]. split; [exact H3|exact H4].
Defined.

Lemma str_int_truthy (n : Z) : falsy (Some (str_int n)) = false.
Proof.
  unfold str_int, NilZero.string_of_int.
  destruct (Z.to_int n) as [d|d]; [|reflexivity].
  unfold NilZero.string_of_uint. destruct d; reflexivity.
Qed.

(** X6.  The request the simulator builds passes the gatekeeper: signed with
    the provider's signing secret over the printed timestamp, a dot and the
    encoded body, it is verified whenever the timestamp is fresh, the peer is
    allowed and the window is below the cap, and the verified body is the
    body that was signed. *)
Theorem gate_accepts_simulated_request G cfg now provider timestamp body client
  windows signing_secret :
  _get_signing_secret cfg provider = inr signing_secret ->
  let request := simulated_request G signing_secret timestamp body client in
  let signature :=
    hmac_sha256_hexdigest G (utf8_encode G signing_secret)
      (String.append (utf8_encode G (String.append (str_int timestamp) "."))
         (utf8_encode G body)) in
  let rate_key := rate_key_of provider request in
  let window := popleft_until (now - 60) (window_of windows rate_key) in
  int_of_str G (str_int timestamp) = Some timestamp ->
  utf8_decode G (utf8_encode G body) = Some body ->
  is_ascii signature = true -> signature <> "" ->
  Z.abs (now - timestamp) <= 300 ->
  (WEBHOOK_IP_ALLOWLIST cfg = [] \/
   In (match client with Some h => h | None => "unknown" end)
      (WEBHOOK_IP_ALLOWLIST cfg)) ->
  Z.of_nat (List.length window) < WEBHOOK_RATE_LIMIT_PER_MINUTE cfg ->
  fst (validate_webhook_signature G cfg now provider request windows)
  = Verified (VerifiedWebhookData.mk body signature timestamp) /\
  window_of (snd (validate_webhook_signature G cfg now provider request windows))
    rate_key = window ++ [now].
Proof.
  intros Hsecret request signature rate_key window Hint Hdec Hascii Hne Hfresh
    Hip Hcap.
  unfold _get_signing_secret in Hsecret.
  destruct (_get_secret_candidates (WEBHOOK_SECRETS cfg) provider None)
    as [|c cs] eqn:Ec; [discriminate|]. inversion Hsecret; subst c.
  assert (Hreach : reaches_rate_limiter G cfg now provider request timestamp).
  { unfold reaches_rate_limiter, request, simulated_request.
    cbn [X_Webhook_Key_Id X_Webhook_Timestamp X_Webhook_Signature client_host].
    rewrite Ec. split; [discriminate|]. split; [apply str_int_truthy|].
    split; [|split; [exact Hint|split; [exact Hfresh|exact Hip]]].
    fold signature. destruct signature; [contradiction|reflexivity]. }
  rewrite (validate_from_rate_limiter G cfg now provider request windows
             timestamp Hreach).
  fold rate_key. fold window.
  replace (Z.of_nat (List.length window) >=? WEBHOOK_RATE_LIMIT_PER_MINUTE cfg)
    with false by (symmetry; rewrite Z.geb_leb; apply Z.leb_gt; exact Hcap).
  cbn [fst snd]. split; [|apply window_of_set_same].
  unfold request, simulated_request.
  cbn [X_Webhook_Key_Id X_Webhook_Timestamp X_Webhook_Signature request_body].
  rewrite Ec. cbn [signature_loop]. fold signature.
  unfold compare_digest. rewrite Hascii, String.eqb_refl. cbn [andb].
  rewrite Hdec. reflexivity.
Qed.

Lemma gate_accepts_simulated_request_witness :
  let request := simulated_request toy_gate_libs "test_secret" 1000 "{}"
                   (Some "10.0.0.1") in
  _get_signing_secret toy_config "test" = inr "test_secret" /\
  Z.abs (1300 - 1000) <= 300 /\
  fst (validate_webhook_signature toy_gate_libs toy_config 1300 "test" request
         [("test:10.0.0.1", [1240; 1250])])
  = Verified (VerifiedWebhookData.mk "{}" "test_secret|1000.{}" 1000) /\
  window_of (snd (validate_webhook_signature toy_gate_libs toy_config 1300 "test"
                    request [("test:10.0.0.1", [1240; 1250])]))
    (rate_key_of "test" request) = [1250; 1300].
Proof.
  intros request.
  assert (Hs : _get_signing_secret toy_config "test" = inr "test_secret")
    by (vm_compute; reflexivity).
  assert (Hf : Z.abs (1300 - 1000) <= 300) by (vm_compute; discriminate).
  split; [exact Hs|]. split; [exact Hf|].
  assert (Hcap : Z.of_nat
                   (List.length
                      (popleft_until (1300 - 60)
                         (window_of [("test:10.0.0.1", [1240; 1250])]
                            (rate_key_of "test" request))))
                 < WEBHOOK_RATE_LIMIT_PER_MINUTE toy_config)
    by (vm_compute; reflexivity).
  pose proof (gate_accepts_simulated_request toy_gate_libs toy_config 1300 "test"
                1000 "{}" (Some "10.0.0.1") [("test:10.0.0.1", [1240; 1250])]
                "test_secret" Hs) as H.
  cbv zeta in H.
  assert (Hint : int_of_str toy_gate_libs (str_int 1000) = Some 1000)
    by (vm_compute; reflexivity).
  assert (Hne : hmac_sha256_hexdigest toy_gate_libs
                  (utf8_encode toy_gate_libs "test_secret")
                  (String.append
                     (utf8_encode toy_gate_libs (String.append (str_int 1000) "."))
                     (utf8_encode toy_gate_libs "{}")) <> "")
    by (vm_compute; discriminate).
  destruct (H Hint eq_refl eq_refl Hne Hf (or_introl eq_refl) Hcap) as [H1 H2].
  unfold request. split.
  - rewrite H1. vm_compute. reflexivity.
  - rewrite H2. vm_compute. reflexivity.
Defined.

(** X7.  A request that reaches the rate limiter below the cap and whose
    signature matches no candidate secret has its timestamp recorded in the
    window all the same: a forged request uses up rate-limit quota.  It is
    answered "invalid webhook signature" when the signature header is ASCII;
    on a header that is not, [hmac.compare_digest] raises TypeError at the
    first candidate, and the call ends with that error instead. *)
Theorem gate_bad_signature_is_counted G cfg now provider request windows tv
  signature :
  reaches_rate_limiter G cfg now provider request tv ->
  X_Webhook_Signature request = Some signature ->
  let rate_key := rate_key_of provider request in
  let window := popleft_until (now - 60) (window_of windows rate_key) in
  let signed_payload :=
    String.append
      (utf8_encode G
         (String.append
            (match X_Webhook_Timestamp request with Some t => t | None => "" end)
            "."))
      (request_body request) in
  Z.of_nat (List.length window) < WEBHOOK_RATE_LIMIT_PER_MINUTE cfg ->
  (forall secret,
      In secret (_get_secret_candidates (WEBHOOK_SECRETS cfg) provider
                   (X_Webhook_Key_Id request)) ->
      is_ascii (hmac_sha256_hexdigest G (utf8_encode G secret) signed_payload)
      = true /\
      hmac_sha256_hexdigest G (utf8_encode G secret) signed_payload <> signature) ->
  fst (validate_webhook_signature G cfg now provider request windows)
  = (if is_ascii signature
     then HTTPException 403 "invalid webhook signature"
     else TypeError) /\
  window_of (snd (validate_webhook_signature G cfg now provider request windows))
    rate_key = window ++ [now].
Proof.
  intros Hreach Hsig rate_key window signed_payload Hcap Hno.
  rewrite (validate_from_rate_limiter G cfg now provider request windows tv Hreach).
  fold rate_key. fold window.
  replace (Z.of_nat (List.length window) >=? WEBHOOK_RATE_LIMIT_PER_MINUTE cfg)
    with false by (symmetry; rewrite Z.geb_leb; apply Z.leb_gt; exact Hcap).
  assert (Hloop : signature_loop G signature signed_payload
                    (_get_secret_candidates (WEBHOOK_SECRETS cfg) provider
                       (X_Webhook_Key_Id request))
                  = if is_ascii signature then Some false else None).
  { destruct (is_ascii signature) eqn:Hascii.
    - rewrite signature_loop_ascii;
        [|exact Hascii|intros s Hs; exact (proj1 (Hno s Hs))].
      f_equal. apply Bool.not_true_is_false. intros He.
      apply existsb_exists in He. destruct He as (s & Hs & Heq).
      apply String.eqb_eq in Heq. destruct (Hno s Hs) as [_ Hne]. congruence.
    - destruct Hreach as [Hne _].
      destruct (_get_secret_candidates (WEBHOOK_SECRETS cfg) provider
                  (X_Webhook_Key_Id request)) as [|secret rest];
        [contradiction|].
      cbn [signature_loop]. unfold compare_digest. now rewrite Hascii. }
  rewrite Hsig. fold signed_payload. rewrite Hloop.
  destruct (is_ascii signature); cbn [fst snd];
    (split; [reflexivity|apply window_of_set_same]).
Qed.

(** A forged ASCII signature, and a signature of the one character 233. *)
Lemma gate_bad_signature_witness :
  let request := toy_request "1000" "forged" in
  let latin1 := String (Ascii.ascii_of_nat 233) EmptyString in
  let request' := toy_request "1000" latin1 in
  reaches_rate_limiter toy_gate_libs toy_config 1000 "test" request 1000 /\
  fst (validate_webhook_signature toy_gate_libs toy_config 1000 "test" request [])
  = HTTPException 403 "invalid webhook signature" /\
  window_of (snd (validate_webhook_signature toy_gate_libs toy_config 1000 "test"
                    request []))
    (rate_key_of "test" request) = [1000] /\
  reaches_rate_limiter toy_gate_libs toy_config 1000 "test" request' 1000 /\
  fst (validate_webhook_signature toy_gate_libs toy_config 1000 "test" request' [])
  = TypeError.
Proof.
  intros request latin1 request'.
  assert (Hreach : reaches_rate_limiter toy_gate_libs toy_config 1000 "test"
                     request 1000)
    by (apply toy_reaches; [discriminate|vm_compute; discriminate]).
  assert (Hreach' : reaches_rate_limiter toy_gate_libs toy_config 1000 "test"
                      request' 1000)
    by (apply toy_reaches; [discriminate|vm_compute; discriminate]).
  split; [exact Hreach|].
  pose proof (gate_bad_signature_is_counted toy_gate_libs toy_config 1000 "test"
                request [] 1000 "forged" Hreach eq_refl) as H.
  pose proof (gate_bad_signature_is_counted toy_gate_libs toy_config 1000 "test"
                request' [] 1000 latin1 Hreach' eq_refl) as H'.
  cbv zeta in H, H'.
  assert (Hcap : Z.of_nat
                   (List.length
                      (popleft_until (1000 - 60)
                         (window_of [] (rate_key_of "test" request))))
                 < WEBHOOK_RATE_LIMIT_PER_MINUTE toy_config)
    by (vm_compute; reflexivity).
  assert (Hcap' : Z.of_nat
                    (List.length
                       (popleft_until (1000 - 60)
                          (window_of [] (rate_key_of "test" request'))))
                  < WEBHOOK_RATE_LIMIT_PER_MINUTE toy_config)
    by (vm_compute; reflexivity).
  destruct (H Hcap) as [H1 H2].
  { intros secret Hin. vm_compute in Hin. destruct Hin as [<-|[]].
    split; [vm_compute; reflexivity|vm_compute; discriminate]. }
  destruct (H' Hcap') as [H1' _].
  { intros secret Hin. vm_compute in Hin. destruct Hin as [<-|[]].
    split; [vm_compute; reflexivity|vm_compute; discriminate]. }
  split; [exact H1|]. split.
  { unfold request in H2 |- *. rewrite H2. vm_compute. reflexivity. }
  split; [exact Hreach'|exact H1'].
Defined.

(** ** The secret registry in rotation mode *)

Lemma dedupe_spec (candidates : list string) :
  forall seen,
    NoDup (dedupe seen candidates) /\
    (forall s, In s (dedupe seen candidates) <-> In s candidates /\ ~ In s seen).
Proof.
  induction candidates as [|c cs IH]; intros seen; cbn [dedupe].
  - split; [constructor|]. intros s. cbn. tauto.
  - destruct (existsb (String.eqb c) seen) eqn:E.
    + destruct (IH seen) as [Hn Hi]. split; [exact Hn|].
      intros s. rewrite Hi. cbn [In]. split; [tauto|].
      intros [[<-|H] Hs]; [|tauto].
      exfalso. apply Hs. apply existsb_exists in E. destruct E as (x & Hx & Hxe).
      apply String.eqb_eq in Hxe. now subst.
    + destruct (IH (c :: seen)) as [Hn Hi].
      assert (Hc : ~ In c seen).
      { intros Hin. apply Bool.not_true_iff_false in E. apply E.
        apply existsb_exists. exists c. split; [exact Hin|apply String.eqb_refl]. }
      split.
      * constructor; [|exact Hn]. rewrite Hi. cbn [In]. tauto.
      * intros s. cbn [In]. rewrite Hi. cbn [In].
        destruct (string_dec c s) as [->|Hne]; tauto.
Qed.

Lemma str_items_In (l : list PyVal) (s : string) :
  In s (str_items l) <-> In (PyStr s) l.
Proof.
  unfold str_items. rewrite in_flat_map. split.
  - intros (v & Hv & Hs). destruct v; cbn in Hs; try tauto.
    destruct Hs as [<-|[]]. exact Hv.
  - intros H. exists (PyStr s). split; [exact H|now left].
Qed.

(** X8.  In rotation mode the candidates have no duplicates; they are
    exactly the secret of the presented key id, [current], and the strings of
    [previous]; and the first one is the key's secret when the key id names
    one, [current] otherwise. *)
Theorem secret_candidates_rotation_mode (reg : list (string * PyVal))
  (provider : string) (key_id : option string) (cfg : list (string * PyVal)) :
  dict_get reg provider = Some (PyDict cfg) ->
  let candidates := _get_secret_candidates reg provider key_id in
  NoDup candidates /\
  (forall s,
      In s candidates <->
      key_secret cfg key_id = Some s \/
      dict_get cfg "current" = Some (PyStr s) \/
      exists previous, dict_get cfg "previous" = Some (PyList previous) /\
                       In (PyStr s) previous) /\
  (forall k, key_secret cfg key_id = Some k -> hd_error candidates = Some k) /\
  (forall c, key_secret cfg key_id = None ->
             dict_get cfg "current" = Some (PyStr c) ->
             hd_error candidates = Some c).
Proof.
  intros Hget candidates. subst candidates.
  unfold _get_secret_candidates. rewrite Hget.
  set (by_key := match key_id, dict_get cfg "keys" with
                 | Some (String a rest), Some (PyDict key_map) =>
                     match dict_get key_map (String a rest) with
                     | Some (PyStr maybe) => [maybe]
                     | _ => []
                     end
                 | _, _ => []
                 end).
  set (current := match dict_get cfg "current" with
                  | Some (PyStr c) => [c]
                  | _ => []
                  end).
  set (previous := match dict_get cfg "previous" with
                   | Some (PyList l) => str_items l
                   | _ => []
                   end).
  assert (Hk : by_key = match key_secret cfg key_id with
                        | Some k => [k]
                        | None => []
                        end).
  { unfold by_key, key_secret. destruct key_id as [[|a rest]|]; try reflexivity.
    destruct (dict_get cfg "keys") as [[]|]; try reflexivity.
    destruct (dict_get items (String a rest)) as [[]|]; reflexivity. }
  destruct (dedupe_spec (by_key ++ current ++ previous) []) as [Hn Hi].
  split; [exact Hn|]. split; [|split].
  - intros s. rewrite Hi. rewrite !in_app_iff. cbn [In].
    assert (H1 : In s by_key <-> key_secret cfg key_id = Some s).
    { rewrite Hk. destruct (key_secret cfg key_id); cbn; split;
        intros H; try tauto; try discriminate.
      - destruct H as [->|[]]. reflexivity.
      - inversion H. now left. }
    assert (H2 : In s current <-> dict_get cfg "current" = Some (PyStr s)).
    { unfold current. destruct (dict_get cfg "current") as [[]|]; cbn; split;
        intros H; try tauto; try discriminate.
      - destruct H as [->|[]]. reflexivity.
      - inversion H. now left. }
    assert (H3 : In s previous <->
                 exists l, dict_get cfg "previous" = Some (PyList l) /\
                           In (PyStr s) l).
    { unfold previous. destruct (dict_get cfg "previous") as [[]|]; cbn;
        try (split; [tauto|intros (l0 & Hl & _); discriminate]).
      rewrite str_items_In. split.
      - intros H. eauto.
      - intros (l0 & Hl & Hin). inversion Hl. now subst. }
    rewrite H1, H2, H3. tauto.
  - intros k Hks. rewrite Hk, Hks. reflexivity.
  - intros c Hks Hc. rewrite Hk, Hks. unfold current. rewrite Hc. reflexivity.
Qed.

Lemma secret_candidates_rotation_witness :
  let reg := [("test", PyDict [("current", PyStr "s2");
                               ("previous", PyList [PyStr "s1"; PyInt 7; PyStr "s2"]);
                               ("keys", PyDict [("k1", PyStr "s1")])])] in
  _get_secret_candidates reg "test" (Some "k1") = ["s1"; "s2"] /\
  NoDup (_get_secret_candidates reg "test" (Some "k1")) /\
  hd_error (_get_secret_candidates reg "test" (Some "k1")) = Some "s1".
Proof.
  intros reg. split; [vm_compute; reflexivity|].
  destruct (secret_candidates_rotation_mode reg "test" (Some "k1")
              [("current", PyStr "s2");
               ("previous", PyList [PyStr "s1"; PyInt 7; PyStr "s2"]);
               ("keys", PyDict [("k1", PyStr "s1")])] eq_refl)
    as (Hn & _ & Hk & _).
  split; [exact Hn|]. apply Hk. reflexivity.
Defined.

(** ** What no request does *)

(** X9.  Payments are append-only: across any sequence of requests the
    payment table keeps its rows, unchanged and in order, and only grows at
    the end. *)
Theorem payments_are_append_only (L : Libs) (ops : list Op) (a : App) :
  exists added, payments (db (run_ops L ops a)) = payments (db a) ++ added.
Proof.
  apply (run_ops_preserves L
           (fun s => exists added, payments s = payments (db a) ++ added));
    try (intros; assumption).
  - intros s row [added H]. exists (added ++ [row]). cbn. rewrite H.
    now rewrite app_assoc.
  - exists []. now rewrite app_nil_r.
Qed.

Lemma event_mutation_columns f r :
  event_mutation f -> delivery_columns (f r) = delivery_columns r.
Proof. intros Hf. destruct Hf; reflexivity. Qed.

Lemma event_clearing_columns f r :
  event_clearing f -> delivery_columns (f r) = delivery_columns r.
Proof. intros Hf. destruct Hf; reflexivity. Qed.

Lemma map_update_rows_columns {A B} (columns : A -> B) (key : A -> Z) id f
  (rows : list A) :
  (forall r, columns (f r) = columns r) ->
  map columns (update_rows key id f rows) = map columns rows.
Proof.
  intros Hf. unfold update_rows. rewrite map_map. apply map_ext.
  intros r. destruct (key r =? id); auto.
Qed.

(** X10.  Event rows are never deleted or reordered, and the columns that
    identify a delivery (key, provider, event id and type, the raw body, the
    signature and its timestamp, the time of receipt) are never rewritten:
    after any sequence of requests the table is the old one, in those
    columns, followed by the rows added since. *)
Theorem event_rows_keep_their_delivery (L : Libs) (ops : list Op) (a : App) :
  extends delivery_columns (webhook_events (db a))
    (webhook_events (db (run_ops L ops a))).
Proof.
  apply (run_ops_preserves L
           (fun s => extends delivery_columns (webhook_events (db a))
                       (webhook_events s)));
    try (intros; assumption).
  - intros s id f Hf [added H]. exists added. cbn.
    rewrite map_update_rows_columns; [exact H|].
    intros r. now apply event_mutation_columns.
  - intros s id f Hf _ [added H]. exists added. cbn.
    rewrite map_update_rows_columns; [exact H|].
    intros r. now apply event_clearing_columns.
  - intros s now provider webhook verified [added H].
    exists (added ++ [received_row now provider webhook verified
                        (next_id (map WebhookEvent.id (webhook_events s)))]).
    cbn. rewrite !map_app, H. now rewrite app_assoc.
  - exists []. cbn. now rewrite app_nil_r.
Qed.

Lemma event_mutation_attempts f r :
  event_mutation f -> attempts_counted r -> attempts_counted (f r).
Proof.
  intros Hf [H1 H2]. destruct Hf; unfold attempts_counted;
    cbn -[Z.add]; try (split; [exact H1|discriminate]).
  split; [lia|intros _; lia].
Qed.

Lemma event_clearing_attempts f r :
  event_clearing f -> attempts_counted r -> attempts_counted (f r).
Proof. intros Hf H. destruct Hf; exact H. Qed.

Lemma run_ops_attempts (L : Libs) (ops : list Op) :
  Forall attempts_counted (webhook_events (db (run_ops L ops initial))).
Proof.
  apply (run_ops_preserves L (fun s => Forall attempts_counted (webhook_events s)));
    try (intros; assumption).
  - intros s id f Hf H. cbn. apply Forall_update_rows; [exact H|].
    intros r _ _. now apply event_mutation_attempts.
  - intros s id f Hf _ H. cbn. apply Forall_update_rows; [exact H|].
    intros r _ _. now apply event_clearing_attempts.
  - intros s now provider webhook verified H. cbn.
    apply Forall_app. split; [exact H|]. constructor; [|constructor].
    split; [cbn; lia|discriminate].
  - constructor.
Qed.

(** X11.  The retry sweep retries an event once: in every reachable state a
    row the sweep selects is in status failed with [attempt_count] exactly 2,
    that is, it has failed exactly once; the next failure raises the count to
    3 and flags the row, which takes it out of the sweep. *)
Theorem retry_candidates_have_failed_once (L : Libs) (ops : list Op)
  (now : datetime) (limit : Z) (e : WebhookEvent.t) :
  In e (sql_limit limit
          (filter (retry_candidate now)
             (webhook_events (db (run_ops L ops initial))))) ->
  WebhookEvent.processing_status e = failed /\
  WebhookEvent.attempt_count e = 2 /\
  forall now' message,
    WebhookEvent.attempt_count (mark_failed_row now' message e) = 3 /\
    WebhookEvent.needs_attention (mark_failed_row now' message e) = true /\
    retry_candidate now (mark_failed_row now' message e) = false.
Proof.
  intros Hin. apply sql_limit_incl in Hin. apply filter_In in Hin.
  destruct Hin as [Hin Hc].
  pose proof (run_ops_attention L ops) as Ha.
  pose proof (run_ops_attempts L ops) as Hn.
  unfold attention_flags_justified in Ha. rewrite Forall_forall in Ha, Hn.
  destruct (Ha e Hin) as [_ Ha2]. destruct (Hn e Hin) as [_ Hn2].
  unfold retry_candidate in Hc.
  apply Bool.andb_true_iff in Hc. destruct Hc as [Hc _].
  apply Bool.andb_true_iff in Hc. destruct Hc as [Hs Hf].
  assert (Hst : WebhookEvent.processing_status e = failed)
    by (destruct (WebhookEvent.processing_status e); try discriminate; reflexivity).
  assert (Hfl : WebhookEvent.needs_attention e = false)
    by (destruct (WebhookEvent.needs_attention e); [discriminate|reflexivity]).
  specialize (Ha2 Hst). specialize (Hn2 Hst). rewrite Hfl in Ha2.
  symmetry in Ha2. apply Z.leb_gt in Ha2.
  assert (Hcount : WebhookEvent.attempt_count e = 2) by lia.
  split; [exact Hst|]. split; [exact Hcount|].
  intros now' message. unfold mark_failed_row, retry_candidate.
  cbn -[Z.add Z.mul Z.min Z.geb]. rewrite Hcount. repeat split.
Qed.

Lemma retry_candidates_witness :
  let ops := [demo_create;
              OpWebhook 50000000 "test"
                (demo_webhook "evt_lost" "payment.succeeded")
                (demo_verified "body_lost" 50)] in
  let row := mark_failed_row 50000000 "provider_customer_id not found"
               (received_row 50000000 "test"
                  (demo_webhook "evt_lost" "payment.succeeded")
                  (demo_verified "body_lost" 50) 1) in
  In row (sql_limit 50 (filter (retry_candidate 9000000000)
                          (webhook_events (db (run_ops demo_libs ops initial))))) /\
  WebhookEvent.attempt_count row = 2.
Proof.
  intros ops row.
  assert (Hin : In row
                  (sql_limit 50
                     (filter (retry_candidate 9000000000)
                        (webhook_events (db (run_ops demo_libs ops initial))))))
    by (vm_compute; left; reflexivity).
  split; [exact Hin|].
  exact (proj1 (proj2 (retry_candidates_have_failed_once demo_libs ops
                         9000000000 50 row Hin))).
Defined.

(** ** The unique constraint of the event table *)

Lemma existsb_key_false (rows : list WebhookEvent.t) (provider event_id : string) :
  existsb (fun r => String.eqb (WebhookEvent.provider r) provider
                    && String.eqb (WebhookEvent.event_id r) event_id) rows = false ->
  ~ In (provider, event_id) (map event_key rows).
Proof.
  intros He Hin. apply in_map_iff in Hin. destruct Hin as (r & Hk & Hin).
  apply Bool.not_true_iff_false in He. apply He. apply existsb_exists.
  exists r. split; [exact Hin|]. unfold event_key in Hk. inversion Hk.
  now rewrite !String.eqb_refl.
Qed.

Lemma unique_keys_update s id f :
  (forall r, delivery_columns (f r) = delivery_columns r) ->
  unique_event_keys s ->
  unique_event_keys
    (set_webhook_events (update_rows WebhookEvent.id id f (webhook_events s)) s).
Proof.
  intros Hf H. unfold unique_event_keys in *. cbn.
  rewrite (map_update_rows_columns event_key); [exact H|].
  intros r. specialize (Hf r). unfold delivery_columns in Hf.
  unfold event_key. inversion Hf. congruence.
Qed.

Lemma unique_keys_flush_new_event now provider webhook verified :
  preserves unique_event_keys
    (flush_new_event (received_row now provider webhook verified)).
Proof.
  intros st H. unfold flush_new_event, bind at 1.
  pose proof (preserves_session_flush unique_event_keys st H) as H1.
  destruct (session_flush st) as [[u|e] st1]; cbn [snd] in H1 |- *;
    [|exact H1].
  destruct H1 as [Hw Hc]. run_session.
  match goal with |- context [existsb ?f ?l] => destruct (existsb f l) eqn:E end;
    split; try assumption.
  cbv beta iota. unfold unique_event_keys. cbn. rewrite map_app. cbn [map].
  apply NoDup_app; [exact Hw|repeat constructor; cbn; tauto|].
  intros k Hk [<-|[]]. revert Hk. apply existsb_key_false. exact E.
Qed.

Lemma unique_keys_process_webhook (L : Libs) now provider webhook verified :
  preserves unique_event_keys (process_webhook L now provider webhook verified).
Proof.
  assert (Hup : forall s id f, event_mutation f -> unique_event_keys s ->
                  unique_event_keys
                    (set_webhook_events
                       (update_rows WebhookEvent.id id f (webhook_events s)) s)).
  { intros s id f Hf. apply unique_keys_update. intros r.
    now apply event_mutation_columns. }
  assert (Hcl : forall s id f, event_clearing f ->
                  settled id (webhook_events s) -> unique_event_keys s ->
                  unique_event_keys
                    (set_webhook_events
                       (update_rows WebhookEvent.id id f (webhook_events s)) s)).
  { intros s id f Hf _. apply unique_keys_update. intros r.
    now apply event_clearing_columns. }
  assert (Hpay : forall s row, unique_event_keys s ->
                   unique_event_keys (set_payments (payments s ++ [row]) s))
    by (intros; assumption).
  assert (Hset : forall s k now0 pe sub, In sub (subscriptions s) ->
                   Subscription.current_period_end sub <= pe ->
                   unique_event_keys s ->
                   unique_event_keys
                     (set_subscriptions
                        (update_rows Subscription.id (Subscription.id sub)
                           (kind_apply k now0 pe) (subscriptions s)) s))
    by (intros; assumption).
  assert (Hexisting : forall ev,
             preserves unique_event_keys (_handle_existing_event L now ev verified))
    by (intros ev; apply preserves_handle_existing_event; assumption).
  assert (Hfail : forall ev exc,
             preserves unique_event_keys (fail_and_reraise now ev exc))
    by (intros ev exc; apply preserves_fail_and_reraise; assumption).
  unfold process_webhook, _get_existing_event.
  apply preserves_bind; [apply preserves_read|intros existing].
  destruct existing as [existing|]; [apply Hexisting|].
  apply preserves_bind; [apply preserves_log_call|intros _].
  apply preserves_bind.
  - apply preserves_try_except.
    + apply preserves_bind; [|intros; apply preserves_ret].
      apply unique_keys_flush_new_event.
    + intros exc. unfold _get_existing_event.
      destruct (is_IntegrityError exc); [|apply preserves_raise].
      apply preserves_bind; [apply preserves_session_rollback|intros _].
      apply preserves_bind; [apply preserves_read|intros existing].
      destruct existing; [|apply preserves_raise].
      apply preserves_bind; [apply Hexisting|intros; apply preserves_ret].
  - intros [event|r]; [|apply preserves_ret].
    apply preserves_try_except; [|intros; apply Hfail].
    apply preserves_dispatch_count_clear; try assumption; [constructor|].
    apply preserves_bind; [apply preserves_log_call|intros _].
    apply preserves_bind; [apply preserves_session_commit|intros _].
    apply preserves_bind; [apply preserves_log_call|intros _].
    apply preserves_read.
Qed.

Lemma event_keys_stay_unique_rows_step (L : Libs) (op : Op) (a : App) :
  unique_event_keys (db a) -> unique_event_keys (db (exec L op a)).
Proof.
  intros H.
  assert (Hs : both unique_event_keys (open_session a)) by (split; exact H).
  assert (Hup : forall s id f, event_mutation f -> unique_event_keys s ->
                  unique_event_keys
                    (set_webhook_events
                       (update_rows WebhookEvent.id id f (webhook_events s)) s)).
  { intros s id f Hf. apply unique_keys_update. intros r.
    now apply event_mutation_columns. }
  assert (Hcl : forall s id f, event_clearing f ->
                  settled id (webhook_events s) -> unique_event_keys s ->
                  unique_event_keys
                    (set_webhook_events
                       (update_rows WebhookEvent.id id f (webhook_events s)) s)).
  { intros s id f Hf _. apply unique_keys_update. intros r.
    now apply event_clearing_columns. }
  destruct op; cbn [exec discard with_session snd db].
  - apply (preserves_create_subscription unique_event_keys); try assumption;
      intros; assumption.
  - apply (unique_keys_process_webhook L); assumption.
  - apply (preserves_enforce_grace_period unique_event_keys); try assumption;
      intros; assumption.
  - apply (preserves_expire_subscriptions unique_event_keys); try assumption;
      intros; assumption.
  - apply (preserves_retry_failed_webhooks L unique_event_keys); try assumption;
      intros; assumption.
  - apply (preserves_reprocess_webhook_event L unique_event_keys);
      try assumption; intros; assumption.
  - apply (preserves_set_subscription_cancel_at_period_end unique_event_keys);
      try assumption; intros; assumption.
Qed.

Lemma event_keys_stay_unique_rows (L : Libs) (ops : list Op) :
  NoDup (map event_key (webhook_events (db (run_ops L ops initial)))).
Proof.
  assert (Hrun : forall l a, unique_event_keys (db a) ->
                   unique_event_keys (db (run_ops L l a))).
  { unfold run_ops. induction l as [|op l IH]; intros a H; cbn [fold_left];
      [exact H|]. apply IH. now apply event_keys_stay_unique_rows_step. }
  apply (Hrun ops initial). constructor.
Qed.

(** X12.  In every reachable state no two event rows share
    (provider, event_id): a delivery inserts a row only when the lookup and
    the flush both find the key absent. *)
Theorem event_keys_stay_unique (L : Libs) (ops : list Op) :
  unique_event_keys (db (run_ops L ops initial)).
Proof. apply event_keys_stay_unique_rows. Qed.

(** ** The two sweeps *)

Lemma set_subscriptions_same (s : Store) :
  set_subscriptions (subscriptions s) s = s.
Proof. now destruct s. Qed.

Lemma set_subscriptions_twice (v w : list Subscription.t) (s : Store) :
  set_subscriptions v (set_subscriptions w s) = set_subscriptions v s.
Proof. reflexivity. Qed.

Lemma sweep_with_nil act rows : sweep_with act [] rows = rows.
Proof. unfold sweep_with. cbn [find]. apply map_id. Qed.

Lemma find_key_not_in (l : list Subscription.t) (i : Z) :
  ~ In i (map Subscription.id l) ->
  find (fun x => Subscription.id x =? i) l = None.
Proof.
  intros Hn. destruct (find _ l) as [x|] eqn:E; [|reflexivity].
  apply find_some in E. destruct E as [Hin He]. apply Z.eqb_eq in He.
  exfalso. apply Hn. rewrite <- He. now apply in_map.
Qed.

Lemma sweep_with_cons act x l rows :
  NoDup (map Subscription.id (x :: l)) ->
  (forall y f r, act y = Some f -> Subscription.id (f r) = Subscription.id r) ->
  sweep_with act l
    (match act x with
     | Some f => update_rows Subscription.id (Subscription.id x) f rows
     | None => rows
     end)
  = sweep_with act (x :: l) rows.
Proof.
  intros Hnd Hid. cbn [map] in Hnd. inversion Hnd as [|? ? Hnotin Hnd']; subst.
  unfold sweep_with, update_rows. destruct (act x) as [f|] eqn:Ex.
  - rewrite map_map. apply map_ext. intros r. cbn [find].
    rewrite (Z.eqb_sym (Subscription.id x)).
    destruct (Subscription.id r =? Subscription.id x) eqn:E.
    + rewrite (Hid x f r Ex). apply Z.eqb_eq in E. rewrite E, Ex.
      now rewrite (find_key_not_in l _ Hnotin).
    + reflexivity.
  - apply map_ext. intros r. cbn [find].
    destruct (Subscription.id x =? Subscription.id r) eqn:E; [|reflexivity].
    apply Z.eqb_eq in E. rewrite <- E, Ex.
    now rewrite (find_key_not_in l _ Hnotin).
Qed.

(** A snapshot selected from a table with unique keys has unique keys. *)
Lemma snapshot_keys_unique (select : Subscription.t -> bool)
  (rows : list Subscription.t) :
  NoDup (map Subscription.id rows) ->
  NoDup (map Subscription.id (filter select rows)).
Proof.
  intros Hrows. induction rows as [|r rows IH]; cbn [filter]; [constructor|].
  cbn [map] in Hrows. apply NoDup_cons_iff in Hrows. destruct Hrows as [Hr Hrows].
  destruct (select r); [|exact (IH Hrows)].
  cbn [map]. apply NoDup_cons; [|exact (IH Hrows)].
  intros Hin. apply Hr. apply in_map_iff in Hin. destruct Hin as (x & Hx & Hin).
  apply filter_In in Hin. rewrite <- Hx. apply in_map. tauto.
Qed.

Lemma find_key_filter (p : Subscription.t -> bool) (rows : list Subscription.t)
  (r : Subscription.t) :
  NoDup (map Subscription.id rows) -> In r rows ->
  find (fun x => Subscription.id x =? Subscription.id r) (filter p rows)
  = if p r then Some r else None.
Proof.
  intros Hnd Hin.
  destruct (find _ (filter p rows)) as [x|] eqn:E.
  - apply find_some in E. destruct E as [Hx He]. apply Z.eqb_eq in He.
    apply filter_In in Hx. destruct Hx as [Hx Hp].
    assert (x = r) by (eapply NoDup_map_key; eauto). subst x. now rewrite Hp.
  - destruct (p r) eqn:Hp; [|reflexivity].
    assert (Hf : In r (filter p rows)) by (apply filter_In; tauto).
    apply (find_none _ _ E) in Hf. rewrite Z.eqb_refl in Hf. discriminate.
Qed.

Lemma sweep_with_filter act (p : Subscription.t -> bool)
  (rows : list Subscription.t) :
  NoDup (map Subscription.id rows) ->
  sweep_with act (filter p rows) rows
  = map (fun r => if p r
                  then match act r with Some f => f r | None => r end
                  else r) rows.
Proof.
  intros Hnd. unfold sweep_with. apply map_ext_in. intros r Hin.
  rewrite (find_key_filter p rows r Hnd Hin). now destruct (p r).
Qed.

Lemma enforce_grace_loop_run now grace_limit (l : list Subscription.t) :
  NoDup (map Subscription.id l) ->
  forall acc st, exists calls',
    needs_rollback calls' = needs_rollback (calls st) /\
    enforce_grace_loop now grace_limit l acc st
    = (Return (acc ++ map Subscription.id
                        (filter (acts (grace_action now grace_limit)) l)),
       mkEnv (committed st)
             (set_subscriptions
                (sweep_with (grace_action now grace_limit) l
                   (subscriptions (working st)))
                (working st))
             calls' (METRICS st)).
Proof.
  assert (Hid : forall y f r, grace_action now grace_limit y = Some f ->
                  Subscription.id (f r) = Subscription.id r).
  { intros y f r. unfold grace_action.
    destruct (Subscription.past_due_since y) as [since|]; [|discriminate].
    destruct (since >? grace_limit); [discriminate|].
    intros [= <-]. reflexivity. }
  induction l as [|x l IH]; intros Hnd acc st.
  - exists (calls st). split; [reflexivity|].
    cbn [enforce_grace_loop filter map]. unfold ret.
    rewrite sweep_with_nil, set_subscriptions_same, app_nil_r. now destruct st.
  - assert (Hnd' : NoDup (map Subscription.id l))
      by (cbn [map] in Hnd; now inversion Hnd).
    rewrite <- (sweep_with_cons _ x l _ Hnd Hid).
    destruct (grace_action now grace_limit x) as [f|] eqn:Ha;
      cbn [enforce_grace_loop filter]; unfold acts at 1; rewrite Ha;
      unfold grace_action in Ha;
      destruct (Subscription.past_due_since x) as [since|];
      try destruct (since >? grace_limit); try discriminate;
      try apply (IH Hnd' acc st).
    injection Ha as <-. run_session.
    match goal with
    | |- context [enforce_grace_loop _ _ _ ?acc' ?st'] =>
        destruct (IH Hnd' acc' st') as (calls' & Hn & Hl)
    end.
    rewrite Hl. exists calls'. cbn [map committed working METRICS calls] in *.
    rewrite needs_rollback_snoc in Hn. split; [exact Hn|].
    rewrite <- app_assoc. reflexivity.
Qed.

Lemma expire_loop_run now (l : list Subscription.t) :
  NoDup (map Subscription.id l) ->
  forall expired_ids canceled_ids st, exists calls',
    needs_rollback calls' = needs_rollback (calls st) /\
    expire_loop now l expired_ids canceled_ids st
    = (Return
         (expired_ids
          ++ map Subscription.id
               (filter (fun x => negb (Subscription.cancel_at_period_end x)) l),
          canceled_ids
          ++ map Subscription.id (filter Subscription.cancel_at_period_end l)),
       mkEnv (committed st)
             (set_subscriptions
                (sweep_with (expire_action now) l (subscriptions (working st)))
                (working st))
             calls' (METRICS st)).
Proof.
  assert (Hid : forall y f r, expire_action now y = Some f ->
                  Subscription.id (f r) = Subscription.id r).
  { intros y f r. unfold expire_action.
    destruct (Subscription.cancel_at_period_end y); intros [= <-]; reflexivity. }
  induction l as [|x l IH]; intros Hnd e c st.
  - exists (calls st). split; [reflexivity|].
    cbn [expire_loop filter map]. unfold ret.
    rewrite sweep_with_nil, set_subscriptions_same, !app_nil_r. now destruct st.
  - assert (Hnd' : NoDup (map Subscription.id l))
      by (cbn [map] in Hnd; now inversion Hnd).
    rewrite <- (sweep_with_cons _ x l _ Hnd Hid).
    assert (Ha : expire_action now x
                 = Some (if Subscription.cancel_at_period_end x
                         then cancel_row now else expire_row now))
      by reflexivity.
    rewrite Ha. cbn [expire_loop filter].
    destruct (Subscription.cancel_at_period_end x); cbn [negb]; run_session;
      match goal with
      | |- context [expire_loop _ _ ?e' ?c' ?st'] =>
          destruct (IH Hnd' e' c' st') as (calls' & Hn & Hl)
      end;
      rewrite Hl; exists calls'; cbn [map committed working METRICS calls] in *;
      rewrite needs_rollback_snoc in Hn; (split; [exact Hn|]);
      rewrite <- app_assoc; reflexivity.
Qed.



Lemma filter_andb {A} (p q : A -> bool) (l : list A) :
  filter q (filter p l) = filter (fun x => p x && q x) l.
Proof.
  induction l as [|a l IH]; cbn [filter]; [reflexivity|].
  destruct (p a); cbn [filter andb]; [destruct (q a)|]; now rewrite IH.
Qed.

Lemma grace_run now (a : App) :
  unique_subscription_ids (db a) ->
  with_session (enforce_grace_period now) a
  = (Return (map Subscription.id (filter (grace_due now) (subscriptions (db a)))),
     mkApp (set_subscriptions
              (map (fun r => if grace_due now r then cancel_row now r else r)
                 (subscriptions (db a)))
              (db a))
           (metrics a)).
Proof.
  intros Hu.
  assert (Hrun : exists calls',
             enforce_grace_period now (open_session a)
             = (Return (map Subscription.id
                          (filter (grace_due now) (subscriptions (db a)))),
                let s := set_subscriptions
                           (map (fun r => if grace_due now r
                                          then cancel_row now r else r)
                              (subscriptions (db a)))
                           (db a) in
                mkEnv s s calls' (metrics a))).
  { unfold enforce_grace_period. cbv zeta.
    erewrite bind_return; [|reflexivity].
    match goal with
    | |- context [bind (enforce_grace_loop ?n ?g ?l ?acc) _ ?st] =>
        destruct (enforce_grace_loop_run n g l (snapshot_keys_unique _ _ Hu) acc st)
          as (calls' & Hn & Hl)
    end.
    erewrite bind_return; [|exact Hl].
    erewrite bind_return;
      [|apply session_commit_returns;
        [exact Hn|apply flushable_no_payment; reflexivity]].
    exists (calls' ++ [CallCommit]). run_session. cbn [app].
    rewrite filter_andb, (sweep_with_filter _ _ _ Hu).
    assert (Hrows : forall r : Subscription.t,
               (if SubscriptionStatus_eqb (Subscription.status r) past_due
                then match grace_action now (now - timedelta_days 1) r with
                     | Some f => f r
                     | None => r
                     end
                else r)
               = if grace_due now r then cancel_row now r else r).
    { intros r. unfold grace_due, grace_action.
      destruct (SubscriptionStatus_eqb (Subscription.status r) past_due);
        cbn [andb]; [|reflexivity].
      destruct (Subscription.past_due_since r) as [since|]; [|reflexivity].
      now destruct (since >? now - timedelta_days 1). }
    rewrite (map_ext _ _ Hrows).
    assert (Hsel : forall r : Subscription.t,
               SubscriptionStatus_eqb (Subscription.status r) past_due
               && acts (grace_action now (now - timedelta_days 1)) r
               = grace_due now r).
    { intros r. unfold grace_due, acts, grace_action. f_equal.
      destruct (Subscription.past_due_since r) as [since|]; [|reflexivity].
      now destruct (since >? now - timedelta_days 1). }
    rewrite (filter_ext _ _ Hsel). reflexivity. }
  destruct Hrun as [calls' Hrun]. unfold with_session. rewrite Hrun.
  reflexivity.
Qed.

Lemma expire_run now (a : App) :
  unique_subscription_ids (db a) ->
  with_session (expire_subscriptions now) a
  = (Return
       (map Subscription.id
          (filter (fun r => period_ended now r
                            && negb (Subscription.cancel_at_period_end r))
             (subscriptions (db a))),
        map Subscription.id
          (filter (fun r => period_ended now r
                            && Subscription.cancel_at_period_end r)
             (subscriptions (db a)))),
     mkApp (set_subscriptions
              (map (fun r => if period_ended now r then end_row now r else r)
                 (subscriptions (db a)))
              (db a))
           (metrics a)).
Proof.
  intros Hu.
  assert (Hrun : exists calls',
             expire_subscriptions now (open_session a)
             = (Return
                  (map Subscription.id
                     (filter (fun r => period_ended now r
                                       && negb (Subscription.cancel_at_period_end r))
                        (subscriptions (db a))),
                   map Subscription.id
                     (filter (fun r => period_ended now r
                                       && Subscription.cancel_at_period_end r)
                        (subscriptions (db a)))),
                let s := set_subscriptions
                           (map (fun r => if period_ended now r
                                          then end_row now r else r)
                              (subscriptions (db a)))
                           (db a) in
                mkEnv s s calls' (metrics a))).
  { unfold expire_subscriptions.
    erewrite bind_return; [|reflexivity].
    match goal with
    | |- context [bind (expire_loop ?n ?l ?e ?c) _ ?st] =>
        destruct (expire_loop_run n l (snapshot_keys_unique _ _ Hu) e c st)
          as (calls' & Hn & Hl)
    end.
    erewrite bind_return; [|exact Hl].
    erewrite bind_return;
      [|apply session_commit_returns;
        [exact Hn|apply flushable_no_payment; reflexivity]].
    exists (calls' ++ [CallCommit]). run_session. cbn [app].
    rewrite !filter_andb, (sweep_with_filter _ _ _ Hu).
    assert (Hrows : forall r : Subscription.t,
               (if SubscriptionStatus_eqb (Subscription.status r) active
                   && (Subscription.current_period_end r <=? now)
                then match expire_action now r with
                     | Some f => f r
                     | None => r
                     end
                else r)
               = if period_ended now r then end_row now r else r).
    { intros r. unfold period_ended, end_row, expire_action.
      destruct (SubscriptionStatus_eqb (Subscription.status r) active
                && (Subscription.current_period_end r <=? now)); [|reflexivity].
      now destruct (Subscription.cancel_at_period_end r). }
    rewrite (map_ext _ _ Hrows). reflexivity. }
  destruct Hrun as [calls' Hrun]. unfold with_session. rewrite Hrun.
  reflexivity.
Qed.

Lemma reachable_unique_subscription_ids (L : Libs) (ops : list Op) :
  unique_subscription_ids (db (run_ops L ops initial)).
Proof. apply (run_ops_period_end L ops initial). constructor. Qed.

Lemma run_ops_snoc (L : Libs) (ops : list Op) (op : Op) (a : App) :
  run_ops L (ops ++ [op]) a = exec L op (run_ops L ops a).
Proof. unfold run_ops. now rewrite fold_left_app. Qed.

Lemma App_eta (a : App) : mkApp (db a) (metrics a) = a.
Proof. now destruct a. Qed.

Lemma filter_none {A} (p : A -> bool) (l : list A) :
  (forall x, In x l -> p x = false) -> filter p l = [].
Proof.
  induction l as [|a l IH]; cbn [filter]; intros H; [reflexivity|].
  rewrite (H a (or_introl eq_refl)). apply IH. intros x Hx. apply H. now right.
Qed.

Lemma map_unselected {A} (p : A -> bool) (f : A -> A) (l : list A) :
  (forall x, In x l -> p x = false) ->
  map (fun r => if p r then f r else r) l = l.
Proof.
  intros H. rewrite <- (map_id l) at 2. apply map_ext_in.
  intros x Hx. now rewrite (H x Hx).
Qed.

(** X13.  In a reachable state the grace sweep cancels exactly the
    subscriptions that are past due with a [past_due_since] of one day or
    more before the clock reading: each gets status canceled, [canceled_at]
    and [updated_at] set to the clock reading and [access_revoked] set; their
    keys are returned in table order; every other row, every other table and
    the counters are as before.  The canceled row is the old one with
    exactly those four columns assigned. *)
Theorem grace_sweep_cancels_overdue (L : Libs) (ops : list Op) (now : datetime) :
  let a := run_ops L ops initial in
  with_session (enforce_grace_period now) a
  = (Return (map Subscription.id (filter (grace_due now) (subscriptions (db a)))),
     mkApp (set_subscriptions
              (map (fun r => if grace_due now r then cancel_row now r else r)
                 (subscriptions (db a)))
              (db a))
           (metrics a)) /\
  (forall r,
      cancel_row now r
      = Subscription.mk (Subscription.id r) (Subscription.customer_id r)
          (Subscription.plan_id r) canceled (Subscription.current_period_end r)
          (Subscription.cancel_at_period_end r) (Subscription.past_due_since r)
          (Some now) (Subscription.expired_at r)
          (Subscription.provider_subscription_id r) true
          (Subscription.created_at r) now) /\
  (forall r,
      In r (subscriptions (db a)) -> grace_due now r = true ->
      exists r',
        In r' (subscriptions
                 (db (snd (with_session (enforce_grace_period now) a)))) /\
        Subscription.id r' = Subscription.id r /\
        Subscription.status r' = canceled /\
        Subscription.canceled_at r' = Some now /\
        Subscription.access_revoked r' = true /\
        Subscription.updated_at r' = now).
Proof.
  intros a.
  pose proof (grace_run now a (reachable_unique_subscription_ids L ops)) as Hrun.
  split; [exact Hrun|]. split; [intros r; reflexivity|].
  intros r Hin Hdue. exists (cancel_row now r). rewrite Hrun.
  cbn [snd db subscriptions set_subscriptions].
  split; [|repeat split].
  apply in_map_iff. exists r. now rewrite Hdue.
Qed.

(** The subscription of the scenarios, past due since second 30, at the
    sweep two days later. *)
Lemma grace_sweep_cancels_witness :
  let now := timedelta_seconds 30 + timedelta_days 2 in
  let a := run_ops demo_libs past_due_ops initial in
  In demo_past_due_subscription (subscriptions (db a)) /\
  grace_due now demo_past_due_subscription = true /\
  exists r',
    In r' (subscriptions
             (db (snd (with_session (enforce_grace_period now) a)))) /\
    Subscription.id r' = Subscription.id demo_past_due_subscription /\
    Subscription.status r' = canceled /\
    Subscription.canceled_at r' = Some now /\
    Subscription.access_revoked r' = true /\
    Subscription.updated_at r' = now.
Proof.
  intros now a.
  assert (Hin : In demo_past_due_subscription (subscriptions (db a)))
    by (vm_compute; left; reflexivity).
  assert (Hdue : grace_due now demo_past_due_subscription = true)
    by (vm_compute; reflexivity).
  split; [exact Hin|]. split; [exact Hdue|].
  pose proof (grace_sweep_cancels_overdue demo_libs past_due_ops now) as H.
  cbv zeta in H. destruct H as (_ & _ & H3).
  exact (H3 demo_past_due_subscription Hin Hdue).
Defined.

Lemma grace_due_after now now' (r : Subscription.t) :
  now' <= now ->
  grace_due now' (if grace_due now r then cancel_row now r else r) = false.
Proof.
  intros Hle. destruct (grace_due now r) eqn:Hd; [reflexivity|].
  unfold grace_due in *.
  destruct (SubscriptionStatus_eqb (Subscription.status r) past_due);
    cbn [andb] in *; [|reflexivity].
  destruct (Subscription.past_due_since r) as [since|]; [|reflexivity].
  apply Bool.negb_false_iff in Hd. apply Bool.negb_false_iff.
  apply Z.gtb_lt in Hd. apply Z.gtb_lt. lia.
Qed.

(** X14.  A grace sweep that follows a grace sweep, at the same clock
    reading or an earlier one, cancels nothing and leaves the application as
    it is. *)
Theorem grace_sweep_is_idempotent (L : Libs) (ops : list Op)
  (now now' : datetime) :
  now' <= now ->
  let a := exec L (OpEnforceGrace now) (run_ops L ops initial) in
  with_session (enforce_grace_period now') a = (Return [], a).
Proof.
  intros Hle a.
  assert (Hu : unique_subscription_ids (db a)).
  { subst a. rewrite <- run_ops_snoc. apply reachable_unique_subscription_ids. }
  rewrite (grace_run now' a Hu).
  assert (Hnone : forall r, In r (subscriptions (db a)) -> grace_due now' r = false).
  { intros r Hin. subst a. cbn [exec discard] in Hin.
    rewrite (grace_run now _ (reachable_unique_subscription_ids L ops)) in Hin.
    cbn [snd db subscriptions set_subscriptions] in Hin.
    apply in_map_iff in Hin. destruct Hin as (r0 & <- & _).
    now apply grace_due_after. }
  rewrite (filter_none _ _ Hnone), (map_unselected _ _ _ Hnone).
  rewrite set_subscriptions_same, App_eta. reflexivity.
Qed.

Lemma grace_sweep_idempotent_witness :
  let a := exec demo_libs (OpEnforceGrace (timedelta_seconds 30 + timedelta_days 2))
             (run_ops demo_libs
                (paid_ops
                 ++ [demo_deliver 30 "evt_fail_200" "invoice.payment_failed"
                       "body_fail_200"]) initial) in
  timedelta_seconds 30 + timedelta_days 2 <= timedelta_seconds 30 + timedelta_days 2 /\
  with_session (enforce_grace_period (timedelta_seconds 30 + timedelta_days 2)) a
  = (Return [], a).
Proof.
  intros a.
  assert (Hle : timedelta_seconds 30 + timedelta_days 2
                <= timedelta_seconds 30 + timedelta_days 2) by (vm_compute; discriminate).
  split; [exact Hle|].
  exact (grace_sweep_is_idempotent demo_libs _ _ _ Hle).
Defined.

(** X15.  In a reachable state the expiry sweep ends exactly the active
    subscriptions whose period end is not later than the clock reading: one
    flagged [cancel_at_period_end] becomes canceled with [canceled_at] set
    and [access_revoked] set, any other becomes expired with [expired_at]
    set; the keys of the expired and of the canceled rows are returned in
    table order; every other row, every other table and the counters are as
    before. *)
Theorem expiry_sweep_ends_lapsed_periods (L : Libs) (ops : list Op)
  (now : datetime) :
  let a := run_ops L ops initial in
  with_session (expire_subscriptions now) a
  = (Return
       (map Subscription.id
          (filter (fun r => period_ended now r
                            && negb (Subscription.cancel_at_period_end r))
             (subscriptions (db a))),
        map Subscription.id
          (filter (fun r => period_ended now r
                            && Subscription.cancel_at_period_end r)
             (subscriptions (db a)))),
     mkApp (set_subscriptions
              (map (fun r => if period_ended now r then end_row now r else r)
                 (subscriptions (db a)))
              (db a))
           (metrics a)) /\
  (forall r,
      end_row now r
      = if Subscription.cancel_at_period_end r
        then Subscription.mk (Subscription.id r) (Subscription.customer_id r)
               (Subscription.plan_id r) canceled
               (Subscription.current_period_end r) true
               (Subscription.past_due_since r) (Some now)
               (Subscription.expired_at r)
               (Subscription.provider_subscription_id r) true
               (Subscription.created_at r) now
        else Subscription.mk (Subscription.id r) (Subscription.customer_id r)
               (Subscription.plan_id r) expired
               (Subscription.current_period_end r) false
               (Subscription.past_due_since r) (Subscription.canceled_at r)
               (Some now) (Subscription.provider_subscription_id r)
               (Subscription.access_revoked r)
               (Subscription.created_at r) now) /\
  (forall r,
      In r (subscriptions (db a)) -> period_ended now r = true ->
      exists r',
        In r' (subscriptions
                 (db (snd (with_session (expire_subscriptions now) a)))) /\
        Subscription.id r' = Subscription.id r /\
        Subscription.updated_at r' = now /\
        if Subscription.cancel_at_period_end r
        then Subscription.status r' = canceled /\
             Subscription.canceled_at r' = Some now /\
             Subscription.access_revoked r' = true
        else Subscription.status r' = expired /\
             Subscription.expired_at r' = Some now).
Proof.
  intros a.
  pose proof (expire_run now a (reachable_unique_subscription_ids L ops)) as Hrun.
  split; [exact Hrun|]. split.
  { intros [i c p st pe flag pds ca ea psid ar cr up]. unfold end_row.
    cbn [Subscription.cancel_at_period_end]. destruct flag; reflexivity. }
  intros r Hin Hdue. exists (end_row now r). rewrite Hrun.
  cbn [snd db subscriptions set_subscriptions].
  split; [apply in_map_iff; exists r; now rewrite Hdue|].
  unfold end_row. destruct (Subscription.cancel_at_period_end r);
    repeat split.
Qed.

(** The paid subscription of the scenarios, whose period ends at second 200,
    at the sweep of second 300. *)
Lemma expiry_sweep_ends_witness :
  let now := timedelta_seconds 300 in
  let a := run_ops demo_libs paid_ops initial in
  In demo_active_subscription (subscriptions (db a)) /\
  period_ended now demo_active_subscription = true /\
  exists r',
    In r' (subscriptions
             (db (snd (with_session (expire_subscriptions now) a)))) /\
    Subscription.id r' = Subscription.id demo_active_subscription /\
    Subscription.updated_at r' = now /\
    Subscription.status r' = expired /\
    Subscription.expired_at r' = Some now.
Proof.
  intros now a.
  assert (Hin : In demo_active_subscription (subscriptions (db a)))
    by (vm_compute; left; reflexivity).
  assert (Hdue : period_ended now demo_active_subscription = true)
    by (vm_compute; reflexivity).
  split; [exact Hin|]. split; [exact Hdue|].
  pose proof (expiry_sweep_ends_lapsed_periods demo_libs paid_ops now) as H.
  cbv zeta in H. destruct H as (_ & _ & H3).
  destruct (H3 demo_active_subscription Hin Hdue) as (r' & H1 & H2 & H4 & H5).
  exists r'. split; [exact H1|]. split; [exact H2|]. split; [exact H4|].
  exact H5.
Defined.

Lemma period_ended_after now now' (r : Subscription.t) :
  period_ended now' (if period_ended now r then end_row now r else r) = true ->
  now < now'.
Proof.
  destruct (period_ended now r) eqn:Hd.
  - unfold end_row, period_ended.
    destruct (Subscription.cancel_at_period_end r); discriminate.
  - unfold period_ended in *.
    destruct (SubscriptionStatus_eqb (Subscription.status r) active);
      cbn [andb] in *; [|discriminate].
    intros H. apply Z.leb_le in H. apply Z.leb_gt in Hd. lia.
Qed.

(** X16.  After an expiry sweep a subscription is selected by another expiry
    sweep only at a later clock reading: at the same reading or an earlier
    one the sweep returns two empty lists and leaves the application as it
    is. *)
Theorem expiry_sweep_is_idempotent (L : Libs) (ops : list Op)
  (now now' : datetime) :
  now' <= now ->
  let a := exec L (OpExpireSubscriptions now) (run_ops L ops initial) in
  with_session (expire_subscriptions now') a = (Return ([], []), a).
Proof.
  intros Hle a.
  assert (Hu : unique_subscription_ids (db a)).
  { subst a. rewrite <- run_ops_snoc. apply reachable_unique_subscription_ids. }
  rewrite (expire_run now' a Hu).
  assert (Hnone : forall r, In r (subscriptions (db a)) ->
                    period_ended now' r = false).
  { intros r Hin. subst a. cbn [exec discard] in Hin.
    rewrite (expire_run now _ (reachable_unique_subscription_ids L ops)) in Hin.
    cbn [snd db subscriptions set_subscriptions] in Hin.
    apply in_map_iff in Hin. destruct Hin as (r0 & <- & _).
    apply Bool.not_true_iff_false. intros H.
    apply period_ended_after in H. lia. }
  rewrite !filter_none, (map_unselected _ _ _ Hnone);
    try (intros x Hx; rewrite (Hnone x Hx); reflexivity).
  rewrite set_subscriptions_same, App_eta. reflexivity.
Qed.

Lemma expiry_sweep_idempotent_witness :
  let a := exec demo_libs (OpExpireSubscriptions (timedelta_seconds 300))
             (run_ops demo_libs paid_ops initial) in
  timedelta_seconds 300 <= timedelta_seconds 300 /\
  with_session (expire_subscriptions (timedelta_seconds 300)) a
  = (Return ([], []), a).
Proof.
  intros a.
  assert (Hle : timedelta_seconds 300 <= timedelta_seconds 300)
    by (vm_compute; discriminate).
  split; [exact Hle|].
  exact (expiry_sweep_is_idempotent demo_libs _ _ _ Hle).
Defined.

(** ** Final statuses *)

Lemma find_update_rows (rows : list Subscription.t) (i : Z)
  (f : Subscription.t -> Subscription.t) (sub : Subscription.t) :
  (forall r, Subscription.id (f r) = Subscription.id r) ->
  find (fun r => Subscription.id r =? i) rows = Some sub ->
  find (fun r => Subscription.id r =? Subscription.id sub)
       (update_rows Subscription.id (Subscription.id sub) f rows)
  = Some (f sub).
Proof.
  intros Hid Hf.
  assert (Hi : Subscription.id sub = i).
  { apply find_some in Hf. now apply Z.eqb_eq. }
  rewrite Hi. clear Hi. unfold update_rows.
  induction rows as [|r rows IH]; cbn [find map] in *; [discriminate|].
  destruct (Subscription.id r =? i) eqn:E.
  - injection Hf as ->. cbn [find]. now rewrite Hid, E.
  - cbn [find]. rewrite E. now apply IH.
Qed.

Lemma cancel_flag_run now id flag (a : App) :
  with_session (set_subscription_cancel_at_period_end now id flag) a
  = if negb (sqlite_integer id) then (Raise OverflowError, a)
    else
      match find (fun r => Subscription.id r =? id) (subscriptions (db a)) with
      | None =>
          (Raise (NotFoundError
                    (String.append "Subscription '"
                       (String.append (str_int id) "' not found"))), a)
      | Some sub =>
          (Return (flag_row now flag sub),
           mkApp (set_subscriptions
                    (update_rows Subscription.id (Subscription.id sub)
                       (flag_row now flag) (subscriptions (db a)))
                    (db a))
                 (metrics a))
      end.
Proof.
  unfold with_session, set_subscription_cancel_at_period_end.
  destruct (negb (sqlite_integer id)).
  { erewrite bind_raise; [|reflexivity].
    cbn [fst snd committed METRICS open_session]. now rewrite App_eta. }
  erewrite bind_return; [|reflexivity]. cbn [working open_session].
  destruct (find _ (subscriptions (db a))) as [sub|] eqn:Hf.
  - run_session.
    rewrite session_commit_returns;
      [|reflexivity|apply flushable_no_payment; reflexivity].
    run_session. cbn [fst snd]. store_simpl.
    rewrite (find_update_rows _ id (flag_row now flag) sub (fun r => eq_refl) Hf).
    reflexivity.
  - unfold raise. cbn [fst snd committed METRICS open_session]. now rewrite App_eta.
Qed.

Lemma status_kept_map (before s : Store) (g : Subscription.t -> Subscription.t) :
  (forall r, Subscription.id (g r) = Subscription.id r) ->
  (forall r, terminal r = true ->
             Subscription.status (g r) = Subscription.status r) ->
  final_status_invariant before s ->
  final_status_invariant before
    (set_subscriptions (map g (subscriptions s)) s).
Proof.
  intros Hid Hst [Hu Hk]. split.
  - unfold unique_subscription_ids in *. cbn [subscriptions set_subscriptions].
    rewrite map_map. erewrite map_ext; [exact Hu|]. intros r. apply Hid.
  - intros r Hin Ht. destruct (Hk r Hin Ht) as (r' & Hin' & Hid' & Hs').
    exists (g r'). cbn [subscriptions set_subscriptions].
    split; [now apply in_map|]. split; [now rewrite Hid|].
    rewrite Hst; [exact Hs'|]. unfold terminal in *. now rewrite Hs'.
Qed.

Lemma status_kept_update (before s : Store) (i : Z)
  (f : Subscription.t -> Subscription.t) :
  (forall r, Subscription.id (f r) = Subscription.id r) ->
  (forall r, terminal r = true ->
             Subscription.status (f r) = Subscription.status r) ->
  final_status_invariant before s ->
  final_status_invariant before
    (set_subscriptions (update_rows Subscription.id i f (subscriptions s)) s).
Proof.
  intros Hid Hst. unfold update_rows. apply status_kept_map.
  - intros r. destruct (Subscription.id r =? i); auto.
  - intros r Hr. destruct (Subscription.id r =? i); auto.
Qed.

Lemma kind_apply_terminal k now pe (r : Subscription.t) :
  terminal r = true ->
  Subscription.status (kind_apply k now pe r) = Subscription.status r.
Proof.
  unfold terminal. destruct k;
    unfold kind_apply, apply_payment_succeeded, apply_invoice_payment_failed;
    destruct (Subscription.status r) eqn:E; cbn; intros H;
    try discriminate; try rewrite E; reflexivity.
Qed.

Lemma final_status_step (L : Libs) (before : Store) (op : Op) (a : App) :
  final_status_invariant before (db a) ->
  final_status_invariant before (db (exec L op a)).
Proof.
  intros H.
  assert (Hs : both (final_status_invariant before) (open_session a))
    by (split; exact H).
  assert (Hev : forall s id (f : WebhookEvent.t -> WebhookEvent.t),
             event_mutation f -> final_status_invariant before s ->
             final_status_invariant before
               (set_webhook_events
                  (update_rows WebhookEvent.id id f (webhook_events s)) s))
    by (intros; assumption).
  assert (Hcl : forall s id (f : WebhookEvent.t -> WebhookEvent.t),
             event_clearing f -> settled id (webhook_events s) ->
             final_status_invariant before s ->
             final_status_invariant before
               (set_webhook_events
                  (update_rows WebhookEvent.id id f (webhook_events s)) s))
    by (intros; assumption).
  assert (Hin : forall s now provider webhook verified,
             final_status_invariant before s ->
             final_status_invariant before
               (set_webhook_events
                  (webhook_events s
                   ++ [received_row now provider webhook verified
                         (next_id (map WebhookEvent.id (webhook_events s)))]) s))
    by (intros; assumption).
  assert (Hpay : forall s (row : Payment.t),
             final_status_invariant before s ->
             final_status_invariant before (set_payments (payments s ++ [row]) s))
    by (intros; assumption).
  assert (Hset : forall s k now pe sub,
             In sub (subscriptions s) ->
             Subscription.current_period_end sub <= pe ->
             final_status_invariant before s ->
             final_status_invariant before
               (set_subscriptions
                  (update_rows Subscription.id (Subscription.id sub)
                     (kind_apply k now pe) (subscriptions s)) s)).
  { intros s k now pe sub _ _. apply status_kept_update.
    - intros r. apply kind_apply_id.
    - intros r. apply kind_apply_terminal. }
  destruct op; cbn [exec discard].
  - refine (proj2 (preserves_create_subscription (final_status_invariant before)
                     _ _ _ _ _ _ _ (open_session a) Hs));
      try (intros; assumption).
    intros s now0 customer_id plan_id psid [Hu Hk]. split.
    + unfold unique_subscription_ids in *. cbn [subscriptions set_subscriptions].
      rewrite map_app. cbn [map pending_row Subscription.id].
      apply NoDup_app; [exact Hu|repeat constructor; cbn; tauto|].
      intros i Hi [<-|[]]. apply next_id_fresh in Hi. lia.
    + intros r Hr Ht. destruct (Hk r Hr Ht) as (r' & Hr' & Hrest).
      exists r'. split; [|exact Hrest]. cbn. apply in_or_app. now left.
  - exact (proj2 (preserves_process_webhook L (final_status_invariant before)
                    Hev Hcl Hin Hpay Hset _ _ _ _ (open_session a) Hs)).
  - rewrite (grace_run _ _ (proj1 H)). cbn [snd db].
    apply status_kept_map; [| |exact H]; intros r.
    + now destruct (grace_due now r).
    + intros Ht. destruct (grace_due now r) eqn:Hd; [|reflexivity].
      unfold grace_due, terminal in *.
      destruct (Subscription.status r); discriminate.
  - rewrite (expire_run _ _ (proj1 H)). cbn [snd db].
    apply status_kept_map; [| |exact H]; intros r.
    + unfold end_row. destruct (period_ended now r); [|reflexivity].
      now destruct (Subscription.cancel_at_period_end r).
    + intros Ht. destruct (period_ended now r) eqn:Hd; [|reflexivity].
      unfold period_ended, terminal in *.
      destruct (Subscription.status r); discriminate.
  - exact (proj2 (preserves_retry_failed_webhooks L
                    (final_status_invariant before)
                    Hev Hcl Hpay Hset _ _ (open_session a) Hs)).
  - exact (proj2 (preserves_reprocess_webhook_event L
                    (final_status_invariant before)
                    Hev Hcl Hpay Hset _ _ (open_session a) Hs)).
  - rewrite cancel_flag_run.
    destruct (negb _); [exact H|].
    destruct (find _ (subscriptions (db a))); cbn [snd db]; [|exact H].
    apply status_kept_update; [| |exact H]; intros r; reflexivity.
Qed.

Lemma run_ops_app (L : Libs) (ops ops' : list Op) (a : App) :
  run_ops L (ops ++ ops') a = run_ops L ops' (run_ops L ops a).
Proof. unfold run_ops. now rewrite fold_left_app. Qed.

(** X17.  A subscription that is canceled or expired in a reachable state
    keeps that status under every later sequence of requests: its key still
    names one row, and that row is in the same status.  No handler, sweep or
    endpoint reactivates a subscription or turns one final status into the
    other. *)
Theorem final_statuses_are_kept (L : Libs) (ops ops' : list Op)
  (s : Subscription.t) :
  In s (subscriptions (db (run_ops L ops initial))) ->
  terminal s = true ->
  exists s',
    In s' (subscriptions (db (run_ops L (ops ++ ops') initial))) /\
    Subscription.id s' = Subscription.id s /\
    Subscription.status s' = Subscription.status s /\
    forall s'', In s'' (subscriptions (db (run_ops L (ops ++ ops') initial))) ->
                Subscription.id s'' = Subscription.id s -> s'' = s'.
Proof.
  intros Hin Ht. rewrite run_ops_app.
  set (before := db (run_ops L ops initial)).
  assert (Hrun : forall l a, final_status_invariant before (db a) ->
                   final_status_invariant before (db (run_ops L l a))).
  { unfold run_ops. induction l as [|op l IH]; intros a H; cbn [fold_left];
      [exact H|]. apply IH. now apply final_status_step. }
  destruct (Hrun ops' (run_ops L ops initial)) as [Hu Hk].
  { split; [apply reachable_unique_subscription_ids|].
    intros r Hr _. exists r. auto. }
  destruct (Hk s Hin Ht) as (s' & Hin' & Hid & Hst).
  exists s'. repeat split; auto.
  intros s'' Hin'' Hid''. eapply NoDup_map_key; eauto. congruence.
Qed.

(** The canceled subscription of the scenarios, across the late payment. *)
Lemma final_statuses_witness :
  In demo_canceled_subscription
     (subscriptions (db (run_ops demo_libs canceled_ops initial))) /\
  terminal demo_canceled_subscription = true /\
  exists s',
    In s' (subscriptions
             (db (run_ops demo_libs (canceled_ops ++ [late_payment]) initial))) /\
    Subscription.status s' = canceled.
Proof.
  assert (Hin : In demo_canceled_subscription
                   (subscriptions (db (run_ops demo_libs canceled_ops initial))))
    by (vm_compute; left; reflexivity).
  assert (Ht : terminal demo_canceled_subscription = true)
    by (vm_compute; reflexivity).
  split; [exact Hin|]. split; [exact Ht|].
  destruct (final_statuses_are_kept demo_libs canceled_ops [late_payment]
              demo_canceled_subscription Hin Ht) as (s' & H1 & _ & H3 & _).
  exists s'. split; [exact H1|exact H3].
Defined.

(** ** The cancel-at-period-end flag and the expiry sweep *)

Lemma find_key_unique (rows : list Subscription.t) (sub : Subscription.t) :
  NoDup (map Subscription.id rows) -> In sub rows ->
  find (fun r => Subscription.id r =? Subscription.id sub) rows = Some sub.
Proof.
  intros Hnd Hin.
  destruct (find _ rows) as [x|] eqn:E.
  - apply find_some in E. destruct E as [Hx He]. apply Z.eqb_eq in He.
    f_equal. eapply NoDup_map_key; eauto.
  - apply (find_none _ _ E) in Hin. rewrite Z.eqb_refl in Hin. discriminate.
Qed.

(** X18.  Setting the cancel-at-period-end flag of an active subscription
    decides how the next expiry sweep at or after its period end finishes
    it: with the flag set the subscription is canceled, with access revoked,
    and its key is reported among the canceled ones only; with the flag
    cleared it is expired, and its key is reported among the expired ones
    only. *)
Theorem cancel_flag_decides_the_ending (L : Libs) (ops : list Op)
  (now1 now2 : datetime) (flag : bool) (sub : Subscription.t) :
  In sub (subscriptions (db (run_ops L ops initial))) ->
  sqlite_integer (Subscription.id sub) = true ->
  Subscription.status sub = active ->
  Subscription.current_period_end sub <= now2 ->
  let a1 := exec L (OpCancelAtPeriodEnd now1 (Subscription.id sub) flag)
              (run_ops L ops initial) in
  let r := with_session (expire_subscriptions now2) a1 in
  exists expired_ids canceled_ids,
    fst r = Return (expired_ids, canceled_ids) /\
    In (Subscription.mk (Subscription.id sub) (Subscription.customer_id sub)
          (Subscription.plan_id sub) (if flag then canceled else expired)
          (Subscription.current_period_end sub) flag
          (Subscription.past_due_since sub)
          (if flag then Some now2 else Subscription.canceled_at sub)
          (if flag then Subscription.expired_at sub else Some now2)
          (Subscription.provider_subscription_id sub)
          (if flag then true else Subscription.access_revoked sub)
          (Subscription.created_at sub) now2)
       (subscriptions (db (snd r))) /\
    (In (Subscription.id sub) canceled_ids <-> flag = true) /\
    (In (Subscription.id sub) expired_ids <-> flag = false).
Proof.
  intros Hin Hid Hst Hpe a1 r.
  pose proof (reachable_unique_subscription_ids L ops) as Hu.
  assert (Hu1 : unique_subscription_ids (db a1)).
  { subst a1. rewrite <- run_ops_snoc. apply reachable_unique_subscription_ids. }
  set (sub1 := flag_row now1 flag sub).
  assert (Hin1 : In sub1 (subscriptions (db a1))).
  { subst a1. cbn [exec discard]. rewrite cancel_flag_run, Hid. cbn [negb].
    rewrite (find_key_unique _ sub Hu Hin). cbn [snd db subscriptions set_subscriptions].
    unfold update_rows. apply in_map_iff. exists sub.
    now rewrite Z.eqb_refl. }
  assert (Hended : period_ended now2 sub1 = true).
  { unfold period_ended, sub1. cbn. rewrite Hst. cbn.
    now apply Z.leb_le. }
  assert (Hone : forall x, In x (subscriptions (db a1)) ->
                   Subscription.id x = Subscription.id sub -> x = sub1).
  { intros x Hx Hx1. eapply NoDup_map_key; eauto. }
  subst r. rewrite (expire_run now2 a1 Hu1). cbn [fst snd db subscriptions set_subscriptions].
  eexists _, _. split; [reflexivity|]. split; [|split].
  - apply in_map_iff. exists sub1. split; [|exact Hin1].
    rewrite Hended. unfold end_row, sub1. now destruct flag.
  - split.
    + intros Hc. apply in_map_iff in Hc. destruct Hc as (x & Hx1 & Hx).
      apply filter_In in Hx. destruct Hx as [Hx Hp].
      rewrite (Hone x Hx Hx1) in Hp. apply andb_prop in Hp. exact (proj2 Hp).
    + intros ->. apply in_map_iff. exists sub1. split; [reflexivity|].
      apply filter_In. split; [exact Hin1|]. now rewrite Hended.
  - split.
    + intros Hc. apply in_map_iff in Hc. destruct Hc as (x & Hx1 & Hx).
      apply filter_In in Hx. destruct Hx as [Hx Hp].
      rewrite (Hone x Hx Hx1) in Hp. apply andb_prop in Hp.
      destruct Hp as [_ Hp]. unfold sub1 in Hp. cbn in Hp.
      now destruct flag.
    + intros ->. apply in_map_iff. exists sub1. split; [reflexivity|].
      apply filter_In. split; [exact Hin1|]. now rewrite Hended.
Qed.

(** The paid subscription of the scenarios, flagged at second 30 and swept at
    second 300. *)
Lemma cancel_flag_witness :
  In demo_active_subscription
     (subscriptions (db (run_ops demo_libs paid_ops initial))) /\
  sqlite_integer (Subscription.id demo_active_subscription) = true /\
  Subscription.status demo_active_subscription = active /\
  Subscription.current_period_end demo_active_subscription
  <= timedelta_seconds 300 /\
  let a1 := exec demo_libs
              (OpCancelAtPeriodEnd (timedelta_seconds 30)
                 (Subscription.id demo_active_subscription) true)
              (run_ops demo_libs paid_ops initial) in
  let r := with_session (expire_subscriptions (timedelta_seconds 300)) a1 in
  exists expired_ids canceled_ids,
    fst r = Return (expired_ids, canceled_ids) /\
    In (Subscription.mk 1 1 1 canceled 200000000 true None (Some 300000000)
          None "sub_s0" true 10000000 300000000)
       (subscriptions (db (snd r))) /\
    In (Subscription.id demo_active_subscription) canceled_ids.
Proof.
  assert (Hin : In demo_active_subscription
                   (subscriptions (db (run_ops demo_libs paid_ops initial))))
    by (vm_compute; left; reflexivity).
  assert (Hst : Subscription.status demo_active_subscription = active)
    by (vm_compute; reflexivity).
  assert (Hpe : Subscription.current_period_end demo_active_subscription
                <= timedelta_seconds 300) by (vm_compute; discriminate).
  assert (Hid : sqlite_integer (Subscription.id demo_active_subscription) = true)
    by (vm_compute; reflexivity).
  split; [exact Hin|]. split; [exact Hid|]. split; [exact Hst|].
  split; [exact Hpe|].
  pose proof (cancel_flag_decides_the_ending demo_libs paid_ops
                (timedelta_seconds 30) (timedelta_seconds 300) true
                demo_active_subscription Hin Hid Hst Hpe) as H.
  cbv zeta in H. destruct H as (e & c & H1 & H2 & H3 & _).
  intros a1 r. exists e, c. split; [exact H1|]. split; [exact H2|].
  apply H3. reflexivity.
Defined.

(** ** Creating a subscription *)

Lemma create_subscription_raise_keeps now uc us subscription_in st :
  match create_subscription now uc us subscription_in st with
  | (Raise _, st') => committed st' = committed st /\ METRICS st' = METRICS st
  | (Return _, _) => True
  end.
Proof.
  unfold create_subscription, _get_or_create_customer_by_email,
    _ensure_provider_customer_id, flush_new_subscription, flush_new_customer,
    session_commit, session_flush, flush.
  run_session.
  repeat match goal with
         | |- context [match ?x with _ => _ end] =>
             match x with
             | context [match _ with _ => _ end] => fail 1
             | _ => destruct x eqn:?
             end
         | |- context [if ?x then _ else _] =>
             match x with
             | context [match _ with _ => _ end] => fail 1
             | context [if _ then _ else _] => fail 1
             | _ => destruct x eqn:?
             end
         end; cbn; auto.
Qed.

(** X19.  [create_subscription] commits only as its last fallible step: a
    call that raises leaves the database and the counters as they were,
    including when a customer was already flushed for the e-mail address.  A
    request with neither a customer id nor an e-mail address is refused
    with InvalidPayloadError; one whose customer id fits a signed 64-bit
    integer and names no row with NotFoundError, whatever e-mail address it
    gives; and one whose customer id does not fit raises the driver's
    OverflowError from the lookup. *)
Theorem create_subscription_is_atomic (now : datetime) (uc us : string)
  (subscription_in : SubscriptionCreateIn.t) (a : App) :
  let r := with_session (create_subscription now uc us subscription_in) a in
  (forall e, fst r = Raise e -> snd r = a) /\
  (SubscriptionCreateIn.customer_id subscription_in = None ->
   SubscriptionCreateIn.customer_email subscription_in = None ->
   fst r = Raise (InvalidPayloadError "customer_id or customer_email is required")) /\
  (forall cid,
     SubscriptionCreateIn.customer_id subscription_in = Some cid ->
     sqlite_integer cid = true ->
     find (fun c => Customer.id c =? cid) (customers (db a)) = None ->
     fst r = Raise (NotFoundError
                      (String.append "Customer '"
                         (String.append (str_int cid) "' not found")))) /\
  (forall cid,
     SubscriptionCreateIn.customer_id subscription_in = Some cid ->
     sqlite_integer cid = false ->
     fst r = Raise OverflowError).
Proof.
  intros r. split; [|split; [|split]].
  - intros e He. subst r. unfold with_session in *. cbn [fst snd] in *.
    pose proof (create_subscription_raise_keeps now uc us subscription_in
                  (open_session a)) as H.
    destruct (create_subscription now uc us subscription_in (open_session a))
      as [[out|e'] st']; cbn [fst snd] in *; [discriminate|].
    destruct H as [-> ->]. apply App_eta.
  - intros Hid Hem. subst r. unfold with_session, create_subscription.
    now rewrite Hid, Hem.
  - intros cid Hid Hfit Hfind. subst r.
    unfold with_session, create_subscription.
    rewrite Hid, Hfit. run_session. cbn [negb working open_session] in *.
    rewrite Hfind.
    now destruct (SubscriptionCreateIn.customer_email subscription_in).
  - intros cid Hid Hfit. subst r. unfold with_session, create_subscription.
    rewrite Hid, Hfit. run_session.
    now destruct (SubscriptionCreateIn.customer_email subscription_in).
Qed.

Lemma create_subscription_atomic_witness :
  let r := with_session
             (create_subscription (timedelta_seconds 10) "c0" "s0"
                (SubscriptionCreateIn.mk (Some 7) (Some "x@y.com") 1)) initial in
  sqlite_integer 7 = true /\
  find (fun c => Customer.id c =? 7) (customers (db initial)) = None /\
  fst r = Raise (NotFoundError "Customer '7' not found") /\ snd r = initial.
Proof.
  intros r.
  pose proof (create_subscription_is_atomic (timedelta_seconds 10) "c0" "s0"
                (SubscriptionCreateIn.mk (Some 7) (Some "x@y.com") 1) initial)
    as (H1 & _ & H3 & _).
  assert (Hfit : sqlite_integer 7 = true) by (vm_compute; reflexivity).
  assert (Hfind : find (fun c => Customer.id c =? 7) (customers (db initial))
                  = None) by reflexivity.
  pose proof (H3 7 eq_refl Hfit Hfind) as He.
  split; [exact Hfit|]. split; [exact Hfind|]. split; [exact He|].
  exact (H1 _ He).
Defined.


Lemma NoDup_map_key_customer (rows : list Customer.t) (x y : Customer.t) :
  NoDup (map Customer.id rows) -> In x rows -> In y rows ->
  Customer.id x = Customer.id y -> x = y.
Proof. apply NoDup_map_key. Qed.

Lemma find_provider_customer_id (s : Store) (c : Customer.t) (p : string) :
  customers_well_keyed s -> In c (customers s) ->
  Customer.provider_customer_id c = Some p ->
  find (fun c => opt_string_eqb (Customer.provider_customer_id c) p)
       (customers s) = Some c.
Proof.
  intros [_ Hu] Hin Hp.
  destruct (find _ (customers s)) as [x|] eqn:E.
  - apply find_some in E. destruct E as [Hx He]. f_equal.
    unfold opt_string_eqb in He.
    destruct (Customer.provider_customer_id x) as [q|] eqn:Hq; [|discriminate].
    apply String.eqb_eq in He. subst q. eapply Hu; eauto.
  - apply (find_none _ _ E) in Hin. unfold opt_string_eqb in Hin.
    rewrite Hp, String.eqb_refl in Hin. discriminate.
Qed.

Lemma well_keyed_new_customer (s : Store) (c : Z -> Customer.t) :
  (forall id, Customer.id (c id) = id) ->
  (forall id, Customer.provider_customer_id (c id) = None) ->
  customers_well_keyed s ->
  customers_well_keyed
    (set_customers
       (customers s ++ [c (next_id (map Customer.id (customers s)))]) s).
Proof.
  intros Hid Hnone [Hnd Hu]. split; cbn [customers set_customers].
  - rewrite map_app. cbn [map]. rewrite Hid.
    apply NoDup_app; [exact Hnd|repeat constructor; cbn; tauto|].
    intros i Hi [<-|[]]. apply next_id_fresh in Hi. lia.
  - intros c1 c2 p H1 H2 Hp1 Hp2.
    apply in_app_or in H1. apply in_app_or in H2.
    destruct H1 as [H1|[<-|[]]]; [|rewrite Hnone in Hp1; discriminate].
    destruct H2 as [H2|[<-|[]]]; [|rewrite Hnone in Hp2; discriminate].
    eapply Hu; eauto.
Qed.

Lemma well_keyed_set_provider_id (s : Store) (c0 : Customer.t) (p : string) :
  existsb (fun r => opt_string_eqb (Customer.provider_customer_id r) p)
          (customers s) = false ->
  customers_well_keyed s ->
  customers_well_keyed
    (set_customers
       (update_rows Customer.id (Customer.id c0)
          (Customer.set_provider_customer_id (Some p)) (customers s)) s).
Proof.
  intros Hex [Hnd Hu]. split; cbn [customers set_customers].
  - rewrite map_key_update_rows; [exact Hnd|reflexivity].
  - assert (Hfree : forall r, In r (customers s) ->
                      Customer.provider_customer_id r <> Some p).
    { intros r Hr Hp. apply Bool.not_true_iff_false in Hex. apply Hex.
      apply existsb_exists. exists r. split; [exact Hr|].
      unfold opt_string_eqb. now rewrite Hp, String.eqb_refl. }
    intros c1 c2 q H1 H2 Hp1 Hp2. unfold update_rows in H1, H2.
    apply in_map_iff in H1. destruct H1 as (r1 & <- & H1).
    apply in_map_iff in H2. destruct H2 as (r2 & <- & H2).
    destruct (Customer.id r1 =? Customer.id c0) eqn:E1;
      destruct (Customer.id r2 =? Customer.id c0) eqn:E2.
    + apply Z.eqb_eq in E1, E2.
      assert (r1 = r2) by (eapply NoDup_map_key_customer; eauto; congruence).
      now subst.
    + cbn in Hp1. injection Hp1 as <-. now apply Hfree in Hp2.
    + cbn in Hp2. injection Hp2 as <-. now apply Hfree in Hp1.
    + eapply Hu; eauto.
Qed.

Lemma ensure_provider_customer_id_run uc (c0 : Customer.t) st p st2 :
  _ensure_provider_customer_id uc c0 st = (Return p, st2) ->
  In c0 (customers (working st)) ->
  customers_well_keyed (working st) ->
  customers_well_keyed (working st2) /\
  committed st2 = committed st /\ METRICS st2 = METRICS st /\
  subscriptions (working st2) = subscriptions (working st) /\
  exists c, In c (customers (working st2)) /\
            Customer.provider_customer_id c = Some p /\
            Customer.id c = Customer.id c0.
Proof.
  intros Hrun Hin Hk. unfold _ensure_provider_customer_id in Hrun.
  destruct st as [cm wk cl mt]. cbn [working committed METRICS calls] in *.
  assert (Hnew :
    (session_add ;;
     session_flush ;;
     rows <- read customers ;;
     if existsb (fun r => opt_string_eqb (Customer.provider_customer_id r)
                            (String.append "cus_" uc)) rows
     then raise (IntegrityError
                   "UNIQUE constraint failed: customer.provider_customer_id")
     else update_customer (Customer.id c0)
            (Customer.set_provider_customer_id (Some (String.append "cus_" uc))) ;;
          ret (String.append "cus_" uc)) (mkEnv cm wk cl mt) = (Return p, st2) ->
    customers_well_keyed (working st2) /\
    committed st2 = cm /\ METRICS st2 = mt /\
    subscriptions (working st2) = subscriptions wk /\
    exists c, In c (customers (working st2)) /\
              Customer.provider_customer_id c = Some p /\
              Customer.id c = Customer.id c0).
  { clear Hrun. run_session. rewrite session_flush_cases.
    destruct (needs_rollback _); [discriminate|].
    destruct (flushable _); [|discriminate].
    run_session. intros Hrun.
    destruct (existsb _ (customers wk)) eqn:Hex; [discriminate|].
    injection Hrun as <- <-. cbn [working committed METRICS].
    split; [now apply well_keyed_set_provider_id|].
    split; [reflexivity|]. split; [reflexivity|]. split; [reflexivity|].
    exists (Customer.set_provider_customer_id (Some (String.append "cus_" uc)) c0).
    split; [|split; reflexivity].
    cbn [customers set_customers]. unfold update_rows. apply in_map_iff.
    exists c0. now rewrite Z.eqb_refl. }
  destruct (Customer.provider_customer_id c0) as [[|ch rest]|] eqn:Hp;
    try (apply Hnew; exact Hrun).
  unfold ret in Hrun. injection Hrun as <- <-.
  split; [exact Hk|]. split; [reflexivity|]. split; [reflexivity|].
  split; [reflexivity|]. exists c0. auto.
Qed.

Lemma find_app_last {A} (f : A -> bool) (l : list A) (x : A) :
  existsb f l = false -> f x = true -> find f (l ++ [x]) = Some x.
Proof.
  induction l as [|a l IH]; cbn [existsb find app]; intros He Hx.
  - now rewrite Hx.
  - apply Bool.orb_false_iff in He. destruct He as [-> He]. now apply IH.
Qed.

Lemma customer_by_id_run cid st (c0 : Customer.t) st1 :
  (customer <-
     (if negb (sqlite_integer cid) then raise OverflowError
      else read (fun s => find (fun c => Customer.id c =? cid) (customers s))) ;;
   match customer with
   | None =>
       raise (NotFoundError
                (String.append "Customer '"
                   (String.append (str_int cid) "' not found")))
   | Some customer => ret customer
   end) st = (Return c0, st1) ->
  st1 = st /\ In c0 (customers (working st)).
Proof.
  destruct st as [cm wk cl mt].
  destruct (negb (sqlite_integer cid)); run_session; [discriminate|].
  destruct (find _ (customers wk)) as [c|] eqn:Hf; [|discriminate].
  intros [= <- <-]. split; [reflexivity|].
  apply find_some in Hf. tauto.
Qed.

Lemma get_or_create_customer_by_email_run now email st (c0 : Customer.t) st1 :
  _get_or_create_customer_by_email now email st = (Return c0, st1) ->
  In c0 (customers (working st1)) /\
  (customers_well_keyed (working st) -> customers_well_keyed (working st1)) /\
  committed st1 = committed st /\ METRICS st1 = METRICS st /\
  subscriptions (working st1) = subscriptions (working st).
Proof.
  destruct st as [cm wk cl mt].
  unfold _get_or_create_customer_by_email, flush_new_customer. run_session.
  destruct (find _ (customers wk)) as [c|] eqn:Hf.
  - intros [= <- <-]. cbn [working committed METRICS].
    apply find_some in Hf. tauto.
  - rewrite session_flush_cases.
    destruct (needs_rollback _); [discriminate|].
    destruct (flushable _); [|discriminate].
    run_session.
    destruct (existsb _ (customers wk)) eqn:Hex; [discriminate|].
    intros [= <- <-]. cbn [working committed METRICS].
    split; [cbn [customers set_customers]; apply in_or_app; right; now left|].
    split; [|auto].
    apply (well_keyed_new_customer wk
             (fun id => Customer.mk id None email (Some "active") now));
      reflexivity.
Qed.

Lemma flush_new_subscription_run (row : Z -> Subscription.t) st sub st3 :
  flush_new_subscription row st = (Return sub, st3) ->
  (forall i j, Subscription.provider_subscription_id (row i)
               = Subscription.provider_subscription_id (row j)) ->
  sub = row (next_id (map Subscription.id (subscriptions (working st)))) /\
  working st3
  = set_subscriptions (subscriptions (working st) ++ [sub]) (working st) /\
  committed st3 = committed st /\ METRICS st3 = METRICS st /\
  find (fun r => String.eqb (Subscription.provider_subscription_id r)
                            (Subscription.provider_subscription_id sub))
       (subscriptions (working st) ++ [sub]) = Some sub.
Proof.
  destruct st as [cm wk cl mt]. unfold flush_new_subscription. run_session.
  destruct (negb _); [discriminate|].
  destruct (existsb _ (subscriptions wk)) eqn:Hex; [discriminate|].
  intros [= <- <-] Hp. cbn [working committed METRICS].
  repeat (split; [reflexivity|]).
  apply find_app_last; [exact Hex|apply String.eqb_refl].
Qed.

Lemma create_subscription_run now uc us subscription_in st out st' :
  create_subscription now uc us subscription_in st = (Return out, st') ->
  customers_well_keyed (working st) ->
  customers_well_keyed (working st') /\
  committed st' = working st' /\ METRICS st' = METRICS st /\
  exists customer subscription,
    find (fun c => opt_string_eqb (Customer.provider_customer_id c)
                     (SubscriptionCreateOut.provider_customer_id out))
         (customers (working st')) = Some customer /\
    Customer.id customer = SubscriptionCreateOut.customer_id out /\
    find (fun r => String.eqb (Subscription.provider_subscription_id r)
                     (SubscriptionCreateOut.provider_subscription_id out))
         (subscriptions (working st')) = Some subscription /\
    subscriptions (working st') = subscriptions (working st) ++ [subscription] /\
    subscription
    = pending_row now (Customer.id customer)
        (SubscriptionCreateIn.plan_id subscription_in)
        (String.append "sub_" us)
        (next_id (map Subscription.id (subscriptions (working st)))) /\
    out = SubscriptionCreateOut.mk (Subscription.id subscription)
            (String.append "sub_" us) (Customer.id customer)
            (SubscriptionCreateOut.provider_customer_id out)
            pending_activation
            (SubscriptionCreateIn.plan_id subscription_in).
Proof.
  intros Hrun Hk. unfold create_subscription in Hrun.
  assert (Hbody : forall (step : M Customer.t),
    (forall c0 st1, step st = (Return c0, st1) ->
       In c0 (customers (working st1)) /\
       (customers_well_keyed (working st) -> customers_well_keyed (working st1)) /\
       committed st1 = committed st /\ METRICS st1 = METRICS st /\
       subscriptions (working st1) = subscriptions (working st)) ->
    (customer <- step ;;
     provider_customer_id <- _ensure_provider_customer_id uc customer ;;
     subscription <- flush_new_subscription (fun id =>
       Subscription.mk id (Customer.id customer)
         (SubscriptionCreateIn.plan_id subscription_in)
         pending_activation now false None None None
         (String.append "sub_" us) false now now) ;;
     session_commit ;;
     session_refresh ;;
     ret (SubscriptionCreateOut.mk (Subscription.id subscription)
            (String.append "sub_" us) (Customer.id customer)
            provider_customer_id (Subscription.status subscription)
            (Subscription.plan_id subscription))) st = (Return out, st') ->
    customers_well_keyed (working st') /\
    committed st' = working st' /\ METRICS st' = METRICS st /\
    exists customer subscription,
      find (fun c => opt_string_eqb (Customer.provider_customer_id c)
                       (SubscriptionCreateOut.provider_customer_id out))
           (customers (working st')) = Some customer /\
      Customer.id customer = SubscriptionCreateOut.customer_id out /\
      find (fun r => String.eqb (Subscription.provider_subscription_id r)
                       (SubscriptionCreateOut.provider_subscription_id out))
           (subscriptions (working st')) = Some subscription /\
      subscriptions (working st') = subscriptions (working st) ++ [subscription] /\
      subscription
      = pending_row now (Customer.id customer)
          (SubscriptionCreateIn.plan_id subscription_in)
          (String.append "sub_" us)
          (next_id (map Subscription.id (subscriptions (working st)))) /\
      out = SubscriptionCreateOut.mk (Subscription.id subscription)
              (String.append "sub_" us) (Customer.id customer)
              (SubscriptionCreateOut.provider_customer_id out)
              pending_activation
              (SubscriptionCreateIn.plan_id subscription_in)).
  { clear Hrun. intros step Hstep Hrun.
    apply bind_inv in Hrun. destruct Hrun as (c0 & st1 & H1 & Hrun).
    destruct (Hstep c0 st1 H1) as (Hin & Hk1 & Hc1 & Hm1 & Hs1).
    apply bind_inv in Hrun. destruct Hrun as (p & st2 & H2 & Hrun).
    destruct (ensure_provider_customer_id_run uc c0 st1 p st2 H2 Hin (Hk1 Hk))
      as (Hk2 & Hc2 & Hm2 & Hs2 & c & Hcin & Hcp & Hcid).
    apply bind_inv in Hrun. destruct Hrun as (sub & st3 & H3 & Hrun).
    destruct (flush_new_subscription_run _ st2 sub st3 H3 (fun _ _ => eq_refl))
      as (Hsub & Hw3 & Hc3 & Hm3 & Hfind).
    apply bind_inv in Hrun. destruct Hrun as (u & st4 & H4 & Hrun).
    apply session_commit_inv in H4. subst st4.
    cbv beta iota delta [bind ret session_refresh log_call] in Hrun.
    injection Hrun as <- <-.
    cbn [working committed METRICS SubscriptionCreateOut.provider_customer_id
         SubscriptionCreateOut.provider_subscription_id
         SubscriptionCreateOut.customer_id].
    rewrite Hw3. cbn [customers subscriptions set_subscriptions].
    assert (Hk3 : customers_well_keyed
                    (set_subscriptions (subscriptions (working st2) ++ [sub])
                       (working st2))) by exact Hk2.
    split; [exact Hk3|]. split; [reflexivity|].
    split; [congruence|].
    exists c, sub.
    split; [now apply (find_provider_customer_id (working st2))|].
    split; [exact Hcid|].
    assert (Hpsid : Subscription.provider_subscription_id sub
                    = String.append "sub_" us) by (rewrite Hsub; reflexivity).
    split; [rewrite Hpsid in Hfind; exact Hfind|].
    rewrite Hs2, Hs1. split; [reflexivity|].
    rewrite Hs2, Hs1 in Hsub. rewrite Hcid.
    split; [exact Hsub|]. rewrite Hsub. reflexivity. }
  destruct (SubscriptionCreateIn.customer_id subscription_in) as [cid|];
    [|destruct (SubscriptionCreateIn.customer_email subscription_in) as [email|];
      [|discriminate]].
  - assert (Hrun' := Hrun).
    destruct (SubscriptionCreateIn.customer_email subscription_in);
      (apply (Hbody _) in Hrun'; [exact Hrun'|]);
      intros c0 st1 H1; apply customer_by_id_run in H1;
      destruct H1 as [-> Hin]; auto.
  - apply (Hbody _) in Hrun; [exact Hrun|].
    intros c0 st1 H1. now apply get_or_create_customer_by_email_run in H1.
Qed.

Lemma well_keyed_step (L : Libs) (op : Op) (a : App) :
  customers_well_keyed (db a) -> customers_well_keyed (db (exec L op a)).
Proof.
  intros H.
  assert (Hs : both customers_well_keyed (open_session a)) by (split; exact H).
  destruct op; cbn [exec discard].
  - unfold with_session. cbn [snd db].
    pose proof (create_subscription_raise_keeps now uuid_customer
                  uuid_subscription subscription_in (open_session a)) as Hraise.
    destruct (create_subscription now uuid_customer uuid_subscription
                subscription_in (open_session a)) as [[out|e] st'] eqn:Hrun;
      cbn [snd].
    + destruct (create_subscription_run _ _ _ _ _ _ _ Hrun H) as (Hk & -> & _).
      exact Hk.
    + destruct Hraise as [-> _]. exact H.
  - refine (proj2 (preserves_process_webhook L customers_well_keyed
                     _ _ _ _ _ _ _ _ _ (open_session a) Hs));
      intros; assumption.
  - refine (proj2 (preserves_enforce_grace_period customers_well_keyed
                     _ _ (open_session a) Hs)); intros; assumption.
  - refine (proj2 (preserves_expire_subscriptions customers_well_keyed
                     _ _ (open_session a) Hs)); intros; assumption.
  - refine (proj2 (preserves_retry_failed_webhooks L customers_well_keyed
                     _ _ _ _ _ _ (open_session a) Hs)); intros; assumption.
  - refine (proj2 (preserves_reprocess_webhook_event L customers_well_keyed
                     _ _ _ _ _ _ (open_session a) Hs)); intros; assumption.
  - refine (proj2 (preserves_set_subscription_cancel_at_period_end
                     customers_well_keyed _ _ _ _ (open_session a) Hs));
      intros; assumption.
Qed.

Lemma reachable_customers_well_keyed (L : Libs) (ops : list Op) :
  customers_well_keyed (db (run_ops L ops initial)).
Proof.
  assert (Hrun : forall l a, customers_well_keyed (db a) ->
                   customers_well_keyed (db (run_ops L l a))).
  { unfold run_ops. induction l as [|op l IH]; intros a H; cbn [fold_left];
      [exact H|]. apply IH. now apply well_keyed_step. }
  apply Hrun. split; [constructor|]. intros c1 c2 p [].
Qed.

(** X20.  The identifiers [create_subscription] returns resolve to the rows
    it stored: in the database it leaves, the payment handlers' lookup by
    [provider_customer_id] finds the customer with the returned key, their
    lookup by [provider_subscription_id] finds the new subscription, and that
    subscription belongs to that customer.  The subscription is the one row
    added to its table; it is pending activation with its period end at the
    clock reading.  The counters are untouched. *)
Theorem created_subscription_resolves (L : Libs) (ops : list Op)
  (now : datetime) (uc us : string) (subscription_in : SubscriptionCreateIn.t)
  (out : SubscriptionCreateOut.t) (a' : App) :
  with_session (create_subscription now uc us subscription_in)
    (run_ops L ops initial) = (Return out, a') ->
  exists customer subscription,
    find (fun c => opt_string_eqb (Customer.provider_customer_id c)
                     (SubscriptionCreateOut.provider_customer_id out))
         (customers (db a')) = Some customer /\
    find (fun r => String.eqb (Subscription.provider_subscription_id r)
                     (SubscriptionCreateOut.provider_subscription_id out))
         (subscriptions (db a')) = Some subscription /\
    Customer.id customer = SubscriptionCreateOut.customer_id out /\
    Subscription.id subscription = SubscriptionCreateOut.subscription_id out /\
    Subscription.customer_id subscription = Customer.id customer /\
    Subscription.status subscription = pending_activation /\
    Subscription.current_period_end subscription = now /\
    Subscription.plan_id subscription
    = SubscriptionCreateIn.plan_id subscription_in /\
    subscriptions (db a')
    = subscriptions (db (run_ops L ops initial)) ++ [subscription] /\
    metrics a' = metrics (run_ops L ops initial).
Proof.
  intros Hrun. unfold with_session in Hrun.
  destruct (create_subscription now uc us subscription_in
              (open_session (run_ops L ops initial))) as [o st'] eqn:Hm.
  cbn [fst snd] in Hrun. injection Hrun as -> <-.
  destruct (create_subscription_run _ _ _ _ _ _ _ Hm
              (reachable_customers_well_keyed L ops))
    as (_ & Hc & Hmt & customer & subscription & H1 & H2 & H3 & H4 & H5 & H6).
  cbn [db metrics]. rewrite Hc.
  exists customer, subscription.
  split; [exact H1|]. split; [exact H3|]. split; [exact H2|].
  rewrite H6 at 1. cbn [SubscriptionCreateOut.subscription_id].
  split; [reflexivity|]. rewrite H5 at 1 2 3 4.
  cbn [pending_row Subscription.customer_id Subscription.status
       Subscription.current_period_end Subscription.plan_id].
  repeat (split; [reflexivity|]). split; [exact H4|exact Hmt].
Qed.

Lemma created_subscription_witness :
  with_session
    (create_subscription (timedelta_seconds 10) "c0" "s0"
       (SubscriptionCreateIn.mk None (Some "x@y.com") 1))
    (run_ops demo_libs [] initial)
  = (Return (SubscriptionCreateOut.mk 1 "sub_s0" 1 "cus_c0" pending_activation 1),
     mkApp (mkStore [demo_customer] [demo_pending_subscription] [] [])
           METRICS_initial) /\
  exists customer subscription,
    find (fun c => opt_string_eqb (Customer.provider_customer_id c) "cus_c0")
         [demo_customer] = Some customer /\
    find (fun r => String.eqb (Subscription.provider_subscription_id r) "sub_s0")
         [demo_pending_subscription] = Some subscription /\
    Subscription.customer_id subscription = Customer.id customer.
Proof.
  assert (Hrun : with_session
                   (create_subscription (timedelta_seconds 10) "c0" "s0"
                      (SubscriptionCreateIn.mk None (Some "x@y.com") 1))
                   (run_ops demo_libs [] initial)
                 = (Return (SubscriptionCreateOut.mk 1 "sub_s0" 1 "cus_c0"
                              pending_activation 1),
                    mkApp (mkStore [demo_customer] [demo_pending_subscription]
                             [] [])
                          METRICS_initial))
    by (vm_compute; reflexivity).
  split; [exact Hrun|].
  destruct (created_subscription_resolves demo_libs [] _ _ _ _ _ _ Hrun)
    as (customer & subscription & H1 & H2 & _ & _ & H5 & _).
  exists customer, subscription. split; [exact H1|]. split; [exact H2|exact H5].
Defined.

(** ** Deliveries outside the typed handlers *)

(** X21.  A first delivery whose event type has no registered handler, and
    whose body decodes to an object, is stored as ignored: the call returns
    the new row with status ignored and [processed_at] set, the event table
    gains that row and nothing else in the database changes, and
    [webhook_ignored] alone is incremented. *)
Theorem unknown_event_type_is_ignored (L : Libs) now provider webhook verified
  a pd :
  find (has_key provider (WebhookEventIn.event_id webhook))
       (webhook_events (db a)) = None ->
  let row := received_row now provider webhook verified
               (next_id (map WebhookEvent.id (webhook_events (db a)))) in
  decodes L row pd ->
  handler_kind (WebhookEventIn.event_type webhook) = None ->
  let stored := clear_retry_first_delivery (mark_ignored now row) in
  with_session (process_webhook L now provider webhook verified) a
  = (Return stored,
     mkApp (set_webhook_events (webhook_events (db a) ++ [stored]) (db a))
           (incr_webhook_ignored (metrics a))) /\
  WebhookEvent.processing_status stored = ignored /\
  WebhookEvent.processed_at stored = Some now /\
  WebhookEvent.attempt_count stored = 1.
Proof.
  intros Hfind row Hdec Hk stored.
  split; [|repeat split; reflexivity].
  assert (Hrun : exists st,
             process_webhook L now provider webhook verified (open_session a)
             = (Return stored, st) /\
             committed st
             = set_webhook_events (webhook_events (db a) ++ [stored]) (db a) /\
             METRICS st = incr_webhook_ignored (metrics a)).
  { rewrite (process_webhook_first_delivery L _ _ _ _ _ Hfind). fold row.
    set (st1 := mkEnv _ _ _ _).
    unfold try_except, bind at 1.
    rewrite (dispatch_event_unknown L now row st1 pd Hdec Hk).
    subst st1. run_session. store_simpl.
    assert (Hid : WebhookEvent.id row
                  = next_id (map WebhookEvent.id (webhook_events (db a))))
      by reflexivity.
    rewrite (update_rows_new WebhookEvent.id (mark_ignored now) _ row Hid).
    change (WebhookEvent.id row) with (WebhookEvent.id (mark_ignored now row)).
    rewrite (find_key_new WebhookEvent.id _ (mark_ignored now row) Hid).
    cbn [mark_ignored WebhookEvent.processing_status
         WebhookEvent.set_processed_at WebhookEvent.set_processing_status
         WebhookProcessingStatus_eqb].
    change (WebhookEvent.set_processed_at (Some now)
              (WebhookEvent.set_processing_status ignored row))
      with (mark_ignored now row).
    store_simpl.
    rewrite session_commit_returns;
      [|cbn [calls]; rewrite ?needs_rollback_snoc; reflexivity
       |apply flushable_no_payment; reflexivity].
    run_session. store_simpl.
    rewrite (update_rows_new WebhookEvent.id clear_retry_first_delivery _
               (mark_ignored now row) Hid).
    fold stored.
    change (WebhookEvent.id (mark_ignored now row))
      with (WebhookEvent.id stored).
    rewrite (find_key_new WebhookEvent.id _ stored Hid).
    eexists. split; [reflexivity|]. store_simpl. split; reflexivity. }
  destruct Hrun as (st & Hrun & Hdb & Hm).
  unfold with_session. rewrite Hrun. cbn [fst snd]. rewrite Hdb, Hm. reflexivity.
Qed.

(** The ping event of the scenarios, delivered to the empty database. *)
Lemma unknown_event_type_witness :
  find (has_key "test" "evt_ping") (webhook_events (db initial)) = None /\
  handler_kind "ping" = None /\
  fst (with_session
         (process_webhook demo_libs (timedelta_seconds 20) "test"
            (demo_webhook "evt_ping" "ping") (demo_verified "body_ping" 20))
         initial)
  = Return (clear_retry_first_delivery
              (mark_ignored (timedelta_seconds 20)
                 (received_row (timedelta_seconds 20) "test"
                    (demo_webhook "evt_ping" "ping")
                    (demo_verified "body_ping" 20) 1))).
Proof.
  assert (Hfind : find (has_key "test"
                          (WebhookEventIn.event_id (demo_webhook "evt_ping" "ping")))
                    (webhook_events (db initial)) = None)
    by (vm_compute; reflexivity).
  assert (Hk : handler_kind
                 (WebhookEventIn.event_type (demo_webhook "evt_ping" "ping"))
               = None) by (vm_compute; reflexivity).
  assert (Hdec : decodes demo_libs
                   (received_row (timedelta_seconds 20) "test"
                      (demo_webhook "evt_ping" "ping")
                      (demo_verified "body_ping" 20)
                      (next_id (map WebhookEvent.id (webhook_events (db initial)))))
                   (PyDict [])).
  { eexists. split; [vm_compute; reflexivity|].
    split; [reflexivity|]. eexists. reflexivity. }
  split; [exact Hfind|]. split; [exact Hk|].
  pose proof (unknown_event_type_is_ignored demo_libs (timedelta_seconds 20)
                "test" (demo_webhook "evt_ping" "ping")
                (demo_verified "body_ping" 20) initial (PyDict [])
                Hfind Hdec Hk) as H.
  cbv zeta in H. rewrite (proj1 H). reflexivity.
Defined.

Lemma filter_key_at_most_one (rows : list WebhookEvent.t) (k : string * string) :
  NoDup (map event_key rows) ->
  filter (fun e => String.eqb (WebhookEvent.event_id e) (snd k)
                   && String.eqb (WebhookEvent.provider e) (fst k)) rows = []
  \/ exists e, filter (fun e => String.eqb (WebhookEvent.event_id e) (snd k)
                                && String.eqb (WebhookEvent.provider e) (fst k))
                 rows = [e].
Proof.
  induction rows as [|r rows IH]; cbn [map filter]; intros Hnd; [now left|].
  inversion Hnd as [|? ? Hnotin Hnd']; subst.
  destruct (String.eqb (WebhookEvent.event_id r) (snd k)
            && String.eqb (WebhookEvent.provider r) (fst k)) eqn:E;
    [|now apply IH].
  right. exists r. f_equal. apply filter_none. intros x Hx.
  apply Bool.not_true_iff_false. intros Ex. apply Hnotin.
  apply andb_prop in E. apply andb_prop in Ex.
  destruct E as [E1 E2], Ex as [Ex1 Ex2].
  apply String.eqb_eq in E1, E2, Ex1, Ex2.
  apply in_map_iff. exists x. split; [|exact Hx].
  unfold event_key. congruence.
Qed.

(** X22.  In a reachable state a lookup of an event by [event_id] that names
    a provider never meets two rows: it returns the one stored row with that
    provider and [event_id], or raises NotFoundError when there is none; the
    multiple-events error is left to lookups without a provider. *)
Theorem lookup_with_provider_is_unambiguous (L : Libs) (ops : list Op)
  (event_id : string) (ch : ascii) (rest : string) :
  let a := run_ops L ops initial in
  let provider := String ch rest in
  match find (has_key provider event_id) (webhook_events (db a)) with
  | Some event =>
      with_session (get_webhook_event event_id (Some provider)) a
      = (Return event, a)
  | None =>
      with_session (get_webhook_event event_id (Some provider)) a
      = (Raise (NotFoundError
                  (String.append "Webhook '"
                     (String.append event_id "' not found"))), a)
  end.
Proof.
  intros a provider.
  pose proof (event_keys_stay_unique_rows L ops) as Hnd. fold a in Hnd.
  clearbody a.
  assert (Hget : forall st,
             get_webhook_event event_id (Some provider) st
             = match filter (fun e => String.eqb (WebhookEvent.event_id e) event_id
                                      && String.eqb (WebhookEvent.provider e)
                                                    provider)
                       (webhook_events (working st)) with
               | [] => (Raise (NotFoundError
                                 (String.append "Webhook '"
                                    (String.append event_id "' not found"))), st)
               | [event] => (Return event, st)
               | _ => (Raise (InvalidPayloadError
                                "multiple events found; specify provider"), st)
               end).
  { intros st. subst provider.
    unfold get_webhook_event, bind, read, raise, ret. cbv beta iota.
    destruct (filter _ (webhook_events (working st))) as [|e [|e' l]];
      reflexivity. }
  unfold with_session. rewrite Hget. cbn [working open_session].
  destruct (filter_key_at_most_one (webhook_events (db a)) (provider, event_id) Hnd)
    as [Hf|[e Hf]]; cbn [fst snd] in Hf; rewrite Hf;
    cbn [fst snd committed METRICS].
  - replace (find (has_key provider event_id) (webhook_events (db a)))
      with (@None WebhookEvent.t); [now destruct a|].
    symmetry. destruct (find _ _) as [x|] eqn:E; [|reflexivity].
    apply find_some in E. destruct E as [Hx Hk].
    assert (Hin : In x (filter (fun e => String.eqb (WebhookEvent.event_id e) event_id
                                         && String.eqb (WebhookEvent.provider e)
                                                       provider)
                          (webhook_events (db a)))).
    { apply filter_In. split; [exact Hx|]. unfold has_key in Hk.
      now rewrite Bool.andb_comm. }
    rewrite Hf in Hin. destruct Hin.
  - assert (He : In e (filter (fun e => String.eqb (WebhookEvent.event_id e) event_id
                                        && String.eqb (WebhookEvent.provider e)
                                                      provider)
                         (webhook_events (db a)))) by (rewrite Hf; now left).
    apply filter_In in He. destruct He as [Hin Hk].
    replace (find (has_key provider event_id) (webhook_events (db a)))
      with (Some e); [now destruct a|].
    symmetry. destruct (find _ _) as [x|] eqn:E.
    + apply find_some in E. destruct E as [Hx Hkx]. f_equal.
      assert (Hx' : In x (filter (fun e => String.eqb (WebhookEvent.event_id e)
                                             event_id
                                           && String.eqb (WebhookEvent.provider e)
                                                         provider)
                            (webhook_events (db a)))).
      { apply filter_In. split; [exact Hx|]. unfold has_key in Hkx.
        now rewrite Bool.andb_comm. }
      rewrite Hf in Hx'. destruct Hx' as [->|[]]. reflexivity.
    + apply (find_none _ _ E) in Hin. unfold has_key in Hin.
      rewrite Bool.andb_comm in Hin. congruence.
Qed.

(** ** The retry sweep *)

(** A dispatch of an event whose amount can be stored leaves the session
    able to flush. *)
Lemma dispatch_event_keeps_flushable (L : Libs) now ev st :
  storable_amounts L [ev] -> flushable st = true ->
  flushable (snd (dispatch_event L now ev st)) = true.
Proof.
  intros Hs Hf.
  destruct (dispatch_event_cases L now ev st)
    as [[e He]|[(pd & _ & _ & Hrun)
               |(pd & k & p & c & pe & sub & Hdec & Hk & Hres & Hrun)]];
    rewrite ?He, ?Hrun.
  - exact Hf.
  - rewrite <- Hf. apply flushable_same_payments; now destruct st.
  - unfold bind.
    destruct (Z.lt_ge_cases pe (Subscription.current_period_end sub))
      as [Hlt|Hge].
    + rewrite settle_stale by exact Hlt.
      rewrite <- Hf. apply flushable_same_payments; now destruct st.
    + rewrite settle_applied by exact Hge.
      apply (flushable_add_payment st _
               (payment_row (kind_status k) now ev p c sub
                  (next_id (map Payment.id (payments (working st))))));
        [now destruct st|now destruct st| |exact Hf].
      apply (Hs ev pd k p); [now left|exact Hdec|exact Hk|exact (proj1 Hres)].
Qed.














(** ** Reprocessing and recovery *)



(** X24.  [reprocess_webhook_event] raises from its lookup, and then
    changes nothing: NotFoundError when no event has the [event_id], and
    InvalidPayloadError when events of several providers share it, since the
    lookup names no provider.  With exactly one such event, an error of the
    dispatch is swallowed: the event is marked failed with the error's text,
    that mark is committed, [webhook_failed] is incremented and the call
    returns.  The commit comes after the [try]: the call raises only when
    the commit cannot store the payment the handler added, and the database
    is then left as it was; it returns whenever the amount in the event's
    body fits a signed 64-bit integer. *)
Theorem reprocess_raises_from_lookup_or_commit (L : Libs) (now : datetime)
  (event_id : string) (a : App) :
  let r := with_session (reprocess_webhook_event L now event_id) a in
  match filter (fun e => String.eqb (WebhookEvent.event_id e) event_id && true)
          (webhook_events (db a)) with
  | [] =>
      r = (Raise (NotFoundError
                    (String.append "Webhook '"
                       (String.append event_id "' not found"))), a)
  | [event] =>
      (forall e st1,
          dispatch_event L now event (open_session a) = (Raise e, st1) ->
          exists row,
            r = (Return row,
                 mkApp (set_webhook_events
                          (update_rows WebhookEvent.id (WebhookEvent.id event)
                             (mark_failed_row now (str_exc e))
                             (webhook_events (db a)))
                          (db a))
                       (incr_webhook_failed (metrics a)))) /\
      (storable_amounts L [event] -> exists row a', r = (Return row, a')) /\
      (forall e a', r = (Raise e, a') -> e = OverflowError /\ db a' = db a)
  | _ :: _ :: _ =>
      r = (Raise (InvalidPayloadError "multiple events found; specify provider"),
           a)
  end.
Proof.
  intros r.
  assert (Hget : forall st,
             get_webhook_event event_id None st
             = match filter (fun e => String.eqb (WebhookEvent.event_id e) event_id
                                      && true)
                       (webhook_events (working st)) with
               | [] => (Raise (NotFoundError
                                 (String.append "Webhook '"
                                    (String.append event_id "' not found"))), st)
               | [event] => (Return event, st)
               | _ => (Raise (InvalidPayloadError
                                "multiple events found; specify provider"), st)
               end).
  { intros st. unfold get_webhook_event, bind, read, raise, ret. cbv beta iota.
    destruct (filter _ (webhook_events (working st))) as [|e [|e' l]];
      reflexivity. }
  subst r. unfold with_session, reprocess_webhook_event.
  pose proof (Hget (open_session a)) as Hg. cbn [working open_session] in Hg.
  destruct (filter _ (webhook_events (db a))) as [|event [|event' l]].
  - erewrite bind_raise; [|exact Hg]. cbn [fst snd committed METRICS open_session].
    now rewrite App_eta.
  - erewrite bind_return; [|exact Hg].
    pose proof (dispatch_event_keeps_counters L now event (open_session a))
      as [_ Hc].
    pose proof (dispatch_event_keeps_session L now event (open_session a)) as Hs.
    pose proof (dispatch_event_keeps_flushable L now event (open_session a))
      as Hfl.
    destruct (dispatch_event L now event (open_session a)) as [[u|e] st1] eqn:Hd;
      cbn [snd] in Hc, Hs, Hfl.
    + destruct (count_outcome_counters event st1) as (m & Hcount & _).
      destruct st1 as [c1 w1 cl1 m1].
      cbn [committed working calls METRICS open_session] in *.
      erewrite bind_return.
      2:{ apply try_except_return. erewrite bind_return; [|exact Hd].
          erewrite bind_return; [|exact Hcount]. reflexivity. }
      rewrite add_commit_refresh_cases.
      cbn [calls committed working METRICS]. rewrite Hs. cbn [needs_rollback fold_left].
      rewrite (flushable_same_payments (mkEnv c1 w1 cl1 m1))
        by reflexivity.
      split; [intros e st2 [=]|]. split.
      * intros Hst. rewrite Hfl;
          [eexists _, _; reflexivity|exact Hst|].
        unfold open_session. apply flushable_no_payment. reflexivity.
      * intros e a'. destruct (flushable (mkEnv c1 w1 cl1 m1));
          cbn [fst snd committed METRICS]; intros Heq; [discriminate Heq|].
        injection Heq as <- <-. cbn [db]. auto.
    + pose proof (dispatch_event_raise_keeps_state L _ _ _ _ _ Hd) as ->.
      erewrite bind_return.
      2:{ erewrite try_except_raise; [|erewrite bind_raise; [reflexivity|exact Hd]].
          unfold _mark_failed. run_session. reflexivity. }
      rewrite add_commit_refresh_cases.
      cbn [calls committed working METRICS needs_rollback fold_left].
      rewrite flushable_no_payment by reflexivity.
      cbn [fst snd committed METRICS].
      split; [|split; [intros _; eexists _, _; reflexivity|discriminate]].
      intros e' st2 [= <- _]. eexists. reflexivity.
  - erewrite bind_raise; [|exact Hg]. cbn [fst snd committed METRICS open_session].
    now rewrite App_eta.
Qed.

(** The early payment event, reprocessed while its customer still does not
    exist: the handler's error is swallowed and committed as a failure. *)
Lemma reprocess_swallows_witness :
  let a := run_ops demo_libs orphan_ops initial in
  let event := demo_early_event in
  let e := InvalidPayloadError "provider_customer_id not found" in
  filter (fun e => String.eqb (WebhookEvent.event_id e) "evt_pay_200" && true)
         (webhook_events (db a)) = [event] /\
  dispatch_event demo_libs (timedelta_seconds 50) event (open_session a)
  = (Raise e, open_session a) /\
  exists row,
    with_session (reprocess_webhook_event demo_libs (timedelta_seconds 50)
                    "evt_pay_200") a
    = (Return row,
       mkApp (set_webhook_events
                (update_rows WebhookEvent.id (WebhookEvent.id event)
                   (mark_failed_row (timedelta_seconds 50) (str_exc e))
                   (webhook_events (db a)))
                (db a))
             (incr_webhook_failed (metrics a))).
Proof.
  intros a event e.
  assert (Hfilter : filter (fun e => String.eqb (WebhookEvent.event_id e)
                                                "evt_pay_200" && true)
                           (webhook_events (db a)) = [event])
    by (vm_compute; reflexivity).
  assert (Hd : dispatch_event demo_libs (timedelta_seconds 50) event
                 (open_session a) = (Raise e, open_session a))
    by (vm_compute; reflexivity).
  split; [exact Hfilter|]. split; [exact Hd|].
  pose proof (reprocess_raises_from_lookup_or_commit demo_libs
                (timedelta_seconds 50) "evt_pay_200" a) as H.
  cbv zeta in H. rewrite Hfilter in H. destruct H as (H1 & _).
  exact (H1 e (open_session a) Hd).
Defined.

(** X25.  A stored event in status failed that is delivered again with its
    own timestamp and signature is dispatched again.  When its payload now
    resolves and is not stale, and its amount fits a signed 64-bit integer,
    the handler's effects are committed (the
    subscription update and one payment row), the event row is marked
    processed with its retry fields and error message cleared and its
    [attempt_count] as it was, and no counter changes: the recovery is
    counted neither as processed nor as replayed. *)
Theorem failed_event_recovers_on_redelivery (L : Libs) now provider webhook
  verified a stored pd k p c pe sub :
  find (has_key provider (WebhookEventIn.event_id webhook))
       (webhook_events (db a)) = Some stored ->
  WebhookEvent.signature_timestamp stored = VerifiedWebhookData.timestamp verified ->
  WebhookEvent.signature stored = VerifiedWebhookData.signature verified ->
  WebhookEvent.processing_status stored = failed ->
  decodes L stored pd ->
  handler_kind (WebhookEvent.event_type stored) = Some k ->
  resolves L (kind_validate L k) now pd (db a) p c pe sub ->
  Subscription.current_period_end sub <= pe ->
  sqlite_integer (Payload.amount p) = true ->
  exists row,
    with_session (process_webhook L now provider webhook verified) a
    = (Return row,
       mkApp (mkStore (customers (db a))
                (update_rows Subscription.id (Subscription.id sub)
                   (kind_apply k now pe) (subscriptions (db a)))
                (payments (db a)
                 ++ [payment_row (kind_status k) now stored p c sub
                       (next_id (map Payment.id (payments (db a))))])
                (update_rows WebhookEvent.id (WebhookEvent.id stored) clear_retry
                   (update_rows WebhookEvent.id (WebhookEvent.id stored)
                      (mark_processed now) (webhook_events (db a)))))
             (metrics a)) /\
    forall e, WebhookEvent.attempt_count (clear_retry (mark_processed now e))
              = WebhookEvent.attempt_count e /\
              WebhookEvent.processing_status (clear_retry (mark_processed now e))
              = processed /\
              WebhookEvent.error_message (clear_retry (mark_processed now e))
              = None /\
              WebhookEvent.needs_attention (clear_retry (mark_processed now e))
              = false.
Proof.
  intros Hfind Hts Hsig Hst Hdec Hk Hres Hle Hamt.
  assert (Hd : dispatch_event L now stored (open_session a)
               = (Return tt,
                  mkEnv (db a)
                    (set_webhook_events
                       (update_rows WebhookEvent.id (WebhookEvent.id stored)
                          (mark_processed now) (webhook_events (db a)))
                       (set_payments
                          (payments (db a)
                           ++ [payment_row (kind_status k) now stored p c sub
                                 (next_id (map Payment.id (payments (db a))))])
                          (set_subscriptions
                             (update_rows Subscription.id (Subscription.id sub)
                                (kind_apply k now pe) (subscriptions (db a)))
                             (db a))))
                    [CallAdd; CallAdd] (metrics a))).
  { rewrite (dispatch_event_run L now stored (open_session a) pd k p c pe sub
               Hdec Hk Hres).
    unfold bind at 1. rewrite settle_applied by exact Hle. reflexivity. }
  assert (Hrun : exists row st,
             process_webhook L now provider webhook verified (open_session a)
             = (Return row, st) /\
             committed st
             = mkStore (customers (db a))
                 (update_rows Subscription.id (Subscription.id sub)
                    (kind_apply k now pe) (subscriptions (db a)))
                 (payments (db a)
                  ++ [payment_row (kind_status k) now stored p c sub
                        (next_id (map Payment.id (payments (db a))))])
                 (update_rows WebhookEvent.id (WebhookEvent.id stored) clear_retry
                    (update_rows WebhookEvent.id (WebhookEvent.id stored)
                       (mark_processed now) (webhook_events (db a)))) /\
             METRICS st = metrics a).
  { unfold process_webhook, bind at 1, _get_existing_event, read.
    change (working (open_session a)) with (db a).
    unfold has_key in Hfind. rewrite Hfind. cbv beta iota.
    unfold _handle_existing_event.
    rewrite Hts, Hsig, Z.eqb_refl, String.eqb_refl, Hst.
    cbn [negb WebhookProcessingStatus_eqb orb].
    erewrite try_except_return.
    2:{ erewrite bind_return; [|exact Hd].
        erewrite bind_return; [|reflexivity].
        rewrite add_commit_refresh_cases.
        cbn [calls committed working METRICS needs_rollback fold_left].
        rewrite (flushable_one_payment _ _ _ _
                   (payment_row (kind_status k) now stored p c sub
                      (next_id (map Payment.id (payments (db a))))))
          by reflexivity.
        cbn [payment_row Payment.amount]. rewrite Hamt. reflexivity. }
    eexists _, _. split; [reflexivity|]. split; reflexivity. }
  destruct Hrun as (row & st & Hrun & Hdb & Hm).
  exists row. split; [|intros e; repeat split; reflexivity].
  unfold with_session. rewrite Hrun. cbn [fst snd]. rewrite Hdb, Hm. reflexivity.
Qed.


(** The early payment event of the scenarios, delivered again at second 20
    with its first timestamp: the call returns and the counters are as they
    were. *)
Lemma failed_event_recovery_witness :
  let a := run_ops demo_libs early_ops initial in
  let webhook := demo_webhook "evt_pay_200" "payment.succeeded" in
  let verified := demo_verified "body_pay_200" 5 in
  find (has_key "test" (WebhookEventIn.event_id webhook))
       (webhook_events (db a)) = Some demo_early_event /\
  WebhookEvent.processing_status demo_early_event = failed /\
  Subscription.current_period_end demo_pending_subscription <= 200000000 /\
  sqlite_integer (Payload.amount demo_parsed_payload) = true /\
  exists row s,
    with_session (process_webhook demo_libs 20000000 "test" webhook verified) a
    = (Return row, mkApp s (metrics a)).
Proof.
  intros a webhook verified.
  assert (Hfind : find (has_key "test" (WebhookEventIn.event_id webhook))
                       (webhook_events (db a)) = Some demo_early_event)
    by (vm_compute; reflexivity).
  assert (Hts : WebhookEvent.signature_timestamp demo_early_event
                = VerifiedWebhookData.timestamp verified)
    by (vm_compute; reflexivity).
  assert (Hsig : WebhookEvent.signature demo_early_event
                 = VerifiedWebhookData.signature verified)
    by (vm_compute; reflexivity).
  assert (Hst : WebhookEvent.processing_status demo_early_event = failed)
    by (vm_compute; reflexivity).
  assert (Hle : Subscription.current_period_end demo_pending_subscription
                <= 200000000) by (vm_compute; discriminate).
  assert (Hc : customers (db a) = [demo_customer]) by (vm_compute; reflexivity).
  assert (Hs : subscriptions (db a) = [demo_pending_subscription])
    by (vm_compute; reflexivity).
  assert (Hdec : decodes demo_libs demo_early_event (demo_payload 200))
    by (apply (demo_decodes _ "evt_pay_200" 200); vm_compute; reflexivity).
  assert (Hk : handler_kind (WebhookEvent.event_type demo_early_event)
               = Some PaymentSucceeded) by (vm_compute; reflexivity).
  split; [exact Hfind|]. split; [exact Hst|]. split; [exact Hle|].
  split; [reflexivity|].
  destruct (failed_event_recovers_on_redelivery demo_libs 20000000 "test"
              webhook verified a demo_early_event (demo_payload 200)
              PaymentSucceeded demo_parsed_payload demo_customer 200000000
              demo_pending_subscription Hfind Hts Hsig Hst Hdec Hk
              (demo_resolves 20000000 (db a) demo_pending_subscription
                 Hc Hs eq_refl eq_refl)
              Hle eq_refl) as (row & Hrun & _).
  exists row. eexists. exact Hrun.
Defined.



